(** * CSB-CodeLabs compiler service: a shallow embedding and its properties

    The development follows the server's compiler service
    (language registry, heuristic syntax checker, execution backends,
    output simulator, dispatcher) and the HTTP controller in front of it.

    Strings.  A JavaScript string is a sequence of UTF-16 code units.  The
    embedding uses [string], reading every [ascii] as the code unit of the
    same number (U+0000 .. U+00FF).  On such strings [trim], [toLowerCase]
    and the regular expressions below are the ECMAScript ones. *)

From Stdlib Require Import Strings.String Strings.Ascii.
From Stdlib Require Import Lists.List Bool.Bool Arith.Arith Arith.PeanoNat.
From Stdlib Require Import ZArith.ZArith micromega.Lia.
From Stdlib Require Import Numbers.DecimalString.
Import ListNotations.

Local Open Scope string_scope.
Local Open Scope bool_scope.
Local Open Scope nat_scope.

(* ================================================================== *)
(** ** JavaScript string primitives *)
(* ================================================================== *)

Module Js.

(** Code units that [String.prototype.trim] removes and that [\s] matches:
    TAB, LF, VT, FF, CR, SPACE and NBSP (the only ones below U+0100). *)
Definition isWhiteSpace (c : ascii) : bool :=
  let n := nat_of_ascii c in
  ((9 <=? n) && (n <=? 13)) || (n =? 32) || (n =? 160).

(** Line terminators below U+0100: LF and CR ([.] does not match them, and
    a multiline [$] matches in front of them). *)
Definition isLineTerminator (c : ascii) : bool :=
  let n := nat_of_ascii c in (n =? 10) || (n =? 13).

(** [\w] *)
Definition isWordChar (c : ascii) : bool :=
  let n := nat_of_ascii c in
  ((48 <=? n) && (n <=? 57)) || ((65 <=? n) && (n <=? 90))
  || (n =? 95) || ((97 <=? n) && (n <=? 122)).

(** One code unit of [String.prototype.toLowerCase]: A-Z, and the Latin-1
    capitals U+00C0 .. U+00DE except the multiplication sign U+00D7. *)
Definition lowerChar (c : ascii) : ascii :=
  let n := nat_of_ascii c in
  if ((65 <=? n) && (n <=? 90))
     || ((192 <=? n) && (n <=? 222) && negb (n =? 215))
  then ascii_of_nat (n + 32) else c.

Fixpoint toLowerCase (s : string) : string :=
  match s with
  | EmptyString => EmptyString
  | String c s' => String (lowerChar c) (toLowerCase s')
  end.

Fixpoint trimStart (s : string) : string :=
  match s with
  | EmptyString => EmptyString
  | String c s' => if isWhiteSpace c then trimStart s' else s
  end.

Fixpoint trimEnd (s : string) : string :=
  match s with
  | EmptyString => EmptyString
  | String c s' =>
      match trimEnd s' with
      | EmptyString => if isWhiteSpace c then EmptyString
                       else String c EmptyString
      | t => String c t
      end
  end.

Definition trim (s : string) : string := trimEnd (trimStart s).

(** [s.startsWith(p)] *)
Fixpoint startsWith (p s : string) : bool :=
  match p, s with
  | EmptyString, _ => true
  | String a p', String b s' => Ascii.eqb a b && startsWith p' s'
  | String _ _, EmptyString => false
  end.

(** [s.includes(p)] *)
Fixpoint includes (p s : string) : bool :=
  startsWith p s ||
  match s with
  | EmptyString => false
  | String _ s' => includes p s'
  end.

(** [s.split(sep)] for a separator of one code unit. *)
Fixpoint split (sep : ascii) (s : string) : list string :=
  match s with
  | EmptyString => [EmptyString]
  | String c s' =>
      if Ascii.eqb c sep then EmptyString :: split sep s'
      else match split sep s' with
           | [] => [String c EmptyString]
           | l :: ls => String c l :: ls
           end
  end.

(** [s.substring(0, n)] and [s.substring(n)] *)
Fixpoint take (n : nat) (s : string) : string :=
  match n, s with
  | S n', String c s' => String c (take n' s')
  | _, _ => EmptyString
  end.

Fixpoint drop (n : nat) (s : string) : string :=
  match n, s with
  | S n', String _ s' => drop n' s'
  | _, _ => s
  end.

(** Rendering of a non-negative integer inside a template literal. *)
Definition numberToString (n : nat) : string :=
  NilEmpty.string_of_uint (Nat.to_uint n).

(** [x || d] on a possibly missing string: [undefined] and the empty
    string are falsy. *)
Definition orElse (x : option string) (d : string) : string :=
  match x with
  | Some (String c s) => String c s
  | _ => d
  end.

(** [x || null] on a string. *)
Definition orNull (x : string) : option string :=
  match x with
  | EmptyString => None
  | _ => Some x
  end.

End Js.

(* ================================================================== *)
(** ** Regular expressions (backtracking, ECMAScript order) *)
(* ================================================================== *)

Module Regex.

Inductive regex : Type :=
| Empty                                   (* the empty pattern *)
| Class (p : ascii -> bool)               (* one code unit satisfying [p] *)
| Seq (r1 r2 : regex)
| Alt (r1 r2 : regex)                     (* r1|r2, r1 tried first *)
| Star (greedy : bool) (r : regex)        (* r* and r*? *)
| Group (i : nat) (r : regex)             (* capture group number i *)
| EndOfLine.                              (* $ under the m flag *)

Definition Char (c : ascii) : regex := Class (Ascii.eqb c).
Definition NotIn (cs : list ascii) : regex :=
  Class (fun c => negb (existsb (Ascii.eqb c) cs)).
Definition OneOf (cs : list ascii) : regex :=
  Class (fun c => existsb (Ascii.eqb c) cs).
Definition Dot : regex := Class (fun c => negb (Js.isLineTerminator c)).
Definition Any : regex := Class (fun _ => true).           (* [\s\S] *)
Definition Space : regex := Class Js.isWhiteSpace.         (* \s *)
Definition Word : regex := Class Js.isWordChar.            (* \w *)
Definition Plus (r : regex) : regex := Seq r (Star true r).
Definition Opt (r : regex) : regex := Alt r Empty.

(** A literal run of characters. *)
Fixpoint Lit (s : string) : regex :=
  match s with
  | EmptyString => Empty
  | String c s' => Seq (Char c) (Lit s')
  end.

(** Captures: group number to captured text; a group that did not take part
    in the match has no entry ([undefined]). *)
Definition captures := list (nat * string).

Fixpoint capture (i : nat) (cs : captures) : option string :=
  match cs with
  | [] => None
  | (j, v) :: cs' => if Nat.eqb i j then Some v else capture i cs'
  end.

Definition atLineEnd (s : string) : bool :=
  match s with
  | EmptyString => true
  | String c _ => Js.isLineTerminator c
  end.

(** The loop of a star: [step] matches one iteration, [k] is the rest of
    the pattern.  An iteration that consumed nothing is given up, as
    ECMAScript's RepeatMatcher does, so a star on [s] can use at most
    [length s] iterations and [n] never runs out when it starts above. *)
Fixpoint starLoop {R : Type} (greedy : bool)
         (step : string -> captures ->
                 (string -> captures -> option R) -> option R)
         (k : string -> captures -> option R)
         (n : nat) (s : string) (cs : captures) {struct n} : option R :=
  match n with
  | O => k s cs
  | S n' =>
      let again :=
        step s cs
          (fun s' cs' =>
             if String.length s' <? String.length s
             then starLoop greedy step k n' s' cs' else None) in
      if greedy
      then match again with Some x => Some x | None => k s cs end
      else match k s cs with Some x => Some x | None => again end
  end.

(** The matcher in continuation-passing style: [s] is the input that is
    left, [cs] the captures so far, [k] the rest of the pattern. *)
Fixpoint rmatch {R : Type} (r : regex) (s : string) (cs : captures)
         (k : string -> captures -> option R) {struct r} : option R :=
  match r with
  | Empty => k s cs
  | Class p =>
      match s with
      | String c s' => if p c then k s' cs else None
      | EmptyString => None
      end
  | Seq r1 r2 => rmatch r1 s cs (fun s' cs' => rmatch r2 s' cs' k)
  | Alt r1 r2 =>
      match rmatch r1 s cs k with
      | Some x => Some x
      | None => rmatch r2 s cs k
      end
  | Star greedy r1 =>
      starLoop greedy (rmatch r1) k (S (String.length s)) s cs
  | Group i r1 =>
      rmatch r1 s cs
        (fun s' cs' =>
           k s' ((i, Js.take (String.length s - String.length s') s) :: cs'))
  | EndOfLine => if atLineEnd s then k s cs else None
  end.

(** A match anchored at the start of [s]: its length and its captures. *)
Definition matchAt (r : regex) (s : string) : option (nat * captures) :=
  rmatch r s [] (fun s' cs => Some (String.length s - String.length s', cs)).

(** The leftmost match in [s]: index, length, captures.  The engine tries
    every start index up to and including the end of the input. *)
Fixpoint search (r : regex) (s : string) : option (nat * nat * captures) :=
  match matchAt r s with
  | Some (len, cs) => Some (0, len, cs)
  | None =>
      match s with
      | EmptyString => None
      | String _ s' =>
          match search r s' with
          | Some (i, len, cs) => Some (S i, len, cs)
          | None => None
          end
      end
  end.

(** [re.exec(s)] for a global [re] whose [lastIndex] is [lastIndex]:
    the new [lastIndex] (the end of the match) and the captures, or [None]
    for [null]. *)
Definition exec (r : regex) (s : string) (lastIndex : nat)
  : option (nat * captures) :=
  if String.length s <? lastIndex then None
  else match search r (Js.drop lastIndex s) with
       | Some (i, len, cs) => Some (lastIndex + i + len, cs)
       | None => None
       end.

(** [s.replace(re, rep)] for a global [re] and a replacement text without
    [$] patterns.  [skip] counts the code units of the current match that
    are still to be dropped.  After an empty match the engine moves on by
    one code unit, which is copied. *)
Fixpoint replaceFrom (r : regex) (rep : string) (skip : nat) (s : string)
  : string :=
  match s with
  | EmptyString =>
      match skip, matchAt r EmptyString with
      | O, Some _ => rep
      | _, _ => EmptyString
      end
  | String c s' =>
      match skip with
      | S n => replaceFrom r rep n s'
      | O =>
          match matchAt r s with
          | Some (O, _) => rep ++ String c (replaceFrom r rep 0 s')
          | Some (S n, _) => rep ++ replaceFrom r rep n s'
          | None => String c (replaceFrom r rep 0 s')
          end
      end
  end.

Definition replaceAll (r : regex) (rep : string) (s : string) : string :=
  replaceFrom r rep 0 s.

(** [(s.match(re) || []).length] for a global [re]: the number of
    successive non-overlapping matches. *)
Fixpoint countFrom (r : regex) (skip : nat) (s : string) : nat :=
  match s with
  | EmptyString =>
      match skip, matchAt r EmptyString with
      | O, Some _ => 1
      | _, _ => 0
      end
  | String c s' =>
      match skip with
      | S n => countFrom r n s'
      | O =>
          match matchAt r s with
          | Some (O, _) => S (countFrom r 0 s')
          | Some (S n, _) => S (countFrom r n s')
          | None => countFrom r 0 s'
          end
      end
  end.

Definition matchCount (r : regex) (s : string) : nat := countFrom r 0 s.

End Regex.

(* ================================================================== *)
(** ** Language registry *)
(* ================================================================== *)

(** The result interface of the service. *)
Record CompilerResult : Type := mkResult {
  output : string;
  error : option string;
  executionTime : Z
}.

Definition SUPPORTED_LANGUAGES : list string :=
  ["c"; "cpp"; "python"; "javascript";
   "typescript"; "java"; "php"; "go";
   "html"; "css"].

(** [Set.prototype.has] on a set of strings. *)
Definition setHas (set : list string) (x : string) : bool :=
  existsb (String.eqb x) set.

Definition normalizeLanguageId (language : string) : string :=
  Js.trim (Js.toLowerCase language).

Definition isSupportedLanguage (language : string) : bool :=
  setHas SUPPORTED_LANGUAGES (normalizeLanguageId language).

(* ================================================================== *)
(** ** Heuristic syntax checker *)
(* ================================================================== *)

Record SyntaxCheck : Type := mkCheck {
  hasError : bool;
  errorMessage : option string
}.

Definition syntaxError (msg : string) : SyntaxCheck := mkCheck true (Some msg).
Definition syntaxOk : SyntaxCheck := mkCheck false None.

Module Patterns.
Import Regex.

Definition dquote : ascii := ascii_of_nat 34.
Definition squote : ascii := "'"%char.
Definition backslash : ascii := "\"%char.
Definition backtick : ascii := "`"%char.
Definition newline : ascii := "010"%char.

(** Source patterns are quoted below with Q for the double quote and with a
    blank between a star and a closing parenthesis. *)

(** [Q[^Q\\]*(?:\\.[^Q\\]* )*Q] *)
Definition doubleQuoted : regex :=
  Seq (Char dquote)
    (Seq (Star true (NotIn [dquote; backslash]))
       (Seq (Star true (Seq (Char backslash)
                          (Seq Dot (Star true (NotIn [dquote; backslash])))))
          (Char dquote))).

(** ['[^'\\]*(?:\\.[^'\\]* )*'] *)
Definition singleQuoted : regex :=
  Seq (Char squote)
    (Seq (Star true (NotIn [squote; backslash]))
       (Seq (Star true (Seq (Char backslash)
                          (Seq Dot (Star true (NotIn [squote; backslash])))))
          (Char squote))).

(** [\/\/.*$] with the flags gm *)
Definition lineComment : regex :=
  Seq (Lit "//") (Seq (Star true Dot) EndOfLine).

(** [\/\*[\s\S]*?\*\/] *)
Definition blockComment : regex :=
  Seq (Lit "/*") (Seq (Star false Any) (Lit "*/")).

Definition openBrace : regex := Char "{"%char.
Definition closeBrace : regex := Char "}"%char.

(** [public\s+class\s+(\w+)] *)
Definition publicClass : regex :=
  Seq (Lit "public")
    (Seq (Plus Space) (Seq (Lit "class") (Seq (Plus Space)
       (Group 1 (Plus Word))))).

(** [printf\s*\(\s*Q([^Q]* )Q] *)
Definition printfCall : regex :=
  Seq (Lit "printf") (Seq (Star true Space) (Seq (Char "("%char)
    (Seq (Star true Space) (Seq (Char dquote)
       (Seq (Group 1 (Star true (NotIn [dquote]))) (Char dquote)))))).

(** [cout\s*<<\s*Q([^Q]* )Q] *)
Definition coutCall : regex :=
  Seq (Lit "cout") (Seq (Star true Space) (Seq (Lit "<<")
    (Seq (Star true Space) (Seq (Char dquote)
       (Seq (Group 1 (Star true (NotIn [dquote]))) (Char dquote)))))).

(** The argument part shared by the two print patterns:
    [(?:P[Q']([^Q']* )[Q']|([^)]* )\s* )\)] where P is [f?] or empty. *)
Definition printArgument (prefix : regex) : regex :=
  Seq (Alt (Seq prefix (Seq (OneOf [dquote; squote])
              (Seq (Group 1 (Star true (NotIn [dquote; squote])))
                 (OneOf [dquote; squote]))))
           (Seq (Group 2 (Star true (NotIn [")"%char]))) (Star true Space)))
      (Char ")"%char).

(** [print\s*\(\s*(?:f?[Q']([^Q']* )[Q']|([^)]* )\s* )\)] *)
Definition pythonPrint : regex :=
  Seq (Lit "print") (Seq (Star true Space) (Seq (Char "("%char)
    (Seq (Star true Space) (printArgument (Opt (Char "f"%char)))))).

(** [console\.log\s*\(\s*(?:[Q']([^Q']* )[Q']|([^)]* )\s* )\)] *)
Definition consoleLog : regex :=
  Seq (Lit "console.log") (Seq (Star true Space) (Seq (Char "("%char)
    (Seq (Star true Space) (printArgument Empty)))).

End Patterns.

(** The text on which braces are counted: string literals, character
    literals, line comments and block comments replaced in this order. *)
Definition codeWithoutStrings (code : string) : string :=
  Regex.replaceAll Patterns.blockComment ""
    (Regex.replaceAll Patterns.lineComment ""
       (Regex.replaceAll Patterns.singleQuoted "''"
          (Regex.replaceAll Patterns.doubleQuoted
             (String Patterns.dquote (String Patterns.dquote EmptyString))
             code))).

Definition openBrackets (code : string) : nat :=
  Regex.matchCount Patterns.openBrace (codeWithoutStrings code).
Definition closeBrackets (code : string) : nat :=
  Regex.matchCount Patterns.closeBrace (codeWithoutStrings code).

(** *** Python: the indentation loop *)

(** [code.split('\n').filter(line => line.trim().length > 0)] *)
Definition pythonLines (code : string) : list string :=
  filter (fun line => 0 <? String.length (Js.trim line))
         (Js.split Patterns.newline code).

Definition lineIndent (line : string) : nat :=
  String.length line - String.length (Js.trimStart line).

(** The [for] loop over the lines; the result is the final value of
    [inconsistentIndentation]. *)
Fixpoint indentationLoop (previousIndent : nat) (lines : list string) : bool :=
  match lines with
  | [] => false
  | line :: rest =>
      if Js.startsWith "#" (Js.trim line)
      then indentationLoop previousIndent rest
      else
        let indent := lineIndent line in
        if (0 <? indent) && (0 <? previousIndent)
           && ((negb (indent mod 4 =? 0) && negb (indent mod 2 =? 0))
               || ((previousIndent <? indent)
                   && negb ((indent - previousIndent) mod 2 =? 0)
                   && negb ((indent - previousIndent) mod 4 =? 0)))
        then true
        else indentationLoop (if 0 <? indent then indent else previousIndent)
                             rest
  end.

(** *** JavaScript / TypeScript: the string scanner *)

Record ScanState : Type := mkScan {
  inSingleQuote : bool;
  inDoubleQuote : bool;
  inTemplateLiteral : bool;
  escapeNext : bool;
  stringStartLine : nat;
  currentLine : nat;
  stringType : string
}.

Definition scanInit : ScanState :=
  mkScan false false false false 0 1 "".

(** One round of the [for] loop over the code units of the code. *)
Definition scanStep (st : ScanState) (char : ascii) : ScanState :=
  let line := if Ascii.eqb char Patterns.newline
              then S (currentLine st) else currentLine st in
  let st := mkScan (inSingleQuote st) (inDoubleQuote st)
                   (inTemplateLiteral st) (escapeNext st)
                   (stringStartLine st) line (stringType st) in
  if escapeNext st then
    mkScan (inSingleQuote st) (inDoubleQuote st) (inTemplateLiteral st)
           false (stringStartLine st) line (stringType st)
  else if Ascii.eqb char Patterns.backslash then
    mkScan (inSingleQuote st) (inDoubleQuote st) (inTemplateLiteral st)
           true (stringStartLine st) line (stringType st)
  else if negb (inSingleQuote st) && negb (inDoubleQuote st)
          && negb (inTemplateLiteral st) then
    if Ascii.eqb char Patterns.squote then
      mkScan true false false false line line "single quote"
    else if Ascii.eqb char Patterns.dquote then
      mkScan false true false false line line "double quote"
    else if Ascii.eqb char Patterns.backtick then
      mkScan false false true false line line "template literal"
    else st
  else if inSingleQuote st && Ascii.eqb char Patterns.squote then
    mkScan false (inDoubleQuote st) (inTemplateLiteral st)
           false (stringStartLine st) line (stringType st)
  else if inDoubleQuote st && Ascii.eqb char Patterns.dquote then
    mkScan (inSingleQuote st) false (inTemplateLiteral st)
           false (stringStartLine st) line (stringType st)
  else if inTemplateLiteral st && Ascii.eqb char Patterns.backtick then
    mkScan (inSingleQuote st) (inDoubleQuote st) false
           false (stringStartLine st) line (stringType st)
  else st.

Fixpoint scanFrom (st : ScanState) (code : string) : ScanState :=
  match code with
  | EmptyString => st
  | String char rest => scanFrom (scanStep st char) rest
  end.

Definition scan (code : string) : ScanState := scanFrom scanInit code.

Definition inString (st : ScanState) : bool :=
  inSingleQuote st || inDoubleQuote st || inTemplateLiteral st.

(** *** checkSyntax *)

Definition checkSyntax (code languageId : string) : SyntaxCheck :=
  if String.eqb (Js.trim code) "" then
    syntaxError "No code to compile. Please enter some code."
  else if String.eqb languageId "c" || String.eqb languageId "cpp" then
    if negb (Js.includes "main(" code) && negb (Js.includes "main (" code) then
      syntaxError
        "Error: missing 'main' function. Every C/C++ program must have a main function."
    else if Js.includes "printf(" code && negb (Js.includes ";" code) then
      syntaxError "Syntax Error: missing semicolon ';'"
    else if closeBrackets code <? openBrackets code then
      syntaxError "Error: missing closing curly brace '}'"
    else syntaxOk
  else if String.eqb languageId "python" then
    if indentationLoop 0 (pythonLines code) then
      syntaxError "IndentationError: inconsistent indentation detected"
    else syntaxOk
  else if String.eqb languageId "javascript"
          || String.eqb languageId "typescript" then
    if closeBrackets code <? openBrackets code then
      syntaxError "SyntaxError: missing closing curly brace '}'"
    else
      let st := scan code in
      if inString st then
        syntaxError ("SyntaxError: unterminated " ++ stringType st
                     ++ " starting at line "
                     ++ Js.numberToString (stringStartLine st))
      else syntaxOk
  else syntaxOk.

Definition nl : string := String Patterns.newline EmptyString.
Definition dq : string := String Patterns.dquote EmptyString.


(* ================================================================== *)
(** ** The world outside the service *)
(* ================================================================== *)

(** A thrown JavaScript value.  [ErrorObj] is an instance of [Error]; the
    rejection of a promisified [exec] is one that also carries what the
    process wrote.  [NonError] stands for every other thrown value. *)
Inductive JsThrown : Type :=
| ErrorObj (message : string) (stdout stderr : option string)
| NonError.

Definition thrownStdout (e : JsThrown) : option string :=
  match e with ErrorObj _ so _ => so | NonError => None end.
Definition thrownStderr (e : JsThrown) : option string :=
  match e with ErrorObj _ _ se => se | NonError => None end.

(** How a spawned process ends: the promise of [execAsync] resolves with
    stdout and stderr, or rejects (non-zero exit, timeout, buffer
    overflow, spawn failure). *)
Inductive ExecOutcome : Type :=
| Resolved (stdout stderr : string)
| Rejected (message : string) (stdout stderr : option string).

(** What the service cannot decide: the readings of [Date.now()] in the
    order they are taken, the directory [temp.mkdirSync] makes (given the
    ones that exist) or the error it throws, whether [fs.writeFile]
    succeeds, and what a command does. *)
Record Env : Type := mkEnv {
  clock : nat -> Z;
  tmp_mkdir : string -> list string -> string + JsThrown;
  write_file : string -> string -> option JsThrown;
  exec_cmd : string -> ExecOutcome
}.

(** What the service has done so far.  [dirs] holds the temporary
    directories it created and did not remove; [tracked] is the list the
    [temp] package keeps once [temp.track()] has run (it runs when the
    module is loaded), [files] the files written, [spawned] the commands
    run, in order. *)
Record World : Type := mkWorld {
  reads : nat;
  dirs : list string;
  tracked : list string;
  files : list (string * string);
  spawned : list string
}.

Definition emptyWorld : World := mkWorld 0 [] [] [] [].

Inductive Res (A : Type) : Type :=
| Ret (a : A)          (* a value; for an async function, the promise resolves *)
| Throw (e : JsThrown) (* an exception; the promise rejects *)
| Hang.                (* a loop that does not end *)
Arguments Ret {A} a.
Arguments Throw {A} e.
Arguments Hang {A}.

Definition M (A : Type) : Type := World -> Res A * World.

Definition ret {A} (a : A) : M A := fun w => (Ret a, w).

Definition bind {A B} (m : M A) (f : A -> M B) : M B :=
  fun w =>
    match m w with
    | (Ret a, w') => f a w'
    | (Throw e, w') => (Throw e, w')
    | (Hang, w') => (Hang, w')
    end.

(** [try { m } catch (e) { handler e }] *)
Definition tryCatch {A} (m : M A) (handler : JsThrown -> M A) : M A :=
  fun w =>
    match m w with
    | (Throw e, w') => handler e w'
    | r => r
    end.

(** [try { m } finally { fin }] *)
Definition tryFinally {A} (m : M A) (fin : M unit) : M A :=
  fun w =>
    match m w with
    | (Hang, w') => (Hang, w')
    | (r, w') =>
        match fin w' with
        | (Ret _, w'') => (r, w'')
        | (Throw e, w'') => (Throw e, w'')
        | (Hang, w'') => (Hang, w'')
        end
    end.

(** A loop result: [None] is a loop that never ends. *)
Definition orHang {A} (x : option A) : M A :=
  fun w => match x with Some a => (Ret a, w) | None => (Hang, w) end.

Declare Scope m_scope.
Delimit Scope m_scope with M.
Notation "x <- m ;; k" := (bind m (fun x => k))
  (at level 61, m at next level, right associativity) : m_scope.
Notation "m ;; k" := (bind m (fun _ => k))
  (at level 61, right associativity) : m_scope.
Local Open Scope m_scope.

(** [path.join(dir, name)] for an absolute directory and a plain name. *)
Definition pathJoin (dir name : string) : string := dir ++ "/" ++ name.

Section Service.

Variable env : Env.

(** [Date.now()] *)
Definition dateNow : M Z :=
  fun w => (Ret (clock env (reads w)),
            mkWorld (S (reads w)) (dirs w) (tracked w) (files w) (spawned w)).

(** [temp.mkdirSync(prefix)] with tracking switched on. *)
Definition mkdirSync (prefix : string) : M string :=
  fun w =>
    match tmp_mkdir env prefix (dirs w) with
    | inl d => (Ret d, mkWorld (reads w) (d :: dirs w) (d :: tracked w)
                               (files w) (spawned w))
    | inr e => (Throw e, w)
    end.

(** [fs.writeFile(path, data)] *)
Definition writeFile (path data : string) : M unit :=
  fun w =>
    match write_file env path data with
    | None => (Ret tt, mkWorld (reads w) (dirs w) (tracked w)
                               ((path, data) :: files w) (spawned w))
    | Some e => (Throw e, w)
    end.

(** [execAsync(command, { timeout, maxBuffer })] *)
Definition execAsync (command : string) : M (string * string) :=
  fun w =>
    let w' := mkWorld (reads w) (dirs w) (tracked w) (files w)
                      (spawned w ++ [command])%list in
    match exec_cmd env command with
    | Resolved so se => (Ret (so, se), w')
    | Rejected msg so se => (Throw (ErrorObj msg so se), w')
    end.

(** The three result shapes the backends build. *)
Definition compileFailure (generic : string) (startTime : Z) (err : JsThrown)
  : M CompilerResult :=
  t <- dateNow ;;
  ret (mkResult "" (Some (Js.orElse (thrownStderr err) generic))
                (t - startTime)%Z).

Definition runSuccess (startTime : Z) (r : string * string)
  : M CompilerResult :=
  t <- dateNow ;;
  ret (mkResult (fst r) (Js.orNull (snd r)) (t - startTime)%Z).

Definition runFailure (generic : string) (startTime : Z) (err : JsThrown)
  : M CompilerResult :=
  t <- dateNow ;;
  ret (mkResult (Js.orElse (thrownStdout err) "")
                (Some (Js.orElse (thrownStderr err) generic))
                (t - startTime)%Z).

(** The compile step of the two-phase backends: [Some result] is the
    early [return] of its [catch] block. *)
Definition compilePhase (command : string) (startTime : Z)
  : M (option CompilerResult) :=
  tryCatch (execAsync command ;; ret None)
           (fun error =>
              r <- compileFailure "Compilation error" startTime error ;;
              ret (Some r)).

(** The run step shared by all backends. *)
Definition runPhase (generic command : string) (startTime : Z)
  : M CompilerResult :=
  tryCatch (r <- execAsync command ;; runSuccess startTime r)
           (fun error => runFailure generic startTime error).

(** The [finally] block of every backend: a comment and nothing else. *)
Definition cleanup : M unit := ret tt.

Definition gccCommand (sourcePath outputPath : string) : string :=
  "gcc " ++ sourcePath ++ " -o " ++ outputPath ++ " -lm".
Definition gppCommand (sourcePath outputPath : string) : string :=
  "g++ " ++ sourcePath ++ " -o " ++ outputPath ++ " -std=c++17".
Definition javacCommand (sourcePath : string) : string :=
  "javac " ++ sourcePath.
Definition javaCommand (tmpDir mainClassName : string) : string :=
  "java -cp " ++ tmpDir ++ " " ++ mainClassName.

Definition compileAndRunC (code : string) : M CompilerResult :=
  startTime <- dateNow ;;
  tryFinally
    (tmpDir <- mkdirSync "c-compiler" ;;
     let sourcePath := pathJoin tmpDir "main.c" in
     let outputPath := pathJoin tmpDir "main.out" in
     writeFile sourcePath code ;;
     failed <- compilePhase (gccCommand sourcePath outputPath) startTime ;;
     match failed with
     | Some result => ret result
     | None => runPhase "Runtime error" outputPath startTime
     end)
    cleanup.

Definition compileAndRunCpp (code : string) : M CompilerResult :=
  startTime <- dateNow ;;
  tryFinally
    (tmpDir <- mkdirSync "cpp-compiler" ;;
     let sourcePath := pathJoin tmpDir "main.cpp" in
     let outputPath := pathJoin tmpDir "main.out" in
     writeFile sourcePath code ;;
     failed <- compilePhase (gppCommand sourcePath outputPath) startTime ;;
     match failed with
     | Some result => ret result
     | None => runPhase "Runtime error" outputPath startTime
     end)
    cleanup.

(** The interpreted backends differ in prefix, file name and command. *)
Definition interpret (prefix fileName interpreter generic code : string)
  : M CompilerResult :=
  startTime <- dateNow ;;
  tryFinally
    (tmpDir <- mkdirSync prefix ;;
     let sourcePath := pathJoin tmpDir fileName in
     writeFile sourcePath code ;;
     runPhase generic (interpreter ++ " " ++ sourcePath) startTime)
    cleanup.

Definition runPython (code : string) : M CompilerResult :=
  interpret "python-runner" "main.py" "python3" "Runtime error" code.
Definition runJavaScript (code : string) : M CompilerResult :=
  interpret "javascript-runner" "main.js" "node" "Runtime error" code.
Definition runTypeScript (code : string) : M CompilerResult :=
  interpret "typescript-runner" "main.ts" "npx ts-node" "Runtime error" code.
Definition runPhp (code : string) : M CompilerResult :=
  interpret "php-runner" "main.php" "php" "Runtime error" code.
Definition compileAndRunGo (code : string) : M CompilerResult :=
  interpret "go-compiler" "main.go" "go run" "Compilation or runtime error"
            code.

(** [code.match(/public\s+class\s+(\w+)/)] and its group 1. *)
Definition mainClassMatch (code : string) : option string :=
  match Regex.search Patterns.publicClass code with
  | Some (_, _, cs) => Regex.capture 1 cs
  | None => None
  end.

Definition compileAndRunJava (code : string) : M CompilerResult :=
  startTime <- dateNow ;;
  tryFinally
    (match mainClassMatch code with
     | None =>
         t <- dateNow ;;
         ret (mkResult "" (Some "No public class found in the code")
                       (t - startTime)%Z)
     | Some mainClassName =>
         tmpDir <- mkdirSync "java-compiler" ;;
         let sourcePath := pathJoin tmpDir (mainClassName ++ ".java") in
         writeFile sourcePath code ;;
         failed <- compilePhase (javacCommand sourcePath) startTime ;;
         match failed with
         | Some result => ret result
         | None =>
             runPhase "Runtime error" (javaCommand tmpDir mainClassName)
                      startTime
         end
     end)
    cleanup.

End Service.

(* ================================================================== *)
(** ** Output simulator *)
(* ================================================================== *)

(** [while ((match = re.exec(code)) !== null) { output += line(match) }]
    for a global [re].  The loop is given [fuel] rounds; [None] says they
    did not suffice. *)
Fixpoint execLoop (fuel : nat) (re : Regex.regex)
         (line : Regex.captures -> string) (code : string)
         (lastIndex : nat) (output : string) : option string :=
  match fuel with
  | O => None
  | S fuel' =>
      match Regex.exec re code lastIndex with
      | None => Some output
      | Some (lastIndex', m) =>
          execLoop fuel' re line code lastIndex' (output ++ line m)
      end
  end.

(** [match[1] + "\n"]; a missing group would print as [undefined]. *)
Definition literalLine (m : Regex.captures) : string :=
  match Regex.capture 1 m with
  | Some v => v
  | None => "undefined"
  end ++ nl.

(** [(match[1] || match[2] || "") + "\n"] *)
Definition argumentLine (m : Regex.captures) : string :=
  Js.orElse (Regex.capture 1 m) (Js.orElse (Regex.capture 2 m) "") ++ nl.

(** The [switch] of the simulator: the extracted output, or [None] when an
    extraction loop has not ended after two rounds more than the code has
    code units ([execLoop_total] shows that it always has). *)
Definition extractOutput (code languageId : string) : option string :=
  let fuel := S (S (String.length code)) in
  if String.eqb languageId "c" then
    execLoop fuel Patterns.printfCall literalLine code 0 ""
  else if String.eqb languageId "cpp" then
    execLoop fuel Patterns.coutCall literalLine code 0 ""
  else if String.eqb languageId "python" then
    execLoop fuel Patterns.pythonPrint argumentLine code 0 ""
  else if String.eqb languageId "javascript"
          || String.eqb languageId "typescript" then
    execLoop fuel Patterns.consoleLog argumentLine code 0 ""
  else if String.eqb languageId "html" || String.eqb languageId "css" then
    Some ("Frontend code doesn't produce console output directly." ++ nl
          ++ "Rendering in the preview panel.")
  else
    Some ("Language execution simulation not implemented yet." ++ nl
          ++ "Program executed successfully.").

Definition noOutputMessage : string :=
  "Program executed successfully with no output.".

Section Dispatcher.

Variable env : Env.

Definition simulateExecution (code languageId : string) : M CompilerResult :=
  startTime <- dateNow env ;;
  extracted <- orHang (extractOutput code languageId) ;;
  let output :=
    if String.eqb extracted "" && negb (String.eqb languageId "html")
       && negb (String.eqb languageId "css")
    then noOutputMessage else extracted in
  t <- dateNow env ;;
  ret (mkResult output None (t - startTime)%Z).

(* ================================================================== *)
(** ** Dispatcher *)
(* ================================================================== *)

Inductive BackendId : Type :=
| C | Cpp | Python | JavaScript | TypeScript | Java | Php | Go.

Inductive Route : Type :=
| Backend (b : BackendId)
| Simulator.

(** The [switch (language)] of [executeCode]: cases compare with [===]. *)
Definition route (language : string) : Route :=
  if String.eqb language "c" then Backend C
  else if String.eqb language "cpp" then Backend Cpp
  else if String.eqb language "python" then Backend Python
  else if String.eqb language "javascript" then Backend JavaScript
  else if String.eqb language "typescript" then Backend TypeScript
  else if String.eqb language "java" then Backend Java
  else if String.eqb language "php" then Backend Php
  else if String.eqb language "go" then Backend Go
  else Simulator.

Definition runBackend (b : BackendId) (code : string) : M CompilerResult :=
  match b with
  | C => compileAndRunC env code
  | Cpp => compileAndRunCpp env code
  | Python => runPython env code
  | JavaScript => runJavaScript env code
  | TypeScript => runTypeScript env code
  | Java => compileAndRunJava env code
  | Php => runPhp env code
  | Go => compileAndRunGo env code
  end.

(** [error instanceof Error ? error.message : 'Unknown execution error'] *)
Definition errorText (fallback : string) (error : JsThrown) : string :=
  match error with
  | ErrorObj message _ _ => message
  | NonError => fallback
  end.

(** [executeCode]; the [console.error] of its [catch] block is left out. *)
Definition executeCode (code language : string) : M CompilerResult :=
  startTime <- dateNow env ;;
  tryCatch
    (match route language with
     | Backend b => runBackend b code
     | Simulator => simulateExecution code language
     end)
    (fun error =>
       t <- dateNow env ;;
       ret (mkResult "" (Some (errorText "Unknown execution error" error))
                     (t - startTime)%Z)).

(* ================================================================== *)
(** ** HTTP controller *)
(* ================================================================== *)

(** The request body: a field can be missing. *)
Record CompileRequest : Type := mkRequest {
  req_code : option string;
  req_language : option string
}.

(** [res.status(s).json({ success, output, error, executionTime })];
    the 400 and 500 bodies have [success] and [error] only. *)
Record Response : Type := mkResponse {
  status : nat;
  success : bool;
  body_output : option string;
  body_error : option string;
  body_executionTime : option Z
}.

Definition badRequest (msg : option string) : Response :=
  mkResponse 400 false None msg None.

(** [compileCode]: [!code || !language] holds for a missing field and for
    the empty string. *)
Definition compileCode (req : CompileRequest) : M Response :=
  tryCatch
    (match req_code req, req_language req with
     | Some (String c0 code'), Some (String l0 language') =>
         let code := String c0 code' in
         let language := String l0 language' in
         if negb (isSupportedLanguage language) then
           ret (badRequest
                  (Some ("Language '" ++ language ++ "' is not supported")))
         else
           let syntaxCheck := checkSyntax code language in
           if hasError syntaxCheck then
             ret (badRequest (errorMessage syntaxCheck))
           else
             result <- executeCode code language ;;
             ret (mkResponse 200 true (Some (output result)) (error result)
                             (Some (executionTime result)))
     | _, _ => ret (badRequest (Some "Code and language are required"))
     end)
    (fun error =>
       ret (mkResponse 500 false None
              (Some (errorText "An unexpected error occurred" error)) None)).

End Dispatcher.


(* ================================================================== *)
(** * Vocabulary of the properties *)
(* ================================================================== *)

(** A string of white space only. *)
Fixpoint allWhite (s : string) : bool :=
  match s with
  | EmptyString => true
  | String c s' => Js.isWhiteSpace c && allWhite s'
  end.

(** The number of occurrences of a character in a text. *)
Fixpoint countChar (c : ascii) (s : string) : nat :=
  match s with
  | EmptyString => 0
  | String a s' => if Ascii.eqb c a then S (countChar c s') else countChar c s'
  end.

Definition missingMainMessage : string :=
  "Error: missing 'main' function. Every C/C++ program must have a main function.".

Definition isCommentLine (line : string) : bool :=
  Js.startsWith "#" (Js.trim line).

(** The indents the loop looks at: those of the lines that are neither
    blank nor comments, in order. *)
Definition checkedIndents (code : string) : list nat :=
  map lineIndent (filter (fun line => negb (isCommentLine line))
                         (pythonLines code)).

(** The value of [previousIndent] after the indents [pre]. *)
Definition lastIndent (previousIndent : nat) (pre : list nat) : nat :=
  fold_left (fun p i => if 0 <? i then i else p) pre previousIndent.

(** The loop on the indents alone. *)
Fixpoint indentScan (previousIndent : nat) (indents : list nat) : bool :=
  match indents with
  | [] => false
  | indent :: rest =>
      if (0 <? indent) && (0 <? previousIndent)
         && ((negb (indent mod 4 =? 0) && negb (indent mod 2 =? 0))
             || ((previousIndent <? indent)
                 && negb ((indent - previousIndent) mod 2 =? 0)
                 && negb ((indent - previousIndent) mod 4 =? 0)))
      then true
      else indentScan (if 0 <? indent then indent else previousIndent) rest
  end.

(** "Not a multiple of 2 or 4". *)
Definition notMultipleOf2Or4 (n : nat) : Prop :=
  n mod 2 <> 0 /\ n mod 4 <> 0.

(** What the loop flags: an indented line after an earlier indented line,
    whose indent, or whose increase over the previous non-zero indent, is
    not a multiple of 2 or 4. *)
Definition flagged (previousIndent indent : nat) : Prop :=
  0 < indent /\ 0 < previousIndent /\
  (notMultipleOf2Or4 indent
   \/ (previousIndent < indent
       /\ notMultipleOf2Or4 (indent - previousIndent))).

Definition indentationMessage : string :=
  "IndentationError: inconsistent indentation detected".

(** The claim as the specification words it: any checked line whose indent
    is not a multiple of 2 or 4 is reported, and so is any increase that is
    not one. *)
Definition indentation_claim_as_stated (code : string) : Prop :=
  Js.trim code <> EmptyString ->
  ((exists x, In x (checkedIndents code) /\ notMultipleOf2Or4 x)
   \/ (exists pre x post,
          checkedIndents code = (pre ++ x :: post)%list
          /\ 0 < lastIndent 0 pre < x
          /\ notMultipleOf2Or4 (x - lastIndent 0 pre))) ->
  checkSyntax code "python" = syntaxError indentationMessage.

Definition threeThenSeven : string :=
  "if a:" ++ nl ++ "   b = 1" ++ nl ++ "       c = 2".

Definition uniformFour : string :=
  "if a:" ++ nl ++ "    b = 1" ++ nl ++ "    c = 2" ++ nl ++ "d = 3".

(** The number of line feeds in a text. *)
Definition newlines (s : string) : nat := countChar Patterns.newline s.

Inductive StringKind : Type := SingleQuote | DoubleQuote | TemplateLiteral.

Definition kindChar (k : StringKind) : ascii :=
  match k with
  | SingleQuote => Patterns.squote
  | DoubleQuote => Patterns.dquote
  | TemplateLiteral => Patterns.backtick
  end.

Definition kindName (k : StringKind) : string :=
  match k with
  | SingleQuote => "single quote"
  | DoubleQuote => "double quote"
  | TemplateLiteral => "template literal"
  end.

Definition kindFlags (k : StringKind) : bool * bool * bool :=
  match k with
  | SingleQuote => (true, false, false)
  | DoubleQuote => (false, true, false)
  | TemplateLiteral => (false, false, true)
  end.

Definition flagsOf (st : ScanState) : bool * bool * bool :=
  (inSingleQuote st, inDoubleQuote st, inTemplateLiteral st).

(** The string that is open at the end of [code] began at the quote that
    follows [p]: there the scanner was outside every string and not
    escaping, and from that quote on it stayed inside a string. *)
Definition openedAt (code : string) (k : StringKind) (p r : string) : Prop :=
  code = p ++ String (kindChar k) r
  /\ inString (scan p) = false
  /\ escapeNext (scan p) = false
  /\ forall n, inString (scan (p ++ String (kindChar k) (Js.take n r))) = true.

Definition scanInv (pre : string) : Prop :=
  let st := scan pre in
  currentLine st = S (newlines pre)
  /\ (flagsOf st = (false, false, false)
      \/ exists k p r,
          openedAt pre k p r
          /\ flagsOf st = kindFlags k
          /\ stringType st = kindName k
          /\ stringStartLine st = S (newlines p)).

(** At most one of the three flags is up. *)
Definition oneString (st : ScanState) : Prop :=
  flagsOf st = (false, false, false) \/ exists k, flagsOf st = kindFlags k.

Definition unterminatedMessage (k : StringKind) (line : nat) : string :=
  "SyntaxError: unterminated " ++ kindName k ++ " starting at line "
  ++ Js.numberToString line.

(** The state of the string tracking: flags, kind and start line. *)
Definition stringState (st : ScanState) : bool * bool * bool * string * nat :=
  (flagsOf st, stringType st, stringStartLine st).

Definition unterminatedSample : string :=
  "const s = " ++ dq ++ "unterminated string; let t = 1".

Definition unterminatedSampleTwoLines : string :=
  "const s = " ++ dq ++ "unterminated" ++ nl ++ "string".

(** A matcher hands its continuation a suffix no longer than its input. *)
Definition shrinks {R : Type}
  (f : string -> Regex.captures ->
       (string -> Regex.captures -> option R) -> option R) : Prop :=
  forall s cs k x,
    f s cs k = Some x ->
    exists s' cs', String.length s' <= String.length s /\ k s' cs' = Some x.

(** Patterns that cannot match the empty text. *)
Fixpoint consuming (r : Regex.regex) : bool :=
  match r with
  | Regex.Class _ => true
  | Regex.Seq r1 r2 => consuming r1 || consuming r2
  | Regex.Alt r1 r2 => consuming r1 && consuming r2
  | Regex.Group _ r1 => consuming r1
  | _ => false
  end.

(** The matches an extraction loop sees, one [exec] after the other. *)
Inductive successiveMatches (re : Regex.regex) (code : string)
  : nat -> list Regex.captures -> Prop :=
| sm_done i :
    Regex.exec re code i = None -> successiveMatches re code i []
| sm_next i j m ms :
    Regex.exec re code i = Some (j, m) ->
    successiveMatches re code j ms ->
    successiveMatches re code i (m :: ms).

Fixpoint concatLines (line : Regex.captures -> string)
         (ms : list Regex.captures) : string :=
  match ms with
  | [] => EmptyString
  | m :: ms' => line m ++ concatLines line ms'
  end.

Definition pythonSample : string :=
  "print(" ++ dq ++ "hello" ++ dq ++ ")" ++ nl ++ "print(x)".

Definition monotone (clock : nat -> Z) : Prop :=
  forall i j, i <= j -> (clock i <= clock j)%Z.

(** What [executeCode] runs inside its [try]. *)
Definition dispatched (env : Env) (code language : string)
  : M CompilerResult :=
  match route language with
  | Backend b => runBackend env b code
  | Simulator => simulateExecution env code language
  end.

(** The world right after [executeCode] has read its start time. *)
Definition afterStart (w : World) : World :=
  mkWorld (S (reads w)) (dirs w) (tracked w) (files w) (spawned w).

(** An environment in which no temporary directory can be made. *)
Definition fullDiskEnv : Env :=
  mkEnv (fun n => Z.of_nat n)
        (fun _ _ => inr (ErrorObj "ENOSPC: no space left on device" None None))
        (fun _ _ => None)
        (fun _ => Resolved "" "").

(** The prefix each backend gives [temp.mkdirSync]. *)
Definition workspacePrefix (b : BackendId) : string :=
  match b with
  | C => "c-compiler"
  | Cpp => "cpp-compiler"
  | Python => "python-runner"
  | JavaScript => "javascript-runner"
  | TypeScript => "typescript-runner"
  | Java => "java-compiler"
  | Php => "php-runner"
  | Go => "go-compiler"
  end.

(** The claim as the specification words it: the workspace the backend
    made is gone when the backend is done. *)
Definition workspace_removed_claim (env : Env) (b : BackendId)
           (code : string) (w : World) : Prop :=
  forall d,
    tmp_mkdir env (workspacePrefix b) (dirs w) = inl d ->
    ~ In d (dirs (snd (runBackend env b code w))).

(** An environment in which every directory can be made, every file
    written, the C compiler rejects its input and every other command
    prints a line. *)
Definition sampleEnv : Env :=
  mkEnv (fun n => Z.of_nat n)
        (fun prefix _ => inl ("/tmp/" ++ prefix))
        (fun _ _ => None)
        (fun command =>
           if Js.startsWith "gcc " command
           then Rejected "Command failed" (Some "")
                         (Some "main.c:1:1: error: unknown type name")
           else Resolved ("ok" ++ nl) "").

(** The compiler command of a two-phase backend for a workspace; the
    other backends have none, and Java has none without a public class. *)
Definition compilerCommand (b : BackendId) (code tmpDir : string)
  : option string :=
  match b with
  | C => Some (gccCommand (pathJoin tmpDir "main.c")
                          (pathJoin tmpDir "main.out"))
  | Cpp => Some (gppCommand (pathJoin tmpDir "main.cpp")
                            (pathJoin tmpDir "main.out"))
  | Java =>
      match mainClassMatch code with
      | Some mainClassName =>
          Some (javacCommand (pathJoin tmpDir (mainClassName ++ ".java")))
      | None => None
      end
  | _ => None
  end.

Definition notImplementedMessage : string :=
  "Language execution simulation not implemented yet." ++ nl
  ++ "Program executed successfully.".

Definition requiredMessage : string := "Code and language are required".
Definition noCodeMessage : string :=
  "No code to compile. Please enter some code.".

Definition braceMessageC : string := "Error: missing closing curly brace '}'".
Definition braceMessageJs : string :=
  "SyntaxError: missing closing curly brace '}'".
Definition semicolonMessage : string := "Syntax Error: missing semicolon ';'".

(** The pattern can only match a text that begins with [c]. *)
Definition beginsWith (c : ascii) (r : Regex.regex) : Prop :=
  Regex.matchAt r EmptyString = None
  /\ forall a s, a <> c -> Regex.matchAt r (String a s) = None.

(** A line that the indentation loop skips as a comment. *)
Definition commentLine (line : string) : Prop :=
  isCommentLine line = true /\ countChar Patterns.newline line = 0.

(** Every code unit of the text satisfies [p]. *)
Fixpoint allChars (p : ascii -> bool) (s : string) : bool :=
  match s with
  | EmptyString => true
  | String c s' => p c && allChars p s'
  end.

(** The text an extraction pattern starts with, by language. *)
Definition printKeyword (languageId : string) : option string :=
  if String.eqb languageId "c" then Some "printf"
  else if String.eqb languageId "cpp" then Some "cout"
  else if String.eqb languageId "python" then Some "print"
  else if String.eqb languageId "javascript"
          || String.eqb languageId "typescript" then Some "console.log"
  else None.

Definition noPublicClassMessage : string :=
  "No public class found in the code".

(** The command whose outcome a backend turns into its result, once the
    compiler (if there is one) has succeeded. *)
Definition runCommand (b : BackendId) (code tmpDir : string)
  : option string :=
  match b with
  | C | Cpp => Some (pathJoin tmpDir "main.out")
  | Python => Some ("python3" ++ " " ++ pathJoin tmpDir "main.py")
  | JavaScript => Some ("node" ++ " " ++ pathJoin tmpDir "main.js")
  | TypeScript => Some ("npx ts-node" ++ " " ++ pathJoin tmpDir "main.ts")
  | Php => Some ("php" ++ " " ++ pathJoin tmpDir "main.php")
  | Go => Some ("go run" ++ " " ++ pathJoin tmpDir "main.go")
  | Java =>
      match mainClassMatch code with
      | Some mainClassName => Some (javaCommand tmpDir mainClassName)
      | None => None
      end
  end.

(** The text a backend reports when a failed run left nothing on stderr. *)
Definition runErrorText (b : BackendId) : string :=
  match b with
  | Go => "Compilation or runtime error"
  | _ => "Runtime error"
  end.

Definition frontendMessage : string :=
  "Frontend code doesn't produce console output directly." ++ nl
  ++ "Rendering in the preview panel.".

(** The requests the controller lets through to [executeCode]. *)
Definition accepted (req : CompileRequest) (code language : string) : Prop :=
  req_code req = Some code /\ code <> EmptyString
  /\ req_language req = Some language /\ language <> EmptyString
  /\ isSupportedLanguage language = true
  /\ checkSyntax code language = syntaxOk.

(** The time half of the catch-all property as the specification words it:
    every result carries an execution time that is not negative. *)
Definition nonnegative_time_claim (env : Env) (code language : string)
           (w : World) : Prop :=
  exists r w',
    executeCode env code language w = (Ret r, w')
    /\ (0 <= executionTime r)%Z.

(** An environment whose clock is set back by one millisecond between any
    two readings; everything else succeeds. *)
Definition clockSetBackEnv : Env :=
  mkEnv (fun n => (1000 - Z.of_nat n)%Z)
        (fun prefix _ => inl ("/tmp/" ++ prefix))
        (fun _ _ => None)
        (fun _ => Resolved ("1" ++ nl) "").

(** *** The string scan as the specification words it *)

(** The line number after reading [c]: every line feed counts. *)
Definition bumpLine (line : nat) (c : ascii) : nat :=
  if Ascii.eqb c Patterns.newline then S line else line.

(** The kind of string a quote character opens. *)
Definition quoteKind (c : ascii) : option StringKind :=
  if Ascii.eqb c Patterns.squote then Some SingleQuote
  else if Ascii.eqb c Patterns.dquote then Some DoubleQuote
  else if Ascii.eqb c Patterns.backtick then Some TemplateLiteral
  else None.

(** One pass over the text.  [mode] is [None] outside every string and
    [Some (k, start)] inside a string of kind [k] that began on line
    [start]; [line] is the current line.  A backslash takes the next
    character with it, inside and outside strings alike; outside a string
    a quote opens one on the current line; inside, only the quote of the
    same kind closes it. *)
Fixpoint openLiteral (mode : option (StringKind * nat)) (line : nat)
         (s : string) : option (StringKind * nat) :=
  match s with
  | EmptyString => mode
  | String c s' =>
      if Ascii.eqb c Patterns.backslash then
        match s' with
        | EmptyString => mode
        | String d s'' => openLiteral mode (bumpLine line d) s''
        end
      else
        match mode with
        | None =>
            match quoteKind c with
            | Some k => openLiteral (Some (k, line)) line s'
            | None => openLiteral None (bumpLine line c) s'
            end
        | Some (k, start) =>
            if Ascii.eqb c (kindChar k)
            then openLiteral None (bumpLine line c) s'
            else openLiteral mode (bumpLine line c) s'
        end
  end.

(** The string that is still open when the text ends, with the line on
    which it began; [None] when the text ends outside every string. *)
Definition unterminatedLiteral (code : string) : option (StringKind * nat) :=
  openLiteral None 1 code.

(** The scanner state [st] stands for [mode] at line [line]. *)
Definition agrees (st : ScanState) (mode : option (StringKind * nat))
           (line : nat) : Prop :=
  currentLine st = line
  /\ match mode with
     | None => flagsOf st = (false, false, false)
     | Some (k, start) =>
         flagsOf st = kindFlags k /\ stringType st = kindName k
         /\ stringStartLine st = start
     end.

(** What is left to scan after an escaping backslash. *)
Definition afterBackslash (mode : option (StringKind * nat)) (line : nat)
           (s : string) : option (StringKind * nat) :=
  match s with
  | EmptyString => mode
  | String d s'' => openLiteral mode (bumpLine line d) s''
  end.

Definition closedThenOpenSample : string :=
  "let a = 'x';" ++ nl ++ "let b = " ++ dq ++ "y".

(** *** Stripping as the specification words it *)

(** Text substitution: [occurrence s] is the length of the piece to be
    replaced that starts at the beginning of [s], if there is one; every
    piece found from left to right is replaced by [rep], and the search
    goes on behind it. *)
Fixpoint substitute (occurrence : string -> option nat) (rep : string)
         (skip : nat) (s : string) : string :=
  match s with
  | EmptyString => EmptyString
  | String c s' =>
      match skip with
      | S n => substitute occurrence rep n s'
      | O =>
          match occurrence s with
          | Some (S n) => rep ++ substitute occurrence rep n s'
          | _ => String c (substitute occurrence rep 0 s')
          end
      end
  end.

(** The rest of a literal after its opening quote [q], closing quote
    included: characters other than the quote and the backslash, and
    backslash pairs whose second character is not a line terminator. *)
Fixpoint literalBody (q : ascii) (s : string) : option nat :=
  match s with
  | EmptyString => None
  | String c s' =>
      if Ascii.eqb c q then Some 1
      else if Ascii.eqb c Patterns.backslash then
        match s' with
        | EmptyString => None
        | String d s'' =>
            if Js.isLineTerminator d then None
            else option_map (fun n => S (S n)) (literalBody q s'')
        end
      else option_map S (literalBody q s')
  end.

(** A string or character literal in quotes [q] at the start of [s]. *)
Definition literalAt (q : ascii) (s : string) : option nat :=
  match s with
  | EmptyString => None
  | String c s' =>
      if Ascii.eqb c q then option_map S (literalBody q s') else None
  end.

(** The number of characters before the first line terminator. *)
Fixpoint lineLength (s : string) : nat :=
  match s with
  | EmptyString => 0
  | String c s' => if Js.isLineTerminator c then 0 else S (lineLength s')
  end.

(** A line comment at the start of [s]: two slashes and the rest of the
    line, without its line terminator. *)
Definition lineCommentAt (s : string) : option nat :=
  if Js.startsWith "//" s then Some (2 + lineLength (Js.drop 2 s)) else None.

(** The length of the text up to and including the first star-slash. *)
Fixpoint blockEnd (s : string) : option nat :=
  if Js.startsWith "*/" s then Some 2
  else match s with
       | EmptyString => None
       | String _ s' => option_map S (blockEnd s')
       end.

(** A block comment at the start of [s]: slash-star up to the first
    star-slash behind it; an opener that is never closed is no comment. *)
Definition blockCommentAt (s : string) : option nat :=
  if Js.startsWith "/*" s
  then option_map (fun n => 2 + n) (blockEnd (Js.drop 2 s)) else None.

(** String literals become two double quotes, character literals two
    single quotes, then line comments and then block comments vanish. *)
Definition strippedSpec (code : string) : string :=
  substitute blockCommentAt "" 0
    (substitute lineCommentAt "" 0
       (substitute (literalAt Patterns.squote) "''" 0
          (substitute (literalAt Patterns.dquote)
             (String Patterns.dquote (String Patterns.dquote EmptyString))
             0 code))).

(** The longest prefix of characters satisfying [p], dropped. *)
Fixpoint dropWhile (p : ascii -> bool) (s : string) : string :=
  match s with
  | EmptyString => EmptyString
  | String c s' => if p c then dropWhile p s' else s
  end.

(** The pattern of a literal in quotes [q]. *)
Definition quotedPattern (q : ascii) : Regex.regex :=
  Regex.Seq (Regex.Char q)
    (Regex.Seq (Regex.Star true (Regex.NotIn [q; Patterns.backslash]))
       (Regex.Seq
          (Regex.Star true
             (Regex.Seq (Regex.Char Patterns.backslash)
                (Regex.Seq Regex.Dot
                   (Regex.Star true (Regex.NotIn [q; Patterns.backslash])))))
          (Regex.Char q))).

(** The continuation [k] behind a piece of length [n], if there is one. *)
Definition behind {R : Type} (k : string -> Regex.captures -> option R)
           (cs : Regex.captures) (s : string) (o : option nat) : option R :=
  match o with
  | Some n => k (Js.drop n s) cs
  | None => None
  end.

(** A literal body that starts at its closing quote or at a backslash. *)
Definition escapedBody (q : ascii) (s : string) : option nat :=
  match s with
  | EmptyString => None
  | String c _ =>
      if Ascii.eqb c q || Ascii.eqb c Patterns.backslash
      then literalBody q s else None
  end.

(** Characters of a literal that are neither its quote nor a backslash. *)
Definition plainChar (q : ascii) : ascii -> bool :=
  fun c => negb (existsb (Ascii.eqb c) [q; Patterns.backslash]).

(** A backslash pair of the literal pattern and the plain run behind it. *)
Definition escapePair (q : ascii) : Regex.regex :=
  Regex.Seq (Regex.Char Patterns.backslash)
    (Regex.Seq Regex.Dot (Regex.Star true (Regex.Class (plainChar q)))).

(** A lazy star over any character stops at the first place where the
    rest of the pattern succeeds. *)
Fixpoint firstSuccess {R : Type} (k : string -> Regex.captures -> option R)
         (cs : Regex.captures) (s : string) : option R :=
  match k s cs with
  | Some x => Some x
  | None =>
      match s with
      | EmptyString => None
      | String _ s' => firstSuccess k cs s'
      end
  end.

Definition charLiteralSample : string :=
  "int main(){ char c = '{'; return 0; }".

(** A program whose only closing braces stand in a string literal, in a
    line comment and in a block comment, and what is left of it. *)
Definition closersInTextSample : string :=
  "int main(){ puts(" ++ dq ++ "}" ++ dq ++ "); // }" ++ nl ++ "/* } */".
Definition closersInTextStripped : string :=
  "int main(){ puts(" ++ dq ++ dq ++ "); " ++ nl.

(** *** The python extraction as the amended claim words it *)

Definition isQuote (c : ascii) : bool :=
  existsb (Ascii.eqb c) [Patterns.dquote; Patterns.squote].
Definition notQuote (c : ascii) : bool := negb (isQuote c).
Definition notCloseParen (c : ascii) : bool :=
  negb (existsb (Ascii.eqb c) [")"%char]).

(** The longest prefix of characters satisfying [p]. *)
Fixpoint takeWhile (p : ascii -> bool) (s : string) : string :=
  match s with
  | EmptyString => EmptyString
  | String c s' => if p c then String c (takeWhile p s') else EmptyString
  end.

(** A quoted text at the start of [s]: a quote, a run without quotes and
    a quote of either kind, with the closing parenthesis right behind it.
    Gives the run and what is left behind the parenthesis. *)
Definition quotedTextAt (s : string) : option (string * string) :=
  match s with
  | String q body =>
      if isQuote q then
        match dropWhile notQuote body with
        | String _ (String p rest) =>
            if Ascii.eqb p ")" then Some (takeWhile notQuote body, rest)
            else None
        | _ => None
        end
      else None
  | EmptyString => None
  end.

(** The same behind an optional f. *)
Definition quotedArgumentAt (s : string) : option (string * string) :=
  match s with
  | String c s' => if Ascii.eqb c "f" then quotedTextAt s' else quotedTextAt s
  | EmptyString => None
  end.

(** The text up to the first closing parenthesis, as it stands, and what
    is left behind that parenthesis. *)
Definition rawArgumentAt (s : string) : option (string * string) :=
  match dropWhile notCloseParen s with
  | String _ rest => Some (takeWhile notCloseParen s, rest)
  | EmptyString => None
  end.

Definition argumentAt (s : string) : option (string * string) :=
  match quotedArgumentAt s with
  | Some x => Some x
  | None => rawArgumentAt s
  end.

(** A print call at the start of [s]: the word print, white space, an
    opening parenthesis, white space and the argument.  Gives the text
    that is printed and what is left behind the call. *)
Definition printCallAt (s : string) : option (string * string) :=
  if Js.startsWith "print" s then
    match dropWhile Js.isWhiteSpace (Js.drop 5 s) with
    | String c rest =>
        if Ascii.eqb c "(" then argumentAt (dropWhile Js.isWhiteSpace rest)
        else None
    | EmptyString => None
    end
  else None.

(** One line for every call found from left to right; the search goes on
    behind the call.  [skip] counts the characters of the current call
    that are still to be passed. *)
Fixpoint linesFrom (call : string -> option (string * string)) (skip : nat)
         (s : string) : string :=
  match s with
  | EmptyString => EmptyString
  | String _ s' =>
      match skip with
      | S n => linesFrom call n s'
      | O =>
          match call s with
          | Some (text, rest) =>
              text ++ nl
              ++ linesFrom call (String.length s' - String.length rest) s'
          | None => linesFrom call 0 s'
          end
      end
  end.

Definition printedLines (code : string) : string :=
  linesFrom printCallAt 0 code.

(** The last continuation of an anchored match. *)
Definition matchEnd (L : nat) (s' : string) (cs : Regex.captures)
  : option (nat * Regex.captures) :=
  Some (L - String.length s', cs).

(** *** The python conjunct as the claim words it *)

(** A quoted literal: a quote, a text without quotes, a quote. *)
Definition quotedLiteral (arg : string) : option string :=
  match arg with
  | String q body =>
      if isQuote q then
        match dropWhile notQuote body with
        | String _ EmptyString => Some (takeWhile notQuote body)
        | _ => None
        end
      else None
  | EmptyString => None
  end.

(** The line the claim gives the call with argument [arg]. *)
Definition statedLine (arg : string) : string :=
  match quotedLiteral arg with
  | Some text => text
  | None => arg
  end ++ nl.

(** The claim for the program that is the one call with argument [arg]. *)
Definition single_call_claim (arg : string) : Prop :=
  forall (env : Env) (w : World),
    exists r w',
      simulateExecution env ("print(" ++ arg ++ ")") "python" w = (Ret r, w')
      /\ output r = statedLine arg.

(** An argument that starts with neither white space, a quote nor f. *)
Definition startsPlain (arg : string) : bool :=
  match arg with
  | String c _ =>
      negb (Js.isWhiteSpace c) && negb (isQuote c) && negb (Ascii.eqb c "f")
  | EmptyString => true
  end.

(* ================================================================== *)
(** * Properties *)
(* ================================================================== *)

(** ** Strings *)

Lemma lowerChar_white (c : ascii) :
  Js.isWhiteSpace c = true -> Js.lowerChar c = c.
Proof.
  destruct c as [[] [] [] [] [] [] [] []]; vm_compute; congruence.
Qed.

Lemma toLowerCase_app (a b : string) :
  Js.toLowerCase (a ++ b) = Js.toLowerCase a ++ Js.toLowerCase b.
Proof.
  induction a as [|c a IH]; simpl; [reflexivity | now rewrite IH].
Qed.

Lemma toLowerCase_white (s : string) :
  allWhite s = true -> Js.toLowerCase s = s.
Proof.
  induction s as [|c s IH]; simpl; [reflexivity|].
  intros H. apply andb_prop in H as [Hc Hs].
  now rewrite (lowerChar_white c Hc), IH.
Qed.

Lemma trimStart_white_app (pre s : string) :
  allWhite pre = true -> Js.trimStart (pre ++ s) = Js.trimStart s.
Proof.
  induction pre as [|c pre IH]; simpl; [reflexivity|].
  intros H. apply andb_prop in H as [Hc Hs]. rewrite Hc. now apply IH.
Qed.

Lemma trimEnd_white (post : string) :
  allWhite post = true -> Js.trimEnd post = EmptyString.
Proof.
  induction post as [|c post IH]; simpl; [reflexivity|].
  intros H. apply andb_prop in H as [Hc Hs]. now rewrite (IH Hs), Hc.
Qed.

Lemma trimEnd_app_white (s post : string) :
  allWhite post = true -> Js.trimEnd (s ++ post) = Js.trimEnd s.
Proof.
  intros H. induction s as [|c s IH]; simpl.
  - now apply trimEnd_white.
  - now rewrite IH.
Qed.

Lemma trim_blank_iff (s : string) :
  Js.trim s = EmptyString <-> allWhite s = true.
Proof.
  unfold Js.trim. induction s as [|c s IH]; simpl; [tauto|].
  destruct (Js.isWhiteSpace c) eqn:Hc; simpl; [exact IH|].
  split; [|discriminate].
  destruct (Js.trimEnd s); [rewrite Hc|]; discriminate.
Qed.

Lemma setHas_In (set : list string) (x : string) :
  setHas set x = true <-> In x set.
Proof.
  unfold setHas. rewrite existsb_exists. split.
  - intros [y [Hy He]]. apply String.eqb_eq in He. now subst.
  - intros H. exists x. split; [assumption | apply String.eqb_refl].
Qed.

(** ** C5: the language registry *)

(** C5.  [isSupportedLanguage raw] is true exactly when lowercasing and
    trimming [raw] gives one of the ten identifiers.  So it is true for
    every identifier written in any case and with white space around it,
    false for every other string, the empty one included; being a total
    function to [bool] it never throws. *)
Theorem isSupportedLanguage_exact :
  (forall raw : string,
      isSupportedLanguage raw = true <->
      In (Js.trim (Js.toLowerCase raw))
         ["c"; "cpp"; "python"; "javascript"; "typescript"; "java"; "php";
          "go"; "html"; "css"])
  /\ (forall id pre s post : string,
         In id SUPPORTED_LANGUAGES ->
         allWhite pre = true -> allWhite post = true ->
         Js.toLowerCase s = id ->
         isSupportedLanguage (pre ++ s ++ post) = true)
  /\ (forall raw : string,
         ~ In (Js.trim (Js.toLowerCase raw)) SUPPORTED_LANGUAGES ->
         isSupportedLanguage raw = false)
  /\ isSupportedLanguage "" = false.
Proof.
  split; [|split; [|split]].
  - intros raw. unfold isSupportedLanguage, normalizeLanguageId.
    apply setHas_In.
  - intros id pre s post Hid Hpre Hpost Hs.
    unfold isSupportedLanguage, normalizeLanguageId.
    apply setHas_In.
    rewrite !toLowerCase_app, Hs, (toLowerCase_white pre Hpre),
      (toLowerCase_white post Hpost).
    unfold Js.trim. rewrite (trimStart_white_app pre _ Hpre).
    assert (Hstart : Js.trimStart (id ++ post) = id ++ post).
    { simpl in Hid.
      repeat (destruct Hid as [<- | Hid]; [reflexivity|]). contradiction. }
    rewrite Hstart, (trimEnd_app_white id post Hpost).
    simpl in Hid.
    repeat (destruct Hid as [<- | Hid]; [simpl; tauto|]). contradiction.
  - intros raw H. unfold isSupportedLanguage, normalizeLanguageId.
    destruct (setHas SUPPORTED_LANGUAGES _) eqn:E; [|reflexivity].
    apply setHas_In in E. contradiction.
  - reflexivity.
Qed.

Lemma isSupportedLanguage_exact_witness :
  isSupportedLanguage ("  " ++ "PyThon" ++ " ") = true.
Proof.
  apply (proj1 (proj2 isSupportedLanguage_exact) "python" "  " "PyThon" " ").
  - simpl; tauto.
  - reflexivity.
  - reflexivity.
  - reflexivity.
Defined.

(** ** C6: the C / C++ checks *)

Lemma matchAt_Char (c a : ascii) (s : string) :
  Regex.matchAt (Regex.Char c) (String a s)
  = if Ascii.eqb c a then Some (1, []) else None.
Proof.
  unfold Regex.matchAt, Regex.Char. cbn [Regex.rmatch String.length].
  destruct (Ascii.eqb c a); [|reflexivity].
  do 2 f_equal. lia.
Qed.

(** Counting the matches of a one-character pattern counts the
    occurrences of the character. *)
Lemma matchCount_Char (c : ascii) (s : string) :
  Regex.matchCount (Regex.Char c) s = countChar c s.
Proof.
  unfold Regex.matchCount.
  induction s as [|a s IH].
  - reflexivity.
  - cbn [Regex.countFrom countChar]. rewrite matchAt_Char.
    destruct (Ascii.eqb c a); now rewrite IH.
Qed.

Lemma trim_nonblank_eqb (code : string) :
  Js.trim code <> EmptyString -> String.eqb (Js.trim code) "" = false.
Proof.
  intros H. apply String.eqb_neq. exact H.
Qed.

(** ** Stripping: the patterns against the specification *)

Lemma drop_length (n : nat) (s : string) :
  String.length (Js.drop n s) = String.length s - n.
Proof.
  revert s. induction n as [|n IH]; intros [|c s]; cbn; try reflexivity.
  apply IH.
Qed.

Lemma drop_zero (s : string) : Js.drop 0 s = s.
Proof. now destruct s. Qed.

Lemma drop_one (c : ascii) (s : string) : Js.drop 1 (String c s) = s.
Proof. now destruct s. Qed.

Lemma dropWhile_length (p : ascii -> bool) (s : string) :
  String.length (dropWhile p s) <= String.length s.
Proof.
  induction s as [|c s IH]; cbn; [lia|]. destruct (p c); cbn; lia.
Qed.

Lemma rmatch_Lit {R : Type} (p s : string) (cs : Regex.captures)
      (k : string -> Regex.captures -> option R) :
  Regex.rmatch (Regex.Lit p) s cs k
  = if Js.startsWith p s then k (Js.drop (String.length p) s) cs else None.
Proof.
  revert s. induction p as [|c p IH]; intros s.
  - cbn. now destruct s.
  - cbn [Regex.Lit Regex.rmatch Regex.Char Js.startsWith String.length].
    destruct s as [|a s]; [reflexivity|].
    destruct (Ascii.eqb c a); [|reflexivity].
    cbn [andb Js.drop]. apply IH.
Qed.

Lemma rmatch_Seq_eq {R : Type} (r1 r2 : Regex.regex) (s : string)
      (cs : Regex.captures) (k : string -> Regex.captures -> option R) :
  Regex.rmatch (Regex.Seq r1 r2) s cs k
  = Regex.rmatch r1 s cs (fun s' cs' => Regex.rmatch r2 s' cs' k).
Proof. reflexivity. Qed.

Lemma rmatch_Class_eq {R : Type} (p : ascii -> bool) (s : string)
      (cs : Regex.captures) (k : string -> Regex.captures -> option R) :
  Regex.rmatch (Regex.Class p) s cs k
  = match s with
    | String c s' => if p c then k s' cs else None
    | EmptyString => None
    end.
Proof. reflexivity. Qed.

Lemma rmatch_Star_eq {R : Type} (g : bool) (r : Regex.regex) (s : string)
      (cs : Regex.captures) (k : string -> Regex.captures -> option R) :
  Regex.rmatch (Regex.Star g r) s cs k
  = Regex.starLoop g (Regex.rmatch r) k (S (String.length s)) s cs.
Proof. reflexivity. Qed.

Lemma starLoop_greedy_S {R : Type} step
      (k : string -> Regex.captures -> option R) (n : nat) (s : string)
      (cs : Regex.captures) :
  Regex.starLoop true step k (S n) s cs
  = match step s cs
            (fun s' cs' =>
               if String.length s' <? String.length s
               then Regex.starLoop true step k n s' cs' else None)
    with
    | Some x => Some x
    | None => k s cs
    end.
Proof. reflexivity. Qed.

(** A greedy star over a character class takes the whole run when the
    rest of the pattern cannot succeed from inside the run. *)
Lemma starClass_commit {R : Type} (p : ascii -> bool)
      (k : string -> Regex.captures -> option R) (cs : Regex.captures) :
  forall n s,
    String.length s < n ->
    (forall c t,
        String.length (String c t) <= String.length s -> p c = true ->
        k (dropWhile p t) cs = None -> k (String c t) cs = None) ->
    Regex.starLoop true (Regex.rmatch (Regex.Class p)) k n s cs
    = k (dropWhile p s) cs.
Proof.
  induction n as [|n IH]; intros s Hn Hk; [lia|].
  cbn [Regex.starLoop Regex.rmatch].
  destruct s as [|c s]; [reflexivity|].
  cbn [dropWhile]. destruct (p c) eqn:Pc; [|reflexivity].
  assert (L : (String.length s <? String.length (String c s)) = true)
    by (apply Nat.ltb_lt; cbn; lia).
  rewrite L. rewrite IH.
  - destruct (k (dropWhile p s) cs) eqn:E; [reflexivity|].
    apply Hk; [lia | exact Pc | exact E].
  - cbn in Hn. lia.
  - intros c' t Hl. apply Hk. cbn in *. lia.
Qed.

Lemma starAny_lazy {R : Type} (k : string -> Regex.captures -> option R)
      (cs : Regex.captures) :
  forall n s,
    String.length s < n ->
    Regex.starLoop false (Regex.rmatch Regex.Any) k n s cs
    = firstSuccess k cs s.
Proof.
  induction n as [|n IH]; intros s Hn; [lia|].
  cbn [Regex.starLoop Regex.rmatch Regex.Any].
  destruct s as [|c s]; cbn [firstSuccess].
  - now destruct (k EmptyString cs).
  - destruct (k (String c s) cs); [reflexivity|].
    assert (L : (String.length s <? String.length (String c s)) = true)
      by (apply Nat.ltb_lt; cbn; lia).
    rewrite L. apply IH. cbn in Hn. lia.
Qed.

Section Quoted.

Variable q : ascii.
Hypothesis q_not_backslash : Ascii.eqb q Patterns.backslash = false.

Lemma plain_spec (c : ascii) :
  (plainChar q) c = negb (Ascii.eqb c q || Ascii.eqb c Patterns.backslash).
Proof. unfold plainChar. cbn [existsb]. now rewrite orb_false_r. Qed.

Lemma literalBody_bound (L : nat) :
  forall s n,
    String.length s <= L -> literalBody q s = Some n ->
    1 <= n <= String.length s.
Proof.
  induction L as [|L IH]; intros s n HL.
  - destruct s; [discriminate | cbn in HL; lia].
  - destruct s as [|c s]; cbn [literalBody]; [discriminate|].
    destruct (Ascii.eqb c q); [intros E; injection E as <-; cbn; lia|].
    destruct (Ascii.eqb c Patterns.backslash).
    + destruct s as [|d s]; [discriminate|].
      destruct (Js.isLineTerminator d); [discriminate|].
      destruct (literalBody q s) as [m|] eqn:E; [|discriminate].
      intros X. injection X as <-.
      assert (1 <= m <= String.length s)
        by (apply IH; [cbn in HL; lia | exact E]).
      cbn. lia.
    + destruct (literalBody q s) as [m|] eqn:E; [|discriminate].
      intros X. injection X as <-.
      assert (1 <= m <= String.length s)
        by (apply IH; [cbn in HL; lia | exact E]).
      cbn. lia.
Qed.

Lemma literalBody_le (s : string) (n : nat) :
  literalBody q s = Some n -> 1 <= n <= String.length s.
Proof. apply (literalBody_bound (String.length s)). lia. Qed.

(** Behind a run of (plainChar q) characters the body goes on as it would from
    the start of the run. *)
Lemma behind_plain_run {R : Type} (k : string -> Regex.captures -> option R)
      (cs : Regex.captures) (s : string) :
  behind k cs s (literalBody q s)
  = behind k cs (dropWhile (plainChar q) s) (escapedBody q (dropWhile (plainChar q) s)).
Proof.
  induction s as [|c s IH]; [reflexivity|].
  cbn [dropWhile]. rewrite plain_spec.
  destruct (Ascii.eqb c q) eqn:Eq.
  - cbn [orb negb escapedBody]. now rewrite Eq.
  - destruct (Ascii.eqb c Patterns.backslash) eqn:Eb.
    + cbn [orb negb escapedBody]. now rewrite Eq, Eb.
    + cbn [orb negb]. rewrite <- IH. cbn [literalBody]. rewrite Eq, Eb.
      now destruct (literalBody q s).
Qed.

Lemma escapedBody_plain (c : ascii) (t : string) :
  (plainChar q) c = true -> escapedBody q (String c t) = None.
Proof.
  rewrite plain_spec. cbn [escapedBody].
  now destruct (Ascii.eqb c q || Ascii.eqb c Patterns.backslash).
Qed.

(** One backslash pair and the (plainChar q) characters behind it. *)
Lemma escape_step {R : Type} (u : string) (cs : Regex.captures)
      (k : string -> Regex.captures -> option R) :
  Regex.rmatch (escapePair q) u cs k
  = match u with
    | String c (String d u') =>
        if Ascii.eqb c Patterns.backslash && negb (Js.isLineTerminator d)
        then Regex.starLoop true (Regex.rmatch (Regex.Class (plainChar q))) k
               (S (String.length u')) u' cs
        else None
    | _ => None
    end.
Proof.
  unfold escapePair, Regex.Char, Regex.Dot.
  rewrite rmatch_Seq_eq, rmatch_Class_eq.
  destruct u as [|c u]; [reflexivity|].
  rewrite (Ascii.eqb_sym Patterns.backslash c).
  destruct (Ascii.eqb c Patterns.backslash); cbv beta.
  - rewrite rmatch_Seq_eq, rmatch_Class_eq.
    destruct u as [|d u]; [reflexivity|].
    destruct (Js.isLineTerminator d); [reflexivity|].
    cbn [negb andb]. cbv beta. now rewrite rmatch_Star_eq.
  - now destruct u.
Qed.

(** The loop over backslash pairs, followed by the closing quote. *)
Lemma escapeLoop {R : Type} (k : string -> Regex.captures -> option R)
      (cs : Regex.captures) :
  forall L u n,
    String.length u <= L -> String.length u < n ->
    Regex.starLoop true (Regex.rmatch (escapePair q))
      (fun s' cs' => Regex.rmatch (Regex.Char q) s' cs' k) n u cs
    = behind k cs u (escapedBody q u).
Proof.
  induction L as [|L IH]; intros u n HL Hn.
  - destruct u; [|cbn in HL; lia]. destruct n; [lia|]. reflexivity.
  - destruct n as [|n]; [lia|].
    rewrite starLoop_greedy_S, escape_step.
    destruct u as [|c u]; [reflexivity|].
    cbv beta. unfold Regex.Char. rewrite rmatch_Class_eq. fold (Regex.Char q).
    rewrite (Ascii.eqb_sym q c). cbn [escapedBody literalBody].
    destruct (Ascii.eqb c q) eqn:Eq.
    + assert (Eb : Ascii.eqb c Patterns.backslash = false).
      { apply Ascii.eqb_eq in Eq. now subst c. }
      rewrite Eb. cbn [orb andb behind]. rewrite drop_one.
      now destruct u.
    + destruct (Ascii.eqb c Patterns.backslash) eqn:Eb;
        [|cbn [orb andb]; now destruct u].
      cbn [orb andb]. destruct u as [|d u]; [reflexivity|].
      destruct (Js.isLineTerminator d); [reflexivity|]. cbn [negb].
      rewrite starClass_commit; [| lia |].
      * assert (Hd : (String.length (dropWhile (plainChar q) u)
                      <? String.length (String c (String d u))) = true).
        { apply Nat.ltb_lt. pose proof (dropWhile_length (plainChar q) u). cbn. lia. }
        rewrite Hd. rewrite IH.
        -- rewrite <- behind_plain_run.
           destruct (literalBody q u) as [m|]; [|reflexivity].
           cbn [option_map behind Js.drop].
           now destruct (k (Js.drop m u) cs).
        -- pose proof (dropWhile_length (plainChar q) u). cbn in HL. lia.
        -- pose proof (dropWhile_length (plainChar q) u). cbn in Hn. lia.
      * intros c' t Hl Pc _.
        assert (Hd : (String.length (String c' t)
                      <? String.length (String c (String d u))) = true).
        { apply Nat.ltb_lt. cbn in *. lia. }
        rewrite Hd. rewrite IH.
        -- now rewrite (escapedBody_plain c' t Pc).
        -- cbn in *. lia.
        -- cbn in *. lia.
Qed.

Lemma quotedPattern_body {R : Type}
      (k : string -> Regex.captures -> option R) (cs : Regex.captures)
      (s : string) :
  Regex.rmatch (quotedPattern q) s cs k = behind k cs s (literalAt q s).
Proof.
  unfold quotedPattern, Regex.NotIn. fold (plainChar q). fold (escapePair q).
  rewrite rmatch_Seq_eq. unfold Regex.Char at 1. rewrite rmatch_Class_eq.
  destruct s as [|c s]; [reflexivity|]. cbn [literalAt].
  rewrite (Ascii.eqb_sym q c). destruct (Ascii.eqb c q); [|reflexivity].
  rewrite rmatch_Seq_eq, rmatch_Star_eq.
  rewrite starClass_commit; [| lia |].
  - rewrite rmatch_Seq_eq, rmatch_Star_eq.
    rewrite (escapeLoop k cs (String.length (dropWhile (plainChar q) s)));
      [| lia | lia].
    rewrite <- behind_plain_run.
    destruct (literalBody q s) as [m|]; reflexivity.
  - intros c' t Hl Pc _.
    rewrite rmatch_Seq_eq, rmatch_Star_eq.
    rewrite (escapeLoop k cs (String.length (String c' t))); [| lia | lia].
    now rewrite (escapedBody_plain c' t Pc).
Qed.

Lemma matchAt_quotedPattern (s : string) :
  option_map fst (Regex.matchAt (quotedPattern q) s) = literalAt q s.
Proof.
  unfold Regex.matchAt. rewrite quotedPattern_body.
  destruct (literalAt q s) as [n|] eqn:E; [|reflexivity].
  cbn [behind option_map fst]. rewrite drop_length. f_equal.
  destruct s as [|c s]; [discriminate|]. cbn [literalAt] in E.
  destruct (Ascii.eqb c q); [|discriminate].
  destruct (literalBody q s) as [m|] eqn:B; [|discriminate].
  injection E as <-. apply literalBody_le in B.
  change (String.length (String c s)) with (S (String.length s)). lia.
Qed.

End Quoted.

Lemma matchAt_doubleQuoted (s : string) :
  option_map fst (Regex.matchAt Patterns.doubleQuoted s)
  = literalAt Patterns.dquote s.
Proof. apply (matchAt_quotedPattern Patterns.dquote). reflexivity. Qed.

Lemma matchAt_singleQuoted (s : string) :
  option_map fst (Regex.matchAt Patterns.singleQuoted s)
  = literalAt Patterns.squote s.
Proof. apply (matchAt_quotedPattern Patterns.squote). reflexivity. Qed.

Lemma startsWith_length (p s : string) :
  Js.startsWith p s = true -> String.length p <= String.length s.
Proof.
  revert s. induction p as [|a p IH]; intros [|b s] H; cbn in *;
    try lia; try discriminate.
  apply andb_true_iff in H. destruct H as [_ H]. apply IH in H. lia.
Qed.

Lemma lineLength_dropWhile (s : string) :
  String.length s
  = lineLength s
    + String.length (dropWhile (fun c => negb (Js.isLineTerminator c)) s).
Proof.
  induction s as [|c s IH]; [reflexivity|].
  cbn [lineLength dropWhile]. destruct (Js.isLineTerminator c); cbn [negb].
  - reflexivity.
  - cbn [String.length]. lia.
Qed.

Lemma atLineEnd_dropWhile (s : string) :
  Regex.atLineEnd (dropWhile (fun c => negb (Js.isLineTerminator c)) s) = true.
Proof.
  induction s as [|c s IH]; [reflexivity|].
  cbn [dropWhile]. destruct (Js.isLineTerminator c) eqn:E; cbn [negb].
  - exact E.
  - exact IH.
Qed.

(** The line-comment pattern takes two slashes and the rest of the line. *)
Lemma matchAt_lineComment (s : string) :
  option_map fst (Regex.matchAt Patterns.lineComment s) = lineCommentAt s.
Proof.
  unfold Regex.matchAt, Patterns.lineComment, lineCommentAt.
  rewrite rmatch_Seq_eq, rmatch_Lit.
  destruct (Js.startsWith "//" s) eqn:E; [|reflexivity].
  rewrite rmatch_Seq_eq. unfold Regex.Dot. rewrite rmatch_Star_eq.
  rewrite starClass_commit; [| lia |].
  - cbn [Regex.rmatch]. rewrite atLineEnd_dropWhile.
    cbn [option_map fst]. f_equal.
    apply startsWith_length in E.
    pose proof (drop_length 2 s) as D.
    pose proof (lineLength_dropWhile (Js.drop 2 s)) as Ln.
    change (String.length "//") with 2 in *. lia.
  - intros c t _ Pc _. cbn [Regex.rmatch Regex.atLineEnd].
    now destruct (Js.isLineTerminator c).
Qed.

Lemma blockEnd_le (s : string) (n : nat) :
  blockEnd s = Some n -> 2 <= n <= String.length s.
Proof.
  revert n. induction s as [|c s IH]; intros n H.
  - discriminate.
  - cbn [blockEnd] in H.
    destruct (Js.startsWith "*/" (String c s)) eqn:E.
    + injection H as <-. apply startsWith_length in E.
      change (String.length "*/") with 2 in E. lia.
    + destruct (blockEnd s) as [m|]; [|discriminate].
      injection H as <-. specialize (IH m eq_refl). cbn [String.length]. lia.
Qed.

Lemma firstSuccess_blockEnd (L : nat) (s : string) :
  firstSuccess
    (fun s' cs' =>
       Regex.rmatch (Regex.Lit "*/") s' cs'
         (fun s'' cs'' => Some (L - String.length s'', cs'')))
    [] s
  = option_map (fun n => (L - (String.length s - n), @nil (nat * string)))
      (blockEnd s).
Proof.
  induction s as [|c s IH].
  - reflexivity.
  - cbn [firstSuccess blockEnd]. rewrite rmatch_Lit.
    destruct (Js.startsWith "*/" (String c s)) eqn:E.
    + cbn [option_map]. rewrite drop_length. reflexivity.
    + rewrite IH. destruct (blockEnd s) as [m|]; [|reflexivity].
      cbn [option_map String.length]. reflexivity.
Qed.

(** The block-comment pattern takes slash-star up to the first star-slash. *)
Lemma matchAt_blockComment (s : string) :
  option_map fst (Regex.matchAt Patterns.blockComment s) = blockCommentAt s.
Proof.
  unfold Regex.matchAt, Patterns.blockComment, blockCommentAt.
  rewrite rmatch_Seq_eq, rmatch_Lit.
  destruct (Js.startsWith "/*" s) eqn:E; [|reflexivity].
  rewrite rmatch_Seq_eq, rmatch_Star_eq.
  rewrite starAny_lazy by lia.
  rewrite firstSuccess_blockEnd.
  change (String.length "/*") with 2.
  destruct (blockEnd (Js.drop 2 s)) as [n|] eqn:B; [|reflexivity].
  cbn [option_map fst]. f_equal.
  apply blockEnd_le in B. apply startsWith_length in E.
  pose proof (drop_length 2 s) as D.
  change (String.length "/*") with 2 in E. lia.
Qed.

(** Replacing every match of a pattern is the substitution of the pieces
    the pattern matches, when no piece is empty. *)
Lemma replaceFrom_substitute (r : Regex.regex) (rep : string)
      (occurrence : string -> option nat) :
  (forall t, option_map fst (Regex.matchAt r t) = occurrence t) ->
  (forall t, occurrence t <> Some 0) ->
  occurrence EmptyString = None ->
  forall s skip,
    Regex.replaceFrom r rep skip s = substitute occurrence rep skip s.
Proof.
  intros Hm H0 He.
  induction s as [|c s IH]; intros skip.
  - cbn [Regex.replaceFrom substitute].
    pose proof (Hm EmptyString) as E. rewrite He in E.
    destruct skip; [|reflexivity].
    now destruct (Regex.matchAt r EmptyString).
  - cbn [Regex.replaceFrom substitute].
    destruct skip as [|n]; [|apply IH].
    pose proof (Hm (String c s)) as E. pose proof (H0 (String c s)) as Z.
    destruct (Regex.matchAt r (String c s)) as [[[|n] cs]|];
      cbn [option_map fst] in E; rewrite <- E in *.
    + congruence.
    + now rewrite IH.
    + now rewrite IH.
Qed.

Lemma literalAt_positive (q : ascii) (t : string) : literalAt q t <> Some 0.
Proof.
  destruct t as [|c t]; [discriminate|]. cbn [literalAt].
  destruct (Ascii.eqb c q); [|discriminate].
  now destruct (literalBody q t).
Qed.

Lemma lineCommentAt_positive (t : string) : lineCommentAt t <> Some 0.
Proof.
  unfold lineCommentAt. now destruct (Js.startsWith "//" t).
Qed.

Lemma blockCommentAt_positive (t : string) : blockCommentAt t <> Some 0.
Proof.
  unfold blockCommentAt. destruct (Js.startsWith "/*" t); [|discriminate].
  now destruct (blockEnd (Js.drop 2 t)).
Qed.

(** The replace chain of the code strips what the specification names. *)
Lemma codeWithoutStrings_strippedSpec (code : string) :
  codeWithoutStrings code = strippedSpec code.
Proof.
  unfold codeWithoutStrings, strippedSpec, Regex.replaceAll.
  rewrite (replaceFrom_substitute Patterns.doubleQuoted _
             (literalAt Patterns.dquote));
    [| apply matchAt_doubleQuoted | apply literalAt_positive | reflexivity].
  rewrite (replaceFrom_substitute Patterns.singleQuoted _
             (literalAt Patterns.squote));
    [| apply matchAt_singleQuoted | apply literalAt_positive | reflexivity].
  rewrite (replaceFrom_substitute Patterns.lineComment _ lineCommentAt);
    [| apply matchAt_lineComment | apply lineCommentAt_positive | reflexivity].
  rewrite (replaceFrom_substitute Patterns.blockComment _ blockCommentAt);
    [| apply matchAt_blockComment | apply blockCommentAt_positive
     | reflexivity].
  reflexivity.
Qed.

(** C6.  For [languageId] exactly c or cpp and code that is not blank,
    [checkSyntax] reports an error exactly when (1) the code contains
    neither [main(] nor [main (], or (2) it contains [printf(] and no
    semicolon, or (3) the text left after string literals, character
    literals, line comments and then block comments have been substituted
    away has more opening than closing braces; the three tests are made
    in this order, each with its own message, and when none applies there
    is no error.  The text on which the code counts braces is that
    stripped text: a brace inside a character literal does not count, and
    a closing brace inside a string literal or a comment closes nothing. *)
Theorem checkSyntax_c_cpp (code languageId : string) :
  languageId = "c" \/ languageId = "cpp" ->
  Js.trim code <> EmptyString ->
  let noMain :=
    Js.includes "main(" code = false /\ Js.includes "main (" code = false in
  let noSemicolon :=
    Js.includes "printf(" code = true /\ Js.includes ";" code = false in
  let unbalanced :=
    countChar "}" (strippedSpec code) < countChar "{" (strippedSpec code) in
  (hasError (checkSyntax code languageId) = true
     <-> noMain \/ noSemicolon \/ unbalanced)
  /\ (noMain -> checkSyntax code languageId = syntaxError missingMainMessage)
  /\ (~ noMain -> noSemicolon ->
      checkSyntax code languageId
      = syntaxError "Syntax Error: missing semicolon ';'")
  /\ (~ noMain -> ~ noSemicolon -> unbalanced ->
      checkSyntax code languageId
      = syntaxError "Error: missing closing curly brace '}'")
  /\ (~ noMain -> ~ noSemicolon -> ~ unbalanced ->
      checkSyntax code languageId = syntaxOk)
  /\ codeWithoutStrings code = strippedSpec code
  /\ strippedSpec charLiteralSample = "int main(){ char c = ''; return 0; }"
  /\ strippedSpec closersInTextSample = closersInTextStripped
  /\ checkSyntax charLiteralSample languageId = syntaxOk
  /\ checkSyntax closersInTextSample languageId
     = syntaxError "Error: missing closing curly brace '}'".
Proof.
  intros Hlang Hcode noMain noSemicolon unbalanced.
  assert (Hcheck : checkSyntax code languageId =
    if negb (Js.includes "main(" code) && negb (Js.includes "main (" code)
    then syntaxError missingMainMessage
    else if Js.includes "printf(" code && negb (Js.includes ";" code)
    then syntaxError "Syntax Error: missing semicolon ';'"
    else if countChar "}" (strippedSpec code)
            <? countChar "{" (strippedSpec code)
    then syntaxError "Error: missing closing curly brace '}'"
    else syntaxOk).
  { unfold checkSyntax, openBrackets, closeBrackets, Patterns.openBrace,
      Patterns.closeBrace.
    rewrite (trim_nonblank_eqb code Hcode), !matchCount_Char.
    rewrite codeWithoutStrings_strippedSpec.
    destruct Hlang as [-> | ->]; reflexivity. }
  assert (Hsamples :
    codeWithoutStrings code = strippedSpec code
    /\ strippedSpec charLiteralSample = "int main(){ char c = ''; return 0; }"
    /\ strippedSpec closersInTextSample = closersInTextStripped
    /\ checkSyntax charLiteralSample languageId = syntaxOk
    /\ checkSyntax closersInTextSample languageId
       = syntaxError "Error: missing closing curly brace '}'").
  { split; [apply codeWithoutStrings_strippedSpec|].
    split; [reflexivity|]. split; [reflexivity|].
    destruct Hlang as [-> | ->]; split; reflexivity. }
  rewrite Hcheck. clear Hcheck. revert Hsamples.
  generalize (checkSyntax charLiteralSample languageId)
             (checkSyntax closersInTextSample languageId).
  intros sample1 sample2 Hsamples.
  subst noMain noSemicolon unbalanced.
  destruct (Js.includes "main(" code), (Js.includes "main (" code),
    (Js.includes "printf(" code), (Js.includes ";" code);
    destruct (Nat.ltb_spec (countChar "}" (strippedSpec code))
                           (countChar "{" (strippedSpec code)));
    cbn [negb andb hasError syntaxError syntaxOk];
    (split; [|split; [|split; [|split; [|split; [|exact Hsamples]]]]]);
    try split; intros; try reflexivity; try congruence; try tauto;
    try lia; try (exfalso; intuition (congruence || lia)).
Qed.

Lemma checkSyntax_c_cpp_witness :
  checkSyntax charLiteralSample "c" = syntaxOk.
Proof.
  refine (proj1 (proj2 (proj2 (proj2 (proj2
            (checkSyntax_c_cpp charLiteralSample "c"
               (or_introl eq_refl) _))))) _ _ _).
  - vm_compute. discriminate.
  - intros [H _]. vm_compute in H. discriminate H.
  - intros [_ H]. vm_compute in H. discriminate H.
  - vm_compute. lia.
Defined.

(** ** C8: the Python indentation heuristic *)

Lemma indentationLoop_indents (lines : list string) :
  forall previousIndent,
    indentationLoop previousIndent lines
    = indentScan previousIndent
        (map lineIndent (filter (fun line => negb (isCommentLine line)) lines)).
Proof.
  induction lines as [|line rest IH]; intros p; [reflexivity|].
  cbn [indentationLoop filter]. unfold isCommentLine at 1.
  destruct (Js.startsWith "#" (Js.trim line)); cbn [negb map indentScan].
  - apply IH.
  - rewrite IH. reflexivity.
Qed.

Lemma mod4_mod2 (n : nat) : n mod 4 = 0 -> n mod 2 = 0.
Proof.
  intros H. pose proof (Nat.div_mod_eq n 4) as E.
  pose proof (Nat.div_mod_eq n 2) as E2.
  pose proof (Nat.mod_upper_bound n 2 ltac:(lia)). lia.
Qed.

Lemma flag_test_spec (p i : nat) :
  ((0 <? i) && (0 <? p)
   && ((negb (i mod 4 =? 0) && negb (i mod 2 =? 0))
       || ((p <? i) && negb ((i - p) mod 2 =? 0)
           && negb ((i - p) mod 4 =? 0)))) = true
  <-> flagged p i.
Proof.
  unfold flagged, notMultipleOf2Or4.
  rewrite !andb_true_iff, orb_true_iff, !andb_true_iff, !negb_true_iff,
    !Nat.ltb_lt, !Nat.eqb_neq.
  tauto.
Qed.

Lemma indentScan_spec (indents : list nat) :
  forall previousIndent,
    indentScan previousIndent indents = true
    <-> exists pre x post,
        indents = (pre ++ x :: post)%list
        /\ flagged (lastIndent previousIndent pre) x.
Proof.
  induction indents as [|i rest IH]; intros p; cbn [indentScan].
  - split; [discriminate|].
    intros (pre & x & post & E & _). now destruct pre.
  - destruct ((0 <? i) && (0 <? p) && _) eqn:T.
    + split; [intros _|reflexivity].
      exists [], i, rest. split; [reflexivity|]. now apply flag_test_spec.
    + rewrite IH. split.
      * intros (pre & x & post & E & F).
        exists (i :: pre), x, post. split; [now rewrite E|exact F].
      * intros (pre & x & post & E & F).
        destruct pre as [|j pre]; cbn in E; injection E as <- ->.
        -- unfold lastIndent in F. cbn [fold_left] in F.
           apply flag_test_spec in F. rewrite F in T. discriminate T.
        -- exists pre, x, post. split; [reflexivity|exact F].
Qed.

Lemma indentScan_even (indents : list nat) :
  Forall (fun i => i mod 2 = 0) indents ->
  forall previousIndent,
    previousIndent mod 2 = 0 -> indentScan previousIndent indents = false.
Proof.
  induction 1 as [|i rest Hi _ IH]; intros p Hp; cbn [indentScan];
    [reflexivity|].
  assert (T : flagged p i -> False).
  { unfold flagged, notMultipleOf2Or4. intros (_ & _ & [[A _] | [L [A _]]]).
    - contradiction.
    - apply A. pose proof (Nat.div_mod_eq i 2). pose proof (Nat.div_mod_eq p 2).
      pose proof (Nat.div_mod_eq (i - p) 2).
      pose proof (Nat.mod_upper_bound (i - p) 2 ltac:(lia)). lia. }
  destruct ((0 <? i) && (0 <? p) && _) eqn:E.
  - exfalso. apply T. now apply flag_test_spec.
  - apply IH. now destruct (0 <? i).
Qed.

Lemma checkSyntax_python_eq (code : string) :
  Js.trim code <> EmptyString ->
  checkSyntax code "python"
  = if indentScan 0 (checkedIndents code)
    then syntaxError indentationMessage else syntaxOk.
Proof.
  intros H. unfold checkSyntax. rewrite (trim_nonblank_eqb code H).
  cbn [String.eqb Ascii.eqb Bool.eqb orb].
  now rewrite indentationLoop_indents.
Qed.

(** C8, counterexample.  A single line indented by three spaces has an
    indent that is not a multiple of 2 or 4, and is not reported: the loop
    tests a line only when an earlier line was indented too. *)
Lemma indentation_first_line_unchecked :
  ~ indentation_claim_as_stated "   x = 1".
Proof.
  intros H.
  assert (E : checkSyntax "   x = 1" "python" = syntaxOk) by reflexivity.
  rewrite H in E; [discriminate E|discriminate|].
  left. exists 3. split; [left; reflexivity|].
  split; vm_compute; discriminate.
Qed.

(** C8, as amended.  For python and code that is not blank, the error is
    reported exactly when some checked line with a non-zero indent comes
    after an earlier checked line with a non-zero indent and its indent, or
    its increase over that previous non-zero indent, is not a multiple of 2
    or 4; otherwise there is no error.  Lines indented 3 then 7 spaces are
    reported, and code whose indents are all even, such as a uniform 4, is
    not. *)
Theorem checkSyntax_python (code : string) :
  Js.trim code <> EmptyString ->
  let reported :=
    exists pre x post,
      checkedIndents code = (pre ++ x :: post)%list
      /\ flagged (lastIndent 0 pre) x in
  (checkSyntax code "python" = syntaxError indentationMessage <-> reported)
  /\ (~ reported -> checkSyntax code "python" = syntaxOk)
  /\ (Forall (fun i => i mod 2 = 0) (checkedIndents code) ->
      checkSyntax code "python" = syntaxOk)
  /\ checkSyntax threeThenSeven "python" = syntaxError indentationMessage
  /\ checkSyntax uniformFour "python" = syntaxOk.
Proof.
  intros H reported. rewrite (checkSyntax_python_eq code H).
  pose proof (indentScan_spec (checkedIndents code) 0) as S.
  fold reported in S.
  split; [|split; [|split; [|split]]].
  - destruct (indentScan 0 (checkedIndents code)).
    + split; [intros _; now apply S|reflexivity].
    + split; [discriminate|]. intros R. apply S in R. discriminate.
  - intros N. destruct (indentScan 0 (checkedIndents code));
      [exfalso; apply N; now apply S|reflexivity].
  - intros E. now rewrite (indentScan_even _ E 0 eq_refl).
  - reflexivity.
  - reflexivity.
Qed.

Lemma checkSyntax_python_witness :
  checkSyntax ("a:" ++ nl ++ "  b" ++ nl ++ "     c") "python"
  = syntaxError indentationMessage.
Proof.
  apply (proj1 (checkSyntax_python ("a:" ++ nl ++ "  b" ++ nl ++ "     c")
                  ltac:(discriminate))).
  exists [0; 2], 5, []. split; [reflexivity|].
  repeat split; vm_compute; lia.
Defined.

(** ** C7: the JavaScript / TypeScript string scanner *)

Lemma append_empty_r (s : string) : s ++ EmptyString = s.
Proof. induction s as [|c s IH]; simpl; [reflexivity | now rewrite IH]. Qed.

Lemma append_assoc (a b c : string) : (a ++ b) ++ c = a ++ (b ++ c).
Proof. induction a as [|x a IH]; simpl; [reflexivity | now rewrite IH]. Qed.

Lemma countChar_app (c : ascii) (a b : string) :
  countChar c (a ++ b) = countChar c a + countChar c b.
Proof.
  induction a as [|x a IH]; simpl; [reflexivity|].
  destruct (Ascii.eqb c x); rewrite IH; reflexivity.
Qed.

Lemma take_snoc (n : nat) (r : string) (c : ascii) :
  Js.take n (r ++ String c EmptyString)
  = if n <=? String.length r then Js.take n r else r ++ String c EmptyString.
Proof.
  revert n. induction r as [|x r IH]; intros [|n]; try reflexivity.
  - cbn. now destruct n.
  - cbn [Js.take String.append String.length]. rewrite IH.
    change (S n <=? S (String.length r)) with (n <=? String.length r).
    now destruct (n <=? String.length r).
Qed.

Lemma take_all (n : nat) (r : string) :
  String.length r <= n -> Js.take n r = r.
Proof.
  revert n. induction r as [|x r IH]; intros [|n] H; cbn in *;
    try reflexivity; try lia.
  rewrite IH; [reflexivity | lia].
Qed.

Lemma scanFrom_app (a b : string) :
  forall st, scanFrom st (a ++ b) = scanFrom (scanFrom st a) b.
Proof.
  induction a as [|c a IH]; intros st; simpl; [reflexivity | apply IH].
Qed.

Lemma scan_snoc (pre : string) (c : ascii) :
  scan (pre ++ String c EmptyString) = scanStep (scan pre) c.
Proof. unfold scan. now rewrite scanFrom_app. Qed.

Lemma scanStep_line (st : ScanState) (c : ascii) :
  currentLine (scanStep st c)
  = if Ascii.eqb c Patterns.newline then S (currentLine st) else currentLine st.
Proof.
  unfold scanStep.
  destruct st as [a b t e sl cl ty]; cbn [inSingleQuote inDoubleQuote
    inTemplateLiteral escapeNext stringStartLine currentLine stringType].
  destruct e, a, b, t; cbn [negb andb];
    repeat match goal with
           | |- context [if Ascii.eqb c ?x then _ else _] =>
               destruct (Ascii.eqb c x)
           end; reflexivity.
Qed.

(** A step either leaves the string state alone, opens a string from the
    outside, or closes the one string that is open. *)
Lemma scanStep_flags (st : ScanState) (c : ascii) :
  oneString st ->
  (flagsOf (scanStep st c) = flagsOf st
   /\ stringType (scanStep st c) = stringType st
   /\ stringStartLine (scanStep st c) = stringStartLine st)
  \/ (flagsOf st = (false, false, false) /\ escapeNext st = false
      /\ exists k, c = kindChar k
           /\ flagsOf (scanStep st c) = kindFlags k
           /\ stringType (scanStep st c) = kindName k
           /\ stringStartLine (scanStep st c) = currentLine st)
  \/ (exists k, flagsOf st = kindFlags k
           /\ flagsOf (scanStep st c) = (false, false, false)).
Proof.
  unfold oneString, scanStep, flagsOf.
  destruct st as [a b t e sl cl ty]; cbn [inSingleQuote inDoubleQuote
    inTemplateLiteral escapeNext stringStartLine currentLine stringType].
  intros W.
  destruct e; [left; repeat split|].
  destruct (Ascii.eqb c Patterns.backslash); [left; repeat split|].
  destruct W as [W | [[] W]]; injection W as -> -> ->; cbn [negb andb];
    destruct (Ascii.eqb_spec c Patterns.squote) as [Es|Es];
    destruct (Ascii.eqb_spec c Patterns.dquote) as [Ed|Ed];
    destruct (Ascii.eqb_spec c Patterns.backtick) as [Eb|Eb];
    cbn [inSingleQuote inDoubleQuote inTemplateLiteral escapeNext
         stringStartLine currentLine stringType];
    try (left; repeat split; fail);
    try (subst c; discriminate);
    try (right; right; (exists SingleQuote + exists DoubleQuote
                        + exists TemplateLiteral); split; reflexivity).
  all: right; left; split; [reflexivity|]; split; [reflexivity|];
    (exists SingleQuote + exists DoubleQuote + exists TemplateLiteral);
    subst c; repeat split; reflexivity.
Qed.

Lemma flags_inString (st : ScanState) :
  (flagsOf st = (false, false, false) -> inString st = false)
  /\ (forall k, flagsOf st = kindFlags k -> inString st = true).
Proof.
  unfold flagsOf, inString. split.
  - intros E. injection E as -> -> ->. reflexivity.
  - intros [] E; injection E as -> -> ->; reflexivity.
Qed.

Lemma inString_flags (st : ScanState) :
  inString st = false -> flagsOf st = (false, false, false).
Proof.
  unfold flagsOf, inString.
  destruct (inSingleQuote st), (inDoubleQuote st), (inTemplateLiteral st);
    cbn; congruence.
Qed.

Lemma kind_not_newline (k : StringKind) :
  Ascii.eqb (kindChar k) Patterns.newline = false.
Proof. now destruct k. Qed.

Lemma scanInv_snoc (pre : string) (c : ascii) :
  scanInv pre -> scanInv (pre ++ String c EmptyString).
Proof.
  unfold scanInv. cbn zeta. rewrite scan_snoc.
  intros [Hline Hstr]. split.
  - rewrite scanStep_line, Hline. unfold newlines.
    rewrite countChar_app. cbn [countChar].
    rewrite (Ascii.eqb_sym c Patterns.newline).
    destruct (Ascii.eqb Patterns.newline c); lia.
  - assert (W : oneString (scan pre)).
    { destruct Hstr as [E | (k & p & r & _ & E & _)];
        [now left|right; now exists k]. }
    destruct (scanStep_flags (scan pre) c W)
      as [(Ef & Et & El) | [(Eout & Eesc & k & -> & Ef & Et & El)
                           | (k & _ & Ef)]].
    + destruct Hstr as [E | (k & p & r & (Ecode & Hout & Hesc & Hin) & E & Ty & Ln)].
      * left. congruence.
      * right. exists k, p, (r ++ String c EmptyString).
        repeat split; try congruence.
        -- now rewrite Ecode, append_assoc.
        -- intros n. rewrite take_snoc.
           destruct (n <=? String.length r); [apply Hin|].
           change (String (kindChar k) (r ++ String c EmptyString))
             with (String (kindChar k) r ++ String c EmptyString).
           rewrite <- append_assoc, <- Ecode, scan_snoc.
           apply (proj2 (flags_inString _) k). congruence.
    + right. exists k, pre, EmptyString.
      repeat split; try assumption.
      * now apply (proj1 (flags_inString _)).
      * intros n. replace (Js.take n EmptyString) with EmptyString
          by now destruct n.
        rewrite scan_snoc. now apply (proj2 (flags_inString _) k).
      * rewrite El, Hline. unfold newlines. reflexivity.
    + now left.
Qed.

Lemma scanInv_app (code : string) :
  forall pre, scanInv pre -> scanInv (pre ++ code).
Proof.
  induction code as [|c code IH]; intros pre H.
  - now rewrite append_empty_r.
  - change (String c code) with (String c EmptyString ++ code).
    rewrite <- append_assoc. apply IH. now apply scanInv_snoc.
Qed.

Lemma scanInv_all (code : string) : scanInv code.
Proof.
  apply (scanInv_app code EmptyString).
  split; [reflexivity | now left].
Qed.

(** The scanner of the code against the scan of the specification. *)

Lemma scanStep_escaped (st : ScanState) mode (line : nat) (c : ascii) :
  agrees st mode line -> escapeNext st = true ->
  agrees (scanStep st c) mode (bumpLine line c)
  /\ escapeNext (scanStep st c) = false.
Proof.
  unfold agrees, flagsOf, scanStep, bumpLine.
  destruct st as [a b t e sl cl ty]; cbn [inSingleQuote inDoubleQuote
    inTemplateLiteral escapeNext stringStartLine currentLine stringType].
  intros [<- Hm] ->.
  repeat split; try assumption;
    try (destruct mode as [[k start]|]; exact Hm).
Qed.

Lemma scanStep_backslash (st : ScanState) mode (line : nat) :
  agrees st mode line -> escapeNext st = false ->
  agrees (scanStep st Patterns.backslash) mode line
  /\ escapeNext (scanStep st Patterns.backslash) = true.
Proof.
  unfold agrees, flagsOf, scanStep.
  destruct st as [a b t e sl cl ty]; cbn [inSingleQuote inDoubleQuote
    inTemplateLiteral escapeNext stringStartLine currentLine stringType].
  intros [<- Hm] ->.
  repeat split; try assumption;
    try (destruct mode as [[k start]|]; exact Hm).
Qed.

Lemma scanStep_plain (st : ScanState) mode (line : nat) (c : ascii) :
  agrees st mode line -> escapeNext st = false ->
  Ascii.eqb c Patterns.backslash = false ->
  escapeNext (scanStep st c) = false
  /\ match mode with
     | None =>
         match quoteKind c with
         | Some k => agrees (scanStep st c) (Some (k, line)) line
         | None => agrees (scanStep st c) None (bumpLine line c)
         end
     | Some (k, start) =>
         if Ascii.eqb c (kindChar k)
         then agrees (scanStep st c) None (bumpLine line c)
         else agrees (scanStep st c) mode (bumpLine line c)
     end.
Proof.
  unfold agrees, flagsOf, scanStep, bumpLine, quoteKind.
  destruct st as [a b t e sl cl ty]; cbn [inSingleQuote inDoubleQuote
    inTemplateLiteral escapeNext stringStartLine currentLine stringType].
  intros [<- Hm] -> Hb. rewrite Hb.
  destruct mode as [[k start]|].
  - destruct Hm as (Hf & -> & ->).
    destruct k; injection Hf as -> -> ->; cbn [negb andb kindChar];
      match goal with
      | |- context [if Ascii.eqb c ?q then _ else _] =>
          destruct (Ascii.eqb c q)
      end;
      cbn [inSingleQuote inDoubleQuote inTemplateLiteral escapeNext
           stringStartLine currentLine stringType kindFlags kindName];
      repeat split; reflexivity.
  - injection Hm as -> -> ->. cbn [negb andb].
    destruct (Ascii.eqb_spec c Patterns.squote) as [->|];
      [repeat split; reflexivity|].
    destruct (Ascii.eqb_spec c Patterns.dquote) as [->|];
      [repeat split; reflexivity|].
    destruct (Ascii.eqb_spec c Patterns.backtick) as [->|];
      repeat split; reflexivity.
Qed.

Lemma scanFrom_openLiteral (s : string) :
  forall st mode line,
    agrees st mode line ->
    (escapeNext st = false ->
     exists l, agrees (scanFrom st s) (openLiteral mode line s) l)
    /\ (escapeNext st = true ->
        exists l, agrees (scanFrom st s) (afterBackslash mode line s) l).
Proof.
  induction s as [|c s IH]; intros st mode line A.
  - cbn [scanFrom openLiteral afterBackslash]. split; intros _; now exists line.
  - cbn [scanFrom openLiteral afterBackslash]. split; intros E.
    + destruct (Ascii.eqb c Patterns.backslash) eqn:B.
      * apply Ascii.eqb_eq in B. subst c.
        destruct (scanStep_backslash st mode line A E) as [A' E'].
        exact (proj2 (IH _ _ _ A') E').
      * destruct (scanStep_plain st mode line c A E B) as [E' A'].
        destruct mode as [[k start]|].
        -- destruct (Ascii.eqb c (kindChar k));
             exact (proj1 (IH _ _ _ A') E').
        -- destruct (quoteKind c); exact (proj1 (IH _ _ _ A') E').
    + destruct (scanStep_escaped st mode line c A E) as [A' E'].
      exact (proj1 (IH _ _ _ A') E').
Qed.

Lemma scan_unterminatedLiteral (code : string) :
  exists l, agrees (scan code) (unterminatedLiteral code) l.
Proof.
  apply (proj1 (scanFrom_openLiteral code scanInit None 1
                  (conj eq_refl eq_refl))).
  reflexivity.
Qed.

Lemma unterminatedLiteral_inString (code : string) :
  (unterminatedLiteral code = None <-> inString (scan code) = false).
Proof.
  destruct (scan_unterminatedLiteral code) as [l [_ A]].
  destruct (unterminatedLiteral code) as [[k start]|].
  - destruct A as (F & _). apply (proj2 (flags_inString _)) in F.
    split; [discriminate | congruence].
  - apply (proj1 (flags_inString _)) in A. tauto.
Qed.

Lemma kindName_injective (k k' : StringKind) : kindName k = kindName k' -> k = k'.
Proof. destruct k, k'; intros H; try reflexivity; discriminate H. Qed.

(** C7.  For javascript or typescript, code that is not blank and no
    more opening than closing braces in the stripped text, the check
    follows one pass over the code in which a backslash takes exactly the
    next character with it, inside and outside strings, every line feed
    moves the line counter, also inside strings and after a backslash,
    and a string is closed only by an unescaped quote of its own kind.
    When the pass ends inside a string the error names the kind of that
    string and the line of the quote that opened it, that is one more
    than the line feeds in front of that quote; when it ends outside every
    string there is no error.  The sample with an unclosed double quote on
    the first line reports line 1, also when a line feed follows inside
    the string, and an unclosed double quote on the second line, after a
    closed single-quoted string on the first, reports double quote and
    line 2. *)
Theorem checkSyntax_js_unterminated (code languageId : string) :
  languageId = "javascript" \/ languageId = "typescript" ->
  Js.trim code <> EmptyString ->
  openBrackets code <= closeBrackets code ->
  match unterminatedLiteral code with
  | Some (k, n) =>
      checkSyntax code languageId
      = syntaxError ("SyntaxError: unterminated " ++ kindName k
                     ++ " starting at line " ++ Js.numberToString n)
      /\ exists p r,
          code = p ++ String (kindChar k) r
          /\ n = S (newlines p)
          /\ unterminatedLiteral p = None
          /\ forall m,
              unterminatedLiteral (p ++ String (kindChar k) (Js.take m r))
              <> None
  | None => checkSyntax code languageId = syntaxOk
  end
  /\ currentLine (scan code) = S (newlines code)
  /\ (forall st c, escapeNext st = true ->
        stringState (scanStep st c) = stringState st
        /\ escapeNext (scanStep st c) = false)
  /\ (forall st, escapeNext st = false ->
        stringState (scanStep st Patterns.backslash) = stringState st
        /\ escapeNext (scanStep st Patterns.backslash) = true)
  /\ (inString (scan code) = true ->
      exists k p r,
        openedAt code k p r
        /\ checkSyntax code languageId
           = syntaxError (unterminatedMessage k (S (newlines p))))
  /\ (inString (scan code) = false -> checkSyntax code languageId = syntaxOk)
  /\ checkSyntax unterminatedSample languageId
     = syntaxError "SyntaxError: unterminated double quote starting at line 1"
  /\ checkSyntax unterminatedSampleTwoLines languageId
     = syntaxError "SyntaxError: unterminated double quote starting at line 1"
  /\ checkSyntax closedThenOpenSample languageId
     = syntaxError "SyntaxError: unterminated double quote starting at line 2".
Proof.
  intros Hlang Hcode Hbraces.
  assert (Hcheck : checkSyntax code languageId =
    if inString (scan code)
    then syntaxError ("SyntaxError: unterminated " ++ stringType (scan code)
                      ++ " starting at line "
                      ++ Js.numberToString (stringStartLine (scan code)))
    else syntaxOk).
  { unfold checkSyntax. rewrite (trim_nonblank_eqb code Hcode).
    apply Nat.ltb_ge in Hbraces.
    destruct Hlang as [-> | ->]; cbn [String.eqb Ascii.eqb Bool.eqb orb];
      now rewrite Hbraces. }
  destruct (scanInv_all code) as [Hline Hstr].
  split; [|split; [exact Hline|];
           split; [|split; [|split; [|split; [|split; [|split]]]]]].
  - destruct (scan_unterminatedLiteral code) as [l [_ A]].
    destruct (unterminatedLiteral code) as [[k n]|] eqn:U.
    + destruct A as (F & Ty & Ln).
      pose proof (proj2 (flags_inString _) k F) as Hin.
      split; [now rewrite Hcheck, Hin, Ty, Ln|].
      destruct Hstr as [E | (k' & p & r & (Ec & Hout & _ & Hstay) & _ & Ty' & Ln')].
      * apply (proj1 (flags_inString _)) in E. congruence.
      * assert (k' = k) by (apply kindName_injective; congruence). subst k'.
        exists p, r. split; [exact Ec|]. split; [congruence|].
        split; [now apply unterminatedLiteral_inString|].
        intros m Hn. apply unterminatedLiteral_inString in Hn.
        rewrite Hstay in Hn. discriminate Hn.
    + apply (proj1 (flags_inString _)) in A. now rewrite Hcheck, A.
  - intros st c E. unfold stringState, flagsOf, scanStep.
    destruct st; cbn in E |- *; subst. split; reflexivity.
  - intros st E. unfold stringState, flagsOf, scanStep.
    destruct st; cbn in E |- *; subst. split; reflexivity.
  - intros Hin. rewrite Hcheck, Hin.
    destruct Hstr as [E | (k & p & r & Hopen & _ & Ty & Ln)].
    + apply (proj1 (flags_inString _)) in E. congruence.
    + exists k, p, r. split; [exact Hopen|].
      unfold unterminatedMessage. now rewrite Ty, Ln.
  - intros Hout. now rewrite Hcheck, Hout.
  - destruct Hlang as [-> | ->]; reflexivity.
  - destruct Hlang as [-> | ->]; reflexivity.
  - destruct Hlang as [-> | ->]; reflexivity.
Qed.

Lemma checkSyntax_js_unterminated_witness :
  checkSyntax closedThenOpenSample "javascript"
  = syntaxError "SyntaxError: unterminated double quote starting at line 2".
Proof.
  exact (proj1 (proj1
    (checkSyntax_js_unterminated closedThenOpenSample "javascript"
       (or_introl eq_refl) ltac:(discriminate) (le_n 0)))).
Defined.

(** ** The matcher: what a match consumes *)

Lemma starLoop_shrinks {R : Type} (greedy : bool) step
      (k : string -> Regex.captures -> option R) :
  shrinks step ->
  forall n s cs x,
    Regex.starLoop greedy step k n s cs = Some x ->
    exists s' cs', String.length s' <= String.length s /\ k s' cs' = Some x.
Proof.
  intros Hstep. induction n as [|n IH]; intros s cs x H; cbn in H.
  - now exists s, cs.
  - assert (Again : forall y,
      step s cs (fun s' cs' =>
                   if String.length s' <? String.length s
                   then Regex.starLoop greedy step k n s' cs' else None)
      = Some y ->
      exists s' cs', String.length s' <= String.length s /\ k s' cs' = Some y).
    { intros y Hy. apply Hstep in Hy as (s1 & cs1 & L1 & K1).
      destruct (Nat.ltb_spec (String.length s1) (String.length s));
        [|discriminate].
      apply IH in K1 as (s2 & cs2 & L2 & K2).
      exists s2, cs2. split; [lia|exact K2]. }
    destruct greedy.
    + destruct (step s cs _) eqn:E.
      * injection H as <-. now apply Again.
      * now exists s, cs.
    + destruct (k s cs) eqn:E.
      * injection H as <-. now exists s, cs.
      * now apply Again.
Qed.

Lemma rmatch_shrinks (r : Regex.regex) :
  forall R : Type, shrinks (@Regex.rmatch R r).
Proof.
  induction r as [|p|r1 IH1 r2 IH2|r1 IH1 r2 IH2|g r IH|i r IH|];
    intros R s cs k x H; cbn [Regex.rmatch] in H.
  - now exists s, cs.
  - destruct s as [|c s]; [discriminate|].
    destruct (p c); [|discriminate].
    exists s, cs. split; [cbn; lia|exact H].
  - apply IH1 in H as (s1 & cs1 & L1 & H).
    apply IH2 in H as (s2 & cs2 & L2 & H).
    exists s2, cs2. split; [lia|exact H].
  - destruct (Regex.rmatch r1 s cs k) eqn:E.
    + injection H as <-. now apply IH1 in E.
    + now apply IH2 in H.
  - now apply (starLoop_shrinks g _ k (IH R)) in H.
  - apply IH in H as (s1 & cs1 & L1 & H).
    eexists; eexists; split; [|exact H]; exact L1.
  - destruct (Regex.atLineEnd s); [|discriminate]. now exists s, cs.
Qed.

Lemma rmatch_consuming (r : Regex.regex) :
  consuming r = true ->
  forall (R : Type) s cs (k : string -> Regex.captures -> option R) x,
    Regex.rmatch r s cs k = Some x ->
    exists s' cs', String.length s' < String.length s /\ k s' cs' = Some x.
Proof.
  induction r as [|p|r1 IH1 r2 IH2|r1 IH1 r2 IH2|g r IH|i r IH|];
    cbn [consuming]; intros C R s cs k x H; try discriminate;
    cbn [Regex.rmatch] in H.
  - destruct s as [|c s]; [discriminate|].
    destruct (p c); [|discriminate].
    exists s, cs. split; [cbn; lia|exact H].
  - apply orb_true_iff in C as [C | C].
    + apply (IH1 C) in H as (s1 & cs1 & L1 & H).
      apply rmatch_shrinks in H as (s2 & cs2 & L2 & H).
      exists s2, cs2. split; [lia|exact H].
    + apply rmatch_shrinks in H as (s1 & cs1 & L1 & H).
      apply (IH2 C) in H as (s2 & cs2 & L2 & H).
      exists s2, cs2. split; [lia|exact H].
  - apply andb_true_iff in C as [C1 C2].
    destruct (Regex.rmatch r1 s cs k) eqn:E.
    + injection H as <-. now apply (IH1 C1) in E.
    + now apply (IH2 C2) in H.
  - apply (IH C) in H as (s1 & cs1 & L1 & H).
    eexists; eexists; split; [|exact H]; exact L1.
Qed.

Lemma matchAt_consuming (r : Regex.regex) (s : string) len m :
  consuming r = true -> Regex.matchAt r s = Some (len, m) -> 1 <= len.
Proof.
  intros C H. unfold Regex.matchAt in H.
  apply (rmatch_consuming r C) in H as (s' & cs' & L & H).
  injection H as <- _. lia.
Qed.

Lemma search_consuming (r : Regex.regex) (s : string) i len m :
  consuming r = true -> Regex.search r s = Some (i, len, m) -> 1 <= len.
Proof.
  intros C. revert i len m. induction s as [|c s IH]; intros i len m H;
    cbn [Regex.search] in H.
  - destruct (Regex.matchAt r EmptyString) as [[l cs]|] eqn:E;
      [|discriminate].
    injection H as _ <- _. now apply (matchAt_consuming r _ _ _ C E).
  - destruct (Regex.matchAt r (String c s)) as [[l cs]|] eqn:E.
    + injection H as _ <- _. now apply (matchAt_consuming r _ _ _ C E).
    + destruct (Regex.search r s) as [[[i' l'] cs']|] eqn:E'; [|discriminate].
      injection H as _ <- _. now apply (IH i' l' cs').
Qed.

(** With such a pattern every [exec] moves [lastIndex] forward. *)
Lemma exec_advances (r : Regex.regex) (code : string) i j m :
  consuming r = true ->
  Regex.exec r code i = Some (j, m) ->
  i < j /\ i <= String.length code.
Proof.
  intros C H. unfold Regex.exec in H.
  destruct (Nat.ltb_spec (String.length code) i); [discriminate|].
  destruct (Regex.search r (Js.drop i code)) as [[[idx len] cs]|] eqn:E;
    [|discriminate].
  injection H as <- _. apply (search_consuming r _ _ _ _ C) in E. lia.
Qed.

(** The extraction loop ends within the rounds it is given, with one line
    for each successive match. *)
Lemma execLoop_total (re : Regex.regex) line (code : string) :
  consuming re = true ->
  forall fuel i out,
    1 <= fuel -> String.length code + 1 < fuel + i ->
    exists ms,
      successiveMatches re code i ms
      /\ execLoop fuel re line code i out = Some (out ++ concatLines line ms).
Proof.
  intros C. induction fuel as [|fuel IH]; intros i out F L; [lia|].
  cbn [execLoop].
  destruct (Regex.exec re code i) as [[j m]|] eqn:E.
  - destruct (exec_advances re code i j m C E) as [A B].
    destruct (IH j (out ++ line m)) as (ms & S & X); [lia|lia|].
    exists (m :: ms). split; [now apply (sm_next re code i j m ms)|].
    rewrite X. cbn [concatLines]. now rewrite append_assoc.
  - exists []. split; [now apply sm_done|].
    cbn [concatLines]. now rewrite append_empty_r.
Qed.

(** ** C9: the output simulator *)

Lemma extractOutput_total (code languageId : string) :
  exists out, extractOutput code languageId = Some out.
Proof.
  unfold extractOutput.
  repeat match goal with
         | |- context [if ?b then _ else _] => destruct b
         end;
    try (eexists; reflexivity);
    match goal with
    | |- context [execLoop _ ?re ?line code 0 ""] =>
        destruct (execLoop_total re line code eq_refl
                    (S (S (String.length code))) 0 "") as (ms & _ & E);
        [lia | lia | rewrite E; eexists; reflexivity]
    end.
Qed.

Lemma extractOutput_python (code : string) :
  exists ms,
    successiveMatches Patterns.pythonPrint code 0 ms
    /\ extractOutput code "python" = Some (concatLines argumentLine ms).
Proof.
  destruct (execLoop_total Patterns.pythonPrint argumentLine code eq_refl
              (S (S (String.length code))) 0 "") as (ms & S & E);
    [lia | lia |].
  exists ms. split; [exact S|]. unfold extractOutput.
  cbn [String.eqb Ascii.eqb Bool.eqb]. exact E.
Qed.

(** What [simulateExecution] returns once the extraction has ended. *)
Lemma simulateExecution_run (env : Env) (code languageId out : string)
      (w : World) :
  extractOutput code languageId = Some out ->
  simulateExecution env code languageId w
  = (Ret (mkResult
            (if String.eqb out "" && negb (String.eqb languageId "html")
                && negb (String.eqb languageId "css")
             then noOutputMessage else out)
            None
            (clock env (S (reads w)) - clock env (reads w))%Z),
     mkWorld (S (S (reads w))) (dirs w) (tracked w) (files w) (spawned w)).
Proof.
  intros H. unfold simulateExecution, bind, dateNow, orHang, ret.
  cbn. rewrite H. reflexivity.
Qed.

Lemma extractOutput_frontend (code languageId : string) :
  languageId = "html" \/ languageId = "css" ->
  extractOutput code languageId
  = Some ("Frontend code doesn't produce console output directly." ++ nl
          ++ "Rendering in the preview panel.").
Proof. intros [-> | ->]; reflexivity. Qed.

(** *** The print pattern of the python extraction *)

Lemma rmatch_Alt_eq {R : Type} (r1 r2 : Regex.regex) (s : string)
      (cs : Regex.captures) (k : string -> Regex.captures -> option R) :
  Regex.rmatch (Regex.Alt r1 r2) s cs k
  = match Regex.rmatch r1 s cs k with
    | Some x => Some x
    | None => Regex.rmatch r2 s cs k
    end.
Proof. reflexivity. Qed.

Lemma rmatch_Group_eq {R : Type} (i : nat) (r : Regex.regex) (s : string)
      (cs : Regex.captures) (k : string -> Regex.captures -> option R) :
  Regex.rmatch (Regex.Group i r) s cs k
  = Regex.rmatch r s cs
      (fun s' cs' =>
         k s' ((i, Js.take (String.length s - String.length s') s) :: cs')).
Proof. reflexivity. Qed.

Lemma rmatch_Empty_eq {R : Type} (s : string)
      (cs : Regex.captures) (k : string -> Regex.captures -> option R) :
  Regex.rmatch Regex.Empty s cs k = k s cs.
Proof. reflexivity. Qed.

Lemma take_takeWhile (p : ascii -> bool) (s : string) :
  Js.take (String.length s - String.length (dropWhile p s)) s = takeWhile p s.
Proof.
  induction s as [|c s IH]; [reflexivity|].
  cbn [dropWhile takeWhile]. destruct (p c).
  - pose proof (dropWhile_length p s) as L.
    replace (String.length (String c s) - String.length (dropWhile p s))
      with (S (String.length s - String.length (dropWhile p s)))
      by (cbn [String.length]; lia).
    cbn [Js.take]. now rewrite IH.
  - now rewrite Nat.sub_diag.
Qed.

Lemma dropWhile_head (p : ascii -> bool) (s : string) c r :
  dropWhile p s = String c r -> p c = false.
Proof.
  induction s as [|a s IH]; [discriminate|]. cbn [dropWhile].
  destruct (p a) eqn:E; [exact IH|]. intros X. now injection X as <- _.
Qed.

Lemma whiteSpace_differs (c x : ascii) :
  Js.isWhiteSpace c = true -> Js.isWhiteSpace x = false ->
  Ascii.eqb c x = false.
Proof.
  intros Hc Hx. destruct (Ascii.eqb_spec c x) as [->|]; congruence.
Qed.

Lemma eqb_closeParen (p : ascii) :
  notCloseParen p = false -> Ascii.eqb p ")" = true.
Proof.
  unfold notCloseParen. cbn [existsb]. rewrite orb_false_r.
  now destruct (Ascii.eqb p ")").
Qed.

Lemma notCloseParen_eqb (p : ascii) :
  notCloseParen p = true -> Ascii.eqb p ")" = false.
Proof.
  unfold notCloseParen. cbn [existsb]. rewrite orb_false_r.
  now destruct (Ascii.eqb p ")").
Qed.

Lemma whiteSpace_notCloseParen (c : ascii) :
  Js.isWhiteSpace c = true -> notCloseParen c = true.
Proof.
  intros H. unfold notCloseParen. cbn [existsb]. rewrite orb_false_r.
  now rewrite (whiteSpace_differs c ")" H eq_refl).
Qed.

Lemma whiteSpace_notQuote (c : ascii) :
  Js.isWhiteSpace c = true -> isQuote c = false.
Proof.
  intros H. unfold isQuote. cbn [existsb].
  rewrite (whiteSpace_differs c Patterns.dquote H eq_refl).
  now rewrite (whiteSpace_differs c Patterns.squote H eq_refl).
Qed.

(** The closing parenthesis of the pattern. *)
Lemma closeParen_eq {R : Type} (s : string) (cs : Regex.captures)
      (k : string -> Regex.captures -> option R) :
  Regex.rmatch (Regex.Char ")") s cs k
  = match s with
    | String p rest => if Ascii.eqb p ")" then k rest cs else None
    | EmptyString => None
    end.
Proof.
  unfold Regex.Char. rewrite rmatch_Class_eq.
  destruct s as [|p rest]; [reflexivity|]. now rewrite Ascii.eqb_sym.
Qed.

(** White space in front of the closing parenthesis is passed as a whole. *)
Lemma spaceThenParen {R : Type} (s : string) (cs : Regex.captures)
      (k : string -> Regex.captures -> option R) :
  Regex.rmatch (Regex.Star true Regex.Space) s cs
    (fun s' cs' => Regex.rmatch (Regex.Char ")") s' cs' k)
  = Regex.rmatch (Regex.Char ")") (dropWhile Js.isWhiteSpace s) cs k.
Proof.
  unfold Regex.Space. rewrite rmatch_Star_eq.
  rewrite starClass_commit; [reflexivity | lia |].
  intros c t _ Wc _. rewrite closeParen_eq.
  now rewrite (whiteSpace_differs c ")" Wc eq_refl).
Qed.

(** The quoted alternative of the argument. *)
Lemma quotedText_match {R : Type} (s : string) (cs : Regex.captures)
      (k : string -> Regex.captures -> option R) :
  Regex.rmatch
    (Regex.Seq (Regex.OneOf [Patterns.dquote; Patterns.squote])
       (Regex.Seq
          (Regex.Group 1
             (Regex.Star true (Regex.NotIn [Patterns.dquote; Patterns.squote])))
          (Regex.OneOf [Patterns.dquote; Patterns.squote])))
    s cs (fun s' cs' => Regex.rmatch (Regex.Char ")") s' cs' k)
  = match quotedTextAt s with
    | Some (text, rest) => k rest ((1, text) :: cs)
    | None => None
    end.
Proof.
  change (Regex.OneOf [Patterns.dquote; Patterns.squote])
    with (Regex.Class isQuote).
  change (Regex.NotIn [Patterns.dquote; Patterns.squote])
    with (Regex.Class notQuote).
  rewrite rmatch_Seq_eq, rmatch_Class_eq.
  destruct s as [|q body]; [reflexivity|]. cbn [quotedTextAt].
  destruct (isQuote q); [|reflexivity].
  rewrite rmatch_Seq_eq, rmatch_Group_eq, rmatch_Star_eq.
  rewrite starClass_commit; [| lia |].
  - rewrite rmatch_Class_eq.
    destruct (dropWhile notQuote body) as [|q' r] eqn:E; [reflexivity|].
    pose proof (dropWhile_head _ _ _ _ E) as Hq. unfold notQuote in Hq.
    apply negb_false_iff in Hq. rewrite Hq. rewrite closeParen_eq.
    destruct r as [|p rest]; [reflexivity|].
    destruct (Ascii.eqb p ")"); [|reflexivity].
    rewrite <- E, take_takeWhile. reflexivity.
  - intros c t _ Pc _. rewrite rmatch_Class_eq.
    unfold notQuote in Pc. apply negb_true_iff in Pc. now rewrite Pc.
Qed.

Lemma quotedArgument_match {R : Type} (s : string) (cs : Regex.captures)
      (k : string -> Regex.captures -> option R) :
  Regex.rmatch
    (Regex.Seq (Regex.Opt (Regex.Char "f"))
       (Regex.Seq (Regex.OneOf [Patterns.dquote; Patterns.squote])
          (Regex.Seq
             (Regex.Group 1
                (Regex.Star true
                   (Regex.NotIn [Patterns.dquote; Patterns.squote])))
             (Regex.OneOf [Patterns.dquote; Patterns.squote]))))
    s cs (fun s' cs' => Regex.rmatch (Regex.Char ")") s' cs' k)
  = match quotedArgumentAt s with
    | Some (text, rest) => k rest ((1, text) :: cs)
    | None => None
    end.
Proof.
  rewrite rmatch_Seq_eq. unfold Regex.Opt. rewrite rmatch_Alt_eq.
  rewrite rmatch_Empty_eq. unfold Regex.Char at 1. rewrite rmatch_Class_eq.
  destruct s as [|c s'].
  - rewrite rmatch_Seq_eq. reflexivity.
  - cbn [quotedArgumentAt]. rewrite (Ascii.eqb_sym "f" c).
    destruct (Ascii.eqb_spec c "f") as [->|Hc].
    + rewrite !quotedText_match.
      destruct (quotedTextAt s') as [[text rest]|]; [|reflexivity].
      now destruct (k rest ((1, text) :: cs)).
    + apply quotedText_match.
Qed.

Lemma noParen_behind_space (s : string) :
  dropWhile notCloseParen s = EmptyString ->
  match dropWhile Js.isWhiteSpace s with
  | String p _ => Ascii.eqb p ")" = false
  | EmptyString => True
  end.
Proof.
  induction s as [|c s IH]; [now cbn|]. cbn [dropWhile].
  destruct (notCloseParen c) eqn:E; [|discriminate].
  intros H. destruct (Js.isWhiteSpace c).
  - now apply IH.
  - now apply notCloseParen_eqb.
Qed.

(** The raw alternative of the argument: the white space pattern behind
    the run has nothing left to take. *)
Lemma rawArgument_match (L : nat) (s : string) (cs : Regex.captures) :
  Regex.rmatch
    (Regex.Seq (Regex.Group 2 (Regex.Star true (Regex.NotIn [")"%char])))
       (Regex.Star true Regex.Space))
    s cs (fun s' cs' => Regex.rmatch (Regex.Char ")") s' cs' (matchEnd L))
  = match rawArgumentAt s with
    | Some (text, rest) => matchEnd L rest ((2, text) :: cs)
    | None => None
    end.
Proof.
  change (Regex.NotIn [")"%char]) with (Regex.Class notCloseParen).
  rewrite rmatch_Seq_eq, rmatch_Group_eq, rmatch_Star_eq.
  unfold rawArgumentAt.
  rewrite starClass_commit; [| lia |].
  - rewrite spaceThenParen, closeParen_eq.
    destruct (dropWhile notCloseParen s) as [|p rest] eqn:E; [reflexivity|].
    pose proof (dropWhile_head _ _ _ _ E) as Hp.
    assert (Wp : Js.isWhiteSpace p = false).
    { destruct (Js.isWhiteSpace p) eqn:W; [|reflexivity].
      apply whiteSpace_notCloseParen in W. congruence. }
    cbn [dropWhile]. rewrite Wp, (eqb_closeParen p Hp).
    rewrite <- E, take_takeWhile. reflexivity.
  - intros c t _ Pc Hnone.
    rewrite spaceThenParen, closeParen_eq in Hnone.
    rewrite spaceThenParen, closeParen_eq.
    assert (E : dropWhile notCloseParen (String c t) = EmptyString).
    { cbn [dropWhile]. rewrite Pc.
      destruct (dropWhile notCloseParen t) as [|p rest] eqn:E; [reflexivity|].
      pose proof (dropWhile_head _ _ _ _ E) as Hp.
      assert (Wp : Js.isWhiteSpace p = false).
      { destruct (Js.isWhiteSpace p) eqn:W; [|reflexivity].
        apply whiteSpace_notCloseParen in W. congruence. }
      cbn [dropWhile] in Hnone. rewrite Wp, (eqb_closeParen p Hp) in Hnone.
      discriminate. }
    apply noParen_behind_space in E.
    destruct (dropWhile Js.isWhiteSpace (String c t)) as [|p rest];
      [reflexivity|]. now rewrite E.
Qed.

Lemma argumentLine_single (i : nat) (text : string) :
  i = 1 \/ i = 2 -> argumentLine [(i, text)] = text ++ nl.
Proof.
  intros [-> | ->]; unfold argumentLine; cbn; now destruct text.
Qed.

(** The argument of the pattern, the closing parenthesis included. *)
Lemma printArgument_match (L : nat) (s : string) :
  option_map (fun x => (fst x, argumentLine (snd x)))
    (Regex.rmatch
       (Patterns.printArgument (Regex.Opt (Regex.Char "f"))) s []
       (matchEnd L))
  = option_map (fun x => (L - String.length (snd x), fst x ++ nl))
      (argumentAt s).
Proof.
  unfold Patterns.printArgument, argumentAt.
  rewrite rmatch_Seq_eq, rmatch_Alt_eq.
  rewrite quotedArgument_match, rawArgument_match.
  destruct (quotedArgumentAt s) as [[text rest]|].
  - unfold matchEnd. cbn [option_map fst snd].
    now rewrite argumentLine_single by (now left).
  - destruct (rawArgumentAt s) as [[text rest]|]; [|reflexivity].
    unfold matchEnd. cbn [option_map fst snd].
    now rewrite argumentLine_single by (now right).
Qed.

Lemma dropWhile_space_paren (t : string) :
  dropWhile notCloseParen (dropWhile Js.isWhiteSpace t)
  = dropWhile notCloseParen t.
Proof.
  induction t as [|c t IH]; [reflexivity|]. cbn [dropWhile].
  destruct (Js.isWhiteSpace c) eqn:W; [|reflexivity].
  now rewrite (whiteSpace_notCloseParen c W).
Qed.

Lemma argumentAt_behind_space (c : ascii) (t : string) :
  Js.isWhiteSpace c = true ->
  argumentAt (dropWhile Js.isWhiteSpace t) = None ->
  argumentAt (String c t) = None.
Proof.
  intros W H. unfold argumentAt in *.
  destruct (quotedArgumentAt (dropWhile Js.isWhiteSpace t)); [discriminate|].
  cbn [quotedArgumentAt quotedTextAt].
  rewrite (whiteSpace_differs c "f" W eq_refl), (whiteSpace_notQuote c W).
  unfold rawArgumentAt in *. rewrite dropWhile_space_paren in H.
  cbn [dropWhile]. rewrite (whiteSpace_notCloseParen c W).
  now destruct (dropWhile notCloseParen t).
Qed.

(** What the print pattern matches at the start of a text, and the line
    the loop makes of it. *)
Lemma matchAt_pythonPrint (s : string) :
  option_map (fun x => (fst x, argumentLine (snd x)))
    (Regex.matchAt Patterns.pythonPrint s)
  = option_map
      (fun x => (String.length s - String.length (snd x), fst x ++ nl))
      (printCallAt s).
Proof.
  unfold Regex.matchAt, Patterns.pythonPrint, printCallAt.
  fold (matchEnd (String.length s)).
  rewrite rmatch_Seq_eq, rmatch_Lit.
  destruct (Js.startsWith "print" s); [|reflexivity].
  change (String.length "print") with 5.
  rewrite rmatch_Seq_eq. unfold Regex.Space at 1. rewrite rmatch_Star_eq.
  rewrite starClass_commit; [| lia |].
  - rewrite rmatch_Seq_eq. unfold Regex.Char at 1. rewrite rmatch_Class_eq.
    destruct (dropWhile Js.isWhiteSpace (Js.drop 5 s)) as [|c rest];
      [reflexivity|].
    rewrite (Ascii.eqb_sym "(" c).
    destruct (Ascii.eqb c "("); [|reflexivity].
    rewrite rmatch_Seq_eq. unfold Regex.Space. rewrite rmatch_Star_eq.
    rewrite starClass_commit; [| lia |].
    + apply printArgument_match.
    + intros c' t _ W Hnone.
      pose proof (printArgument_match (String.length s)
                    (dropWhile Js.isWhiteSpace t)) as A.
      rewrite Hnone in A. cbn [option_map] in A.
      pose proof (printArgument_match (String.length s) (String c' t)) as B.
      rewrite (argumentAt_behind_space c' t W) in B.
      * cbn [option_map] in B.
        now destruct (Regex.rmatch _ (String c' t) [] _).
      * now destruct (argumentAt (dropWhile Js.isWhiteSpace t)).
  - intros c t _ W _. rewrite rmatch_Seq_eq.
    unfold Regex.Char at 1. rewrite rmatch_Class_eq.
    now rewrite (Ascii.eqb_sym "(" c), (whiteSpace_differs c "(" W eq_refl).
Qed.

(** *** The extraction loop and the lines of the calls *)

Lemma linesFrom_skip call (n : nat) :
  forall s, linesFrom call n s = linesFrom call 0 (Js.drop n s).
Proof.
  induction n as [|n IH]; intros [|c s]; try reflexivity.
  cbn [linesFrom Js.drop]. apply IH.
Qed.

Lemma drop_drop (a b : nat) :
  forall s, Js.drop a (Js.drop b s) = Js.drop (b + a) s.
Proof.
  induction b as [|b IH]; intros s.
  - now rewrite drop_zero.
  - destruct s as [|c s]; cbn [Js.drop plus].
    + now destruct a.
    + apply IH.
Qed.

Lemma matchAt_length (r : Regex.regex) (s : string) len m :
  Regex.matchAt r s = Some (len, m) -> len <= String.length s.
Proof.
  intros H. unfold Regex.matchAt in H.
  apply rmatch_shrinks in H as (s' & cs' & _ & H).
  injection H as <- _. lia.
Qed.

Lemma search_length (r : Regex.regex) :
  forall s i len m,
    Regex.search r s = Some (i, len, m) -> i + len <= String.length s.
Proof.
  induction s as [|c s IH]; intros i len m H; cbn [Regex.search] in H.
  - destruct (Regex.matchAt r EmptyString) as [[l cs]|] eqn:E;
      [|discriminate].
    injection H as <- <- _. now apply matchAt_length in E.
  - destruct (Regex.matchAt r (String c s)) as [[l cs]|] eqn:E.
    + injection H as <- <- _. now apply matchAt_length in E.
    + destruct (Regex.search r s) as [[[i' l'] cs']|] eqn:E'; [|discriminate].
      injection H as <- <- _. specialize (IH i' l' cs' eq_refl).
      cbn [String.length]. lia.
Qed.

Section Lines.

Variable re : Regex.regex.
Variable line : Regex.captures -> string.
Variable call : string -> option (string * string).

Hypothesis call_matches :
  forall t,
    option_map (fun x => (fst x, line (snd x))) (Regex.matchAt re t)
    = option_map
        (fun x => (String.length t - String.length (snd x), fst x ++ nl))
        (call t).
Hypothesis re_consuming : consuming re = true.

(** The lines of a text begin with the line of the leftmost match. *)
Lemma search_lines (s : string) :
  linesFrom call 0 s
  = match Regex.search re s with
    | Some (i, len, m) => line m ++ linesFrom call 0 (Js.drop (i + len) s)
    | None => EmptyString
    end.
Proof.
  induction s as [|c s IH].
  - cbn [Regex.search linesFrom].
    destruct (Regex.matchAt re EmptyString) as [[len m]|] eqn:E;
      [|reflexivity].
    apply (matchAt_consuming re _ _ _ re_consuming) in E as E1.
    apply matchAt_length in E. cbn in E. lia.
  - cbn [Regex.search linesFrom].
    pose proof (call_matches (String c s)) as H.
    destruct (Regex.matchAt re (String c s)) as [[len m]|] eqn:E.
    + destruct (call (String c s)) as [[text rest]|]; [|discriminate].
      cbn [option_map fst snd] in H. injection H as Hlen Hline.
      apply (matchAt_consuming re _ _ _ re_consuming) in E.
      rewrite Hline, append_assoc. f_equal. f_equal.
      rewrite linesFrom_skip. f_equal.
      change (len = S (String.length s) - String.length rest) in Hlen.
      replace (0 + len) with (S (String.length s - String.length rest))
        by lia.
      reflexivity.
    + destruct (call (String c s)) as [[text rest]|]; [discriminate|].
      rewrite IH.
      now destruct (Regex.search re s) as [[[i len] m]|].
Qed.

(** The loop ends within its rounds with the lines of the text that is
    left at [lastIndex]. *)
Lemma execLoop_lines (code : string) :
  forall fuel i out,
    String.length code + 1 < fuel + i -> i <= String.length code ->
    execLoop fuel re line code i out
    = Some (out ++ linesFrom call 0 (Js.drop i code)).
Proof.
  induction fuel as [|fuel IH]; intros i out F L; [lia|].
  cbn [execLoop]. unfold Regex.exec.
  destruct (Nat.ltb_spec (String.length code) i) as [X|_]; [lia|].
  rewrite (search_lines (Js.drop i code)).
  destruct (Regex.search re (Js.drop i code)) as [[[idx len] m]|] eqn:E.
  - pose proof (search_consuming re _ _ _ _ re_consuming E) as C.
    pose proof (search_length re _ _ _ _ E) as B.
    rewrite drop_length in B.
    rewrite IH by lia.
    rewrite append_assoc, drop_drop. now rewrite Nat.add_assoc.
  - now rewrite append_empty_r.
Qed.

End Lines.

(** The python extraction gives the lines of the print calls. *)
Lemma extractOutput_printedLines (code : string) :
  extractOutput code "python" = Some (printedLines code).
Proof.
  unfold extractOutput, printedLines. cbn [String.eqb Ascii.eqb Bool.eqb].
  rewrite (execLoop_lines Patterns.pythonPrint argumentLine printCallAt
             matchAt_pythonPrint eq_refl code) by lia.
  now rewrite drop_zero.
Qed.

(** *** Calls written without white space *)

Lemma dropWhile_app (p : ascii -> bool) (a b : string) :
  allChars p a = true -> dropWhile p (a ++ b) = dropWhile p b.
Proof.
  induction a as [|c a IH]; [reflexivity|]. cbn [allChars append dropWhile].
  intros H. apply andb_true_iff in H as [Pc H]. rewrite Pc. now apply IH.
Qed.

Lemma takeWhile_app (p : ascii -> bool) (a : string) c (b : string) :
  allChars p a = true -> p c = false -> takeWhile p (a ++ String c b) = a.
Proof.
  intros H Pc. induction a as [|x a IH].
  - cbn [append takeWhile]. now rewrite Pc.
  - cbn [allChars] in H. apply andb_true_iff in H as [Px H].
    cbn [append takeWhile]. rewrite Px. now rewrite IH.
Qed.

(** A quoted text right behind the opening parenthesis is printed
    without its quotes. *)
Lemma printCallAt_quoted (text rest : string) :
  allChars notQuote text = true ->
  printCallAt ("print(" ++ dq ++ text ++ dq ++ ")" ++ rest)
  = Some (text, rest).
Proof.
  intros H. unfold printCallAt, dq.
  cbn [append Js.startsWith Ascii.eqb Bool.eqb andb Js.drop].
  change (dropWhile Js.isWhiteSpace
            (String "(" (String Patterns.dquote
               (text ++ String Patterns.dquote (String ")" rest)))))
    with (String "("%char (String Patterns.dquote
               (text ++ String Patterns.dquote (String ")" rest)))).
  change (Ascii.eqb "(" "(") with true. cbv iota.
  change (dropWhile Js.isWhiteSpace
            (String Patterns.dquote
               (text ++ String Patterns.dquote (String ")" rest))))
    with (String Patterns.dquote
               (text ++ String Patterns.dquote (String ")" rest))).
  unfold argumentAt, quotedArgumentAt, quotedTextAt.
  change (Ascii.eqb Patterns.dquote "f") with false. cbv iota.
  change (isQuote Patterns.dquote) with true. cbv iota.
  rewrite (dropWhile_app notQuote text _ H).
  cbn [dropWhile]. change (notQuote Patterns.dquote) with false. cbv iota.
  change (Ascii.eqb ")" ")") with true. cbv iota.
  now rewrite (takeWhile_app notQuote text Patterns.dquote _ H eq_refl).
Qed.

(** Any other argument without a closing parenthesis is printed as it
    stands. *)
Lemma printCallAt_raw (arg rest : string) :
  allChars notCloseParen arg = true -> startsPlain arg = true ->
  printCallAt ("print(" ++ arg ++ ")" ++ rest) = Some (arg, rest).
Proof.
  intros H P. unfold printCallAt.
  cbn [append Js.startsWith Ascii.eqb Bool.eqb andb Js.drop].
  change (dropWhile Js.isWhiteSpace (String "(" (arg ++ String ")" rest)))
    with (String "("%char (arg ++ String ")" rest)).
  change (Ascii.eqb "(" "(") with true. cbv iota.
  assert (W : dropWhile Js.isWhiteSpace (arg ++ String ")" rest)
              = arg ++ String ")" rest).
  { destruct arg as [|c arg]; [reflexivity|].
    cbn [startsPlain] in P. cbn [append dropWhile].
    destruct (Js.isWhiteSpace c); [discriminate|reflexivity]. }
  rewrite W. unfold argumentAt.
  assert (Q : quotedArgumentAt (arg ++ String ")" rest) = None).
  { destruct arg as [|c arg]; [reflexivity|].
    cbn [startsPlain] in P. cbn [append quotedArgumentAt quotedTextAt].
    destruct (Js.isWhiteSpace c); [discriminate|].
    destruct (isQuote c); [discriminate|].
    destruct (Ascii.eqb c "f"); [discriminate|reflexivity]. }
  rewrite Q. unfold rawArgumentAt.
  rewrite (dropWhile_app notCloseParen arg _ H). cbn [dropWhile].
  change (notCloseParen ")") with false. cbv iota.
  now rewrite (takeWhile_app notCloseParen arg ")" _ H eq_refl).
Qed.

(** C9, counterexample.  For the program that is the one call
    print(f(x)) the claim gives the line f(x), the argument as it stands;
    the code cuts the argument at its first closing parenthesis. *)
Lemma raw_argument_cut_at_parenthesis : ~ single_call_claim "f(x)".
Proof.
  intros H. destruct (H sampleEnv emptyWorld) as (r & w' & E & O).
  rewrite (simulateExecution_run sampleEnv ("print(" ++ "f(x)" ++ ")")
             "python" ("f(x" ++ nl) emptyWorld eq_refl) in E.
  injection E as <- _. vm_compute in O. discriminate O.
Qed.

(** C9.  [simulateExecution] always returns: for every code and
    language the extraction ends, no process is spawned, the result has no
    error and a non-empty output; an empty extraction outside html and css
    gives the fixed no-output message.  For python the extracted text has
    one line for each print call found from left to right: the word
    print wherever it stands, white space, an opening parenthesis, white
    space and an argument.  The line is the text between the quotes when
    the argument is an optional f and a quoted text directly followed by
    the closing parenthesis, and otherwise the text up to the first
    closing parenthesis as it stands.  So a quoted hello and a bare x
    give the lines hello and x, the call of f(x) gives the line f(x
    without its parenthesis, and a quoted text with blanks around it
    keeps its quotes and the blank behind it. *)
Theorem simulateExecution_never_fails :
  (forall (env : Env) (code languageId : string) (w : World),
      exists out r w',
        extractOutput code languageId = Some out
        /\ simulateExecution env code languageId w = (Ret r, w')
        /\ error r = None
        /\ output r <> EmptyString
        /\ spawned w' = spawned w
        /\ (out = EmptyString -> languageId <> "html" ->
            languageId <> "css" -> output r = noOutputMessage)
        /\ (out <> EmptyString -> output r = out)
        /\ (languageId = "python" ->
            out = printedLines code
            /\ exists ms,
                successiveMatches Patterns.pythonPrint code 0 ms
                /\ out = concatLines argumentLine ms))
  /\ (forall (env : Env) (w : World),
         exists r w',
           simulateExecution env pythonSample "python" w = (Ret r, w')
           /\ output r = "hello" ++ nl ++ "x" ++ nl
           /\ error r = None)
  /\ (forall text rest : string,
         allChars notQuote text = true ->
         printCallAt ("print(" ++ dq ++ text ++ dq ++ ")" ++ rest)
         = Some (text, rest))
  /\ (forall arg rest : string,
         allChars notCloseParen arg = true -> startsPlain arg = true ->
         printCallAt ("print(" ++ arg ++ ")" ++ rest) = Some (arg, rest))
  /\ printedLines pythonSample = "hello" ++ nl ++ "x" ++ nl
  /\ printedLines "print(f(x))" = "f(x" ++ nl
  /\ printedLines "print ( 'a' )" = "'a' " ++ nl
  /\ printedLines "pprint(1)" = "1" ++ nl.
Proof.
  split; [|split; [|split; [|split; [|repeat split]]]].
  - intros env code languageId w.
    destruct (extractOutput_total code languageId) as [out Hout].
    eexists out, _, _. split; [exact Hout|].
    split; [exact (simulateExecution_run env code languageId out w Hout)|].
    cbn [error output spawned].
    split; [reflexivity|]. split; [|split; [reflexivity|split; [|split]]].
    + destruct out as [|c out]; cbn [String.eqb andb]; [|discriminate].
      destruct (String.eqb_spec languageId "html") as [E|E].
      { rewrite (extractOutput_frontend code languageId (or_introl E)) in Hout.
        discriminate. }
      destruct (String.eqb_spec languageId "css") as [E'|E'].
      { rewrite (extractOutput_frontend code languageId (or_intror E')) in Hout.
        discriminate. }
      discriminate.
    + intros -> Hh Hc. apply String.eqb_neq in Hh, Hc.
      now rewrite Hh, Hc.
    + intros Hne. destruct out; [contradiction|reflexivity].
    + intros ->. split.
      * rewrite extractOutput_printedLines in Hout. congruence.
      * destruct (extractOutput_python code) as (ms & S & E).
        exists ms. split; [exact S|]. congruence.
  - intros env w. eexists _, _.
    split; [apply (simulateExecution_run env pythonSample "python"
                     ("hello" ++ nl ++ "x" ++ nl) w); reflexivity|].
    split; reflexivity.
  - exact printCallAt_quoted.
  - exact printCallAt_raw.
Qed.

(** ** The backends *)

(** Unfolds the service down to the oracles of the environment. *)
Ltac unfold_service :=
  cbv beta iota zeta delta
    [runBackend compileAndRunC compileAndRunCpp compileAndRunJava
     runPython runJavaScript runTypeScript runPhp compileAndRunGo interpret
     compilePhase runPhase compileFailure runSuccess runFailure cleanup
     bind ret tryCatch tryFinally dateNow mkdirSync writeFile execAsync
     reads dirs tracked files spawned fst snd
     output error executionTime].

Ltac ask_oracle :=
  match goal with
  | |- context [mainClassMatch ?c] => destruct (mainClassMatch c) eqn:?
  | |- context [tmp_mkdir ?e ?p ?d] => destruct (tmp_mkdir e p d) eqn:?
  | |- context [write_file ?e ?p ?d] => destruct (write_file e p d) eqn:?
  | |- context [exec_cmd ?e ?c] => destruct (exec_cmd e c) eqn:?
  end.

Ltac run_service := unfold_service; repeat (ask_oracle; unfold_service).

Lemma runBackend_outcome (env : Env) (b : BackendId) (code : string)
      (w : World) :
  monotone (clock env) ->
  match runBackend env b code w with
  | (Ret res, w') => (0 <= executionTime res)%Z /\ reads w < reads w'
  | (Throw _, w') => reads w < reads w'
  | (Hang, _) => False
  end.
Proof.
  intros Hm. destruct w as [n ds ts fs ps].
  pose proof (Hm n (S n) ltac:(lia)).
  destruct b; run_service; try split; try lia.
Qed.

(** ** C3: the dispatcher's catch-all *)

Lemma dispatched_outcome (env : Env) (code language : string) (w : World) :
  monotone (clock env) ->
  match dispatched env code language w with
  | (Ret res, w') => (0 <= executionTime res)%Z /\ reads w < reads w'
  | (Throw _, w') => reads w < reads w'
  | (Hang, _) => False
  end.
Proof.
  intros Hm. unfold dispatched. destruct (route language) as [b|].
  - now apply runBackend_outcome.
  - destruct (extractOutput_total code language) as [out Hout].
    rewrite (simulateExecution_run env code language out w Hout).
    cbn [executionTime reads]. pose proof (Hm (reads w) (S (reads w))).
    split; lia.
Qed.

Lemma runBackend_times (env : Env) (b : BackendId) (code : string)
      (w : World) :
  match runBackend env b code w with
  | (Ret res, w') =>
      executionTime res
      = (clock env (S (reads w)) - clock env (reads w))%Z
      /\ reads w < reads w'
  | (Throw _, w') => reads w < reads w'
  | (Hang, _) => False
  end.
Proof.
  destruct w as [n ds ts fs ps].
  destruct b; run_service; try split; try reflexivity; try lia.
Qed.

Lemma dispatched_times (env : Env) (code language : string) (w : World) :
  match dispatched env code language w with
  | (Ret res, w') =>
      executionTime res
      = (clock env (S (reads w)) - clock env (reads w))%Z
      /\ reads w < reads w'
  | (Throw _, w') => reads w < reads w'
  | (Hang, _) => False
  end.
Proof.
  unfold dispatched. destruct (route language) as [b|].
  - apply runBackend_times.
  - destruct (extractOutput_total code language) as [out Hout].
    rewrite (simulateExecution_run env code language out w Hout).
    cbn [executionTime reads]. split; [reflexivity | lia].
Qed.

(** C3, counterexample.  The execution time is the later reading of the
    clock minus the earlier one, as it is: when the clock is set back
    between the two readings the result carries a negative time. *)
Lemma negative_time_when_clock_set_back :
  ~ nonnegative_time_claim clockSetBackEnv "print(1)" "python" emptyWorld.
Proof.
  intros (r & w' & E & T).
  assert (X : executeCode clockSetBackEnv "print(1)" "python" emptyWorld
              = (Ret (mkResult ("1" ++ nl) None (-1)),
                 mkWorld 3 ["/tmp/python-runner"] ["/tmp/python-runner"]
                         [("/tmp/python-runner/main.py", "print(1)")]
                         ["python3 /tmp/python-runner/main.py"]))
    by reflexivity.
  rewrite X in E. injection E as <- _. cbn [executionTime] in T. lia.
Qed.

(** C3, as amended.  For every code, language and environment
    [executeCode] resolves with a result and never throws: a result of the
    backend or of the simulator is passed on, and an exception thrown
    inside becomes a result with empty output whose error is the
    exception's message (the fixed text for a thrown value that is not an
    Error).  On every branch, the catch-all included, the execution time is
    a later reading of the clock minus an earlier one, with no clamp: it
    is not negative whenever the clock has not been set back between the
    two readings. *)
Theorem executeCode_never_throws (env : Env) (code language : string)
        (w : World) :
  exists r w' i j,
    executeCode env code language w = (Ret r, w')
    /\ reads w <= i < j
    /\ executionTime r = (clock env j - clock env i)%Z
    /\ ((clock env i <= clock env j)%Z -> (0 <= executionTime r)%Z)
    /\ (monotone (clock env) -> (0 <= executionTime r)%Z)
    /\ (forall res,
           fst (dispatched env code language (afterStart w)) = Ret res ->
           r = res)
    /\ (forall msg so se,
           fst (dispatched env code language (afterStart w))
           = Throw (ErrorObj msg so se) ->
           output r = EmptyString /\ error r = Some msg)
    /\ (fst (dispatched env code language (afterStart w)) = Throw NonError ->
        output r = EmptyString /\ error r = Some "Unknown execution error").
Proof.
  pose proof (dispatched_times env code language (afterStart w)) as O.
  change (executeCode env code language w)
    with (match dispatched env code language (afterStart w) with
          | (Throw e, w') =>
              (Ret (mkResult "" (Some (errorText "Unknown execution error" e))
                             (clock env (reads w') - clock env (reads w))%Z),
               mkWorld (S (reads w')) (dirs w') (tracked w') (files w')
                       (spawned w'))
          | r => r
          end).
  destruct (dispatched env code language (afterStart w)) as [[res|e|] w1];
    cbn [fst] in *.
  - destruct O as [T L]. cbn [afterStart reads] in T, L.
    exists res, w1, (S (reads w)), (S (S (reads w))).
    split; [reflexivity|]. split; [lia|]. split; [exact T|].
    split; [rewrite T; lia|].
    split; [intros Hm; rewrite T;
            pose proof (Hm (S (reads w)) (S (S (reads w))) ltac:(lia)); lia|].
    repeat split; try congruence; discriminate.
  - cbn [afterStart reads] in O.
    eexists _, _, (reads w), (reads w1). split; [reflexivity|].
    cbn [executionTime output error].
    split; [lia|]. split; [reflexivity|]. split; [lia|].
    split; [intros Hm; pose proof (Hm (reads w) (reads w1) ltac:(lia)); lia|].
    split; [discriminate|].
    split; [intros msg so se E | intros E]; injection E as ->;
      split; reflexivity.
  - contradiction.
Qed.

Lemma executeCode_never_throws_witness :
  exists r w',
    executeCode fullDiskEnv "print(1)" "python" emptyWorld = (Ret r, w')
    /\ (0 <= executionTime r)%Z
    /\ output r = EmptyString
    /\ error r = Some "ENOSPC: no space left on device".
Proof.
  destruct (executeCode_never_throws fullDiskEnv "print(1)" "python"
              emptyWorld) as (r & w' & i & j & E & _ & _ & _ & T & _ & X & _).
  exists r, w'. split; [exact E|]. split.
  - apply T. intros a b L. cbn. lia.
  - apply (X "ENOSPC: no space left on device" None None). reflexivity.
Defined.

(** ** C2: the workspace after the attempt *)

(** C2, counterexample.  After the C backend has run (here the compiler
    fails), the workspace it made is still there. *)
Lemma workspace_still_there :
  ~ workspace_removed_claim sampleEnv C "int main(){}" emptyWorld.
Proof.
  intros H. apply (H "/tmp/c-compiler"); [reflexivity|].
  left. reflexivity.
Qed.

(** C2, as amended.  No backend removes its workspace: the [finally]
    block does nothing, and on every exit path (a result or an exception)
    either no workspace was made, or the one made by [temp.mkdirSync] still
    exists when the backend is done and is on the list of the [temp]
    tracker, to which the code leaves its removal. *)
Theorem workspace_left_to_tracker (env : Env) (b : BackendId)
        (code : string) (w : World) :
  let w' := snd (runBackend env b code w) in
  cleanup w' = (Ret tt, w')
  /\ ((dirs w' = dirs w /\ tracked w' = tracked w)
      \/ (exists d,
             tmp_mkdir env (workspacePrefix b) (dirs w) = inl d
             /\ dirs w' = d :: dirs w /\ tracked w' = d :: tracked w)).
Proof.
  cbv zeta. split; [reflexivity|].
  destruct w as [n ds ts fs ps].
  destruct b; cbn [workspacePrefix]; run_service.
  all: try (left; split; reflexivity).
  all: right; eexists; split; [reflexivity | split; reflexivity].
Qed.

(** ** C4: a failing compiler *)

Lemma compile_failure_result (env : Env) (b : BackendId)
      (code tmpDir command msg : string) (so se : option string) (w : World) :
  compilerCommand b code tmpDir = Some command ->
  tmp_mkdir env (workspacePrefix b) (dirs w) = inl tmpDir ->
  (forall path, write_file env path code = None) ->
  exec_cmd env command = Rejected msg so se ->
  exists w',
    runBackend env b code w
    = (Ret (mkResult "" (Some (Js.orElse se "Compilation error"))
                     (clock env (S (reads w)) - clock env (reads w))%Z), w')
    /\ spawned w' = (spawned w ++ [command])%list.
Proof.
  intros Hcmd Hdir Hwrite Hexec. destruct w as [n ds ts fs ps].
  cbn [dirs reads spawned] in *.
  destruct b; cbn [compilerCommand workspacePrefix] in Hcmd, Hdir;
    try discriminate.
  - injection Hcmd as <-. unfold_service.
    rewrite Hdir. unfold_service. rewrite Hwrite. unfold_service.
    rewrite Hexec. unfold_service. unfold thrownStderr.
    eexists. split; reflexivity.
  - injection Hcmd as <-. unfold_service.
    rewrite Hdir. unfold_service. rewrite Hwrite. unfold_service.
    rewrite Hexec. unfold_service. unfold thrownStderr.
    eexists. split; reflexivity.
  - unfold_service. destruct (mainClassMatch code) as [cls|];
      [|discriminate].
    injection Hcmd as <-. unfold_service.
    rewrite Hdir. unfold_service. rewrite Hwrite. unfold_service.
    rewrite Hexec. unfold_service. unfold thrownStderr.
    eexists. split; reflexivity.
Qed.

(** C4.  For C, C++ and Java, once the workspace is made and the code
    written, a failing compiler makes the backend return at once: the
    output is empty, the error is the compiler's stderr, or the text
    Compilation error when there is none, and the compiler is the only
    process that was spawned.  The run phase is not attempted, so the
    result is the same whatever the other commands would have done. *)
Theorem compile_failure_returns (env : Env) (b : BackendId)
        (code tmpDir command msg : string) (so se : option string)
        (w : World) :
  compilerCommand b code tmpDir = Some command ->
  tmp_mkdir env (workspacePrefix b) (dirs w) = inl tmpDir ->
  (forall path, write_file env path code = None) ->
  exec_cmd env command = Rejected msg so se ->
  exists r w',
    runBackend env b code w = (Ret r, w')
    /\ output r = EmptyString
    /\ error r = Some (Js.orElse se "Compilation error")
    /\ spawned w' = (spawned w ++ [command])%list
    /\ forall otherCommands : string -> ExecOutcome,
        otherCommands command = exec_cmd env command ->
        fst (runBackend (mkEnv (clock env) (tmp_mkdir env) (write_file env)
                               otherCommands) b code w)
        = Ret r.
Proof.
  intros Hcmd Hdir Hwrite Hexec.
  destruct (compile_failure_result env b code tmpDir command msg so se w
              Hcmd Hdir Hwrite Hexec) as (w' & E & S).
  eexists _, w'. split; [exact E|]. cbn [output error].
  split; [reflexivity|]. split; [reflexivity|]. split; [exact S|].
  intros other Hother.
  destruct (compile_failure_result
              (mkEnv (clock env) (tmp_mkdir env) (write_file env) other)
              b code tmpDir command msg so se w Hcmd Hdir Hwrite)
    as (w2 & E2 & S2).
  { cbn [exec_cmd]. congruence. }
  rewrite E2. reflexivity.
Qed.

Lemma compile_failure_returns_witness :
  exists r w',
    runBackend sampleEnv C "int main(){ x }" emptyWorld = (Ret r, w')
    /\ output r = EmptyString
    /\ error r = Some "main.c:1:1: error: unknown type name"
    /\ spawned w'
       = ["gcc /tmp/c-compiler/main.c -o /tmp/c-compiler/main.out -lm"].
Proof.
  destruct (compile_failure_returns sampleEnv C "int main(){ x }"
              "/tmp/c-compiler"
              "gcc /tmp/c-compiler/main.c -o /tmp/c-compiler/main.out -lm"
              "Command failed" (Some "")
              (Some "main.c:1:1: error: unknown type name") emptyWorld
              eq_refl eq_refl (fun _ => eq_refl) eq_refl)
    as (r & w' & E & O & X & S & _).
  exists r, w'. repeat split; assumption.
Defined.

(** ** C1: routing by language identifier *)

(** The dispatcher has a backend for the eight identifiers as they are
    spelled in the registry, and for no other text. *)
Lemma route_backend_iff (language : string) :
  route language <> Simulator
  <-> In language ["c"; "cpp"; "python"; "javascript"; "typescript";
                   "java"; "php"; "go"].
Proof.
  unfold route.
  repeat match goal with
         | |- context [String.eqb language ?x] =>
             destruct (String.eqb_spec language x) as [->|?]
         end;
    cbn [In]; split; intros H; try discriminate; try tauto;
    try (exfalso; apply H; reflexivity).
  exfalso. intuition congruence.
Qed.

(** C1, at the failing input.  The registry accepts Python written
    with a capital, and a padded C, but the dispatcher compares the text
    as it is: both go to the simulator, no process is spawned and the
    output is the placeholder of the simulator's default case. *)
Theorem executeCode_routes_unnormalized :
  isSupportedLanguage "Python" = true
  /\ isSupportedLanguage "  C  " = true
  /\ route "Python" = Simulator
  /\ route "  C  " = Simulator
  /\ route "python" = Backend Python
  /\ forall (env : Env) (w : World),
      exists r w',
        executeCode env "print(1)" "Python" w = (Ret r, w')
        /\ output r = notImplementedMessage
        /\ spawned w' = spawned w.
Proof.
  repeat (split; [reflexivity|]).
  intros env w. unfold executeCode.
  change (route "Python") with Simulator.
  unfold bind, tryCatch, dateNow. cbn beta iota.
  rewrite (simulateExecution_run env "print(1)" "Python"
             notImplementedMessage _ eq_refl).
  eexists _, _. split; [reflexivity|]. split; reflexivity.
Qed.

(** ** C10: the controller and empty code *)

Lemma checkSyntax_no_code (code languageId : string) :
  errorMessage (checkSyntax code languageId) = Some noCodeMessage ->
  Js.trim code = EmptyString.
Proof.
  unfold checkSyntax.
  destruct (String.eqb_spec (Js.trim code) "") as [E|E]; [intros _; exact E|].
  repeat match goal with
         | |- context [if ?b then _ else _] => destruct b
         end; cbn; intros H; discriminate H.
Qed.

(** C10.  A request whose code is the empty string is answered 400 with
    the required-fields message whatever the language, exactly as a
    request without a code field is; so a 400 answer carrying the
    checker's no-code message comes only from code that is not empty and
    is all white space, and such code does get it. *)
Theorem compileCode_empty_code :
  (forall (env : Env) (language : option string) (w : World),
      compileCode env (mkRequest (Some EmptyString) language) w
      = (Ret (badRequest (Some requiredMessage)), w))
  /\ (forall (env : Env) (language : option string) (w : World),
         compileCode env (mkRequest (Some EmptyString) language) w
         = compileCode env (mkRequest None language) w)
  /\ (forall (env : Env) (req : CompileRequest) (w w' : World)
             (r : Response),
         compileCode env req w = (Ret r, w') ->
         status r = 400 ->
         body_error r = Some noCodeMessage ->
         exists code,
           req_code req = Some code
           /\ code <> EmptyString /\ Js.trim code = EmptyString)
  /\ (forall (env : Env) (w : World),
         compileCode env (mkRequest (Some " ") (Some "python")) w
         = (Ret (badRequest (Some noCodeMessage)), w)).
Proof.
  split; [|split; [|split]].
  - intros env language w. reflexivity.
  - intros env language w. reflexivity.
  - intros env [code language] w w' r H St Er.
    unfold compileCode, tryCatch in H. cbn [req_code req_language] in *.
    destruct code as [[|c0 code]|];
      try (injection H as <- _; cbn in Er; discriminate Er).
    destruct language as [[|l0 language]|];
      try (injection H as <- _; cbn in Er; discriminate Er).
    exists (String c0 code). split; [reflexivity|]. split; [discriminate|].
    destruct (isSupportedLanguage (String l0 language)); cbn [negb] in H;
      [|injection H as <- _; cbn in Er; discriminate Er].
    destruct (hasError (checkSyntax (String c0 code) (String l0 language))).
    + unfold ret in H. injection H as <- _. cbn in Er.
      now apply checkSyntax_no_code in Er.
    + unfold bind, ret in H.
      destruct (executeCode env (String c0 code) (String l0 language) w)
        as [[res|e|] w1]; try discriminate H;
        injection H as <- _; cbn in St; discriminate St.
  - intros env w. reflexivity.
Qed.

Lemma compileCode_empty_code_witness :
  exists code,
    Some (" " ++ nl) = Some code
    /\ code <> EmptyString /\ Js.trim code = EmptyString.
Proof.
  exact (proj1 (proj2 (proj2 compileCode_empty_code))
           sampleEnv (mkRequest (Some (" " ++ nl)) (Some "c"))
           emptyWorld emptyWorld (badRequest (Some noCodeMessage))
           eq_refl eq_refl eq_refl).
Defined.

(** ** Sample runs *)

(** Braces inside literals and comments are not counted. *)
Example braces_in_literals_ignored :
  codeWithoutStrings
    ("int main() { char c = '{'; printf(" ++ dq ++ "{ \" ++ dq ++ " }" ++ dq
     ++ "); /* { " ++ nl ++ " { */ // {" ++ nl ++ " return 0; }")
  = "int main() { char c = ''; printf(" ++ dq ++ dq ++ ");  " ++ nl
    ++ " return 0; }".
Proof. reflexivity. Qed.

(** The block comment pattern is lazy: two comments are two matches. *)
Example block_comments_removed_one_by_one :
  Regex.replaceAll Patterns.blockComment "" "a/*x*/b/*y*/c" = "abc".
Proof. reflexivity. Qed.

Example public_class_name :
  mainClassMatch ("import java.util.*;" ++ nl ++ "public  class Main_1 {}")
  = Some "Main_1".
Proof. reflexivity. Qed.

Example js_function_passes :
  checkSyntax ("function f() { console.log(" ++ dq ++ "ok" ++ dq ++ "); }")
              "javascript"
  = syntaxOk.
Proof. reflexivity. Qed.

Example blank_code_rejected_for_any_language (languageId : string) :
  checkSyntax ("  " ++ nl ++ " ") languageId = syntaxError noCodeMessage.
Proof. reflexivity. Qed.

(** A C program that an interpreter-less host would simulate: the literal
    arguments of its print calls, one per line. *)
Example printf_literals_extracted :
  extractOutput ("printf(" ++ dq ++ "a" ++ dq ++ "); printf (" ++ dq ++ "b"
                 ++ dq ++ ", x);") "c"
  = Some ("a" ++ nl ++ "b" ++ nl).
Proof. reflexivity. Qed.

(** A successful run of the python backend in the sample environment. *)
Example python_backend_run :
  executeCode sampleEnv "print(1)" "python" emptyWorld
  = (Ret (mkResult ("ok" ++ nl) None 1),
     mkWorld 3 ["/tmp/python-runner"] ["/tmp/python-runner"]
             [("/tmp/python-runner/main.py", "print(1)")]
             ["python3 /tmp/python-runner/main.py"]).
Proof. reflexivity. Qed.

(* ================================================================== *)
(** * Further properties of the service *)
(* ================================================================== *)

(** ** The checker outside its language cases *)

Lemma allWhite_app (a b : string) :
  allWhite (a ++ b) = allWhite a && allWhite b.
Proof.
  induction a as [|c a IH]; simpl; [reflexivity|].
  now rewrite IH, andb_assoc.
Qed.

(** X1.  Whatever the language, the no-code error is reported exactly
    for code made of white space only (the empty code included). *)
Theorem checkSyntax_blank_iff (code languageId : string) :
  checkSyntax code languageId = syntaxError noCodeMessage
  <-> allWhite code = true.
Proof.
  split.
  - intros H. apply trim_blank_iff.
    apply (checkSyntax_no_code code languageId). now rewrite H.
  - intros H. apply trim_blank_iff in H. unfold checkSyntax.
    now rewrite H.
Qed.

(** X2.  The checker knows five language texts and compares them as they
    are: for any other text, a capitalised Python included, code that is
    not blank passes unchecked. *)
Theorem checkSyntax_unchecked_language (code languageId : string) :
  Js.trim code <> EmptyString ->
  ~ In languageId ["c"; "cpp"; "python"; "javascript"; "typescript"] ->
  checkSyntax code languageId = syntaxOk.
Proof.
  intros Hcode Hlang. unfold checkSyntax.
  rewrite (trim_nonblank_eqb code Hcode).
  repeat match goal with
         | |- context [String.eqb languageId ?x] =>
             destruct (String.eqb_spec languageId x) as [->|?]
         end; cbn [orb]; try reflexivity;
    exfalso; apply Hlang; cbn; tauto.
Qed.

Lemma checkSyntax_unchecked_language_witness :
  checkSyntax threeThenSeven "Python" = syntaxOk.
Proof.
  apply checkSyntax_unchecked_language.
  - discriminate.
  - cbn. intros H. repeat (destruct H as [H|H]; [discriminate H|]).
    exact H.
Defined.

(** A check result is either the no-error result or an error with a
    message. *)
Lemma checkSyntax_shape (code languageId : string) :
  checkSyntax code languageId = syntaxOk
  \/ exists msg,
      checkSyntax code languageId = syntaxError msg /\ msg <> EmptyString.
Proof.
  unfold checkSyntax.
  repeat match goal with
         | |- context [if ?b then _ else _] => destruct b
         end;
    try (left; reflexivity);
    right; eexists; (split; [reflexivity | discriminate]).
Qed.

(** ** Stripping literals and comments *)

Lemma countChar_replaceFrom (c : ascii) (r : Regex.regex) (rep : string) :
  countChar c rep = 0 ->
  forall s skip,
    countChar c (Regex.replaceFrom r rep skip s) <= countChar c s.
Proof.
  intros Hrep. induction s as [|a s IH]; intros skip.
  - cbn [Regex.replaceFrom].
    destruct skip; [destruct (Regex.matchAt r EmptyString)|];
      cbn [countChar]; lia.
  - cbn [Regex.replaceFrom].
    assert (Ha : forall n, countChar c (Regex.replaceFrom r rep n s)
                           <= countChar c (String a s)).
    { intros n. specialize (IH n). cbn [countChar].
      destruct (Ascii.eqb c a); lia. }
    destruct skip; [|apply Ha].
    destruct (Regex.matchAt r (String a s)) as [[[|n] cs]|].
    + rewrite countChar_app, Hrep. cbn [countChar].
      specialize (IH 0). destruct (Ascii.eqb c a); lia.
    + rewrite countChar_app, Hrep. apply Ha.
    + cbn [countChar]. specialize (IH 0). destruct (Ascii.eqb c a); lia.
Qed.

Lemma countChar_stripped (c : ascii) (code : string) :
  c <> Patterns.dquote -> c <> Patterns.squote ->
  countChar c (codeWithoutStrings code) <= countChar c code.
Proof.
  intros Hd Hs. unfold codeWithoutStrings, Regex.replaceAll.
  apply Ascii.eqb_neq in Hd, Hs. unfold Patterns.squote in Hs.
  eapply Nat.le_trans; [apply countChar_replaceFrom; reflexivity|].
  eapply Nat.le_trans; [apply countChar_replaceFrom; reflexivity|].
  eapply Nat.le_trans;
    [apply countChar_replaceFrom; cbn [countChar]; now rewrite Hs|].
  apply countChar_replaceFrom. cbn [countChar]. now rewrite Hd.
Qed.

(** X3.  Stripping never adds a brace: the counts the checker compares
    are at most the counts in the code itself.  So code that has no
    opening brace is never reported for a missing closing brace, in any
    language. *)
Theorem brace_counts_bounded (code languageId : string) :
  openBrackets code <= countChar "{" code
  /\ closeBrackets code <= countChar "}" code
  /\ (countChar "{" code = 0 ->
      checkSyntax code languageId <> syntaxError braceMessageC
      /\ checkSyntax code languageId <> syntaxError braceMessageJs).
Proof.
  assert (Ho : openBrackets code <= countChar "{" code).
  { unfold openBrackets, Patterns.openBrace. rewrite matchCount_Char.
    apply countChar_stripped; discriminate. }
  split; [exact Ho|]. split.
  - unfold closeBrackets, Patterns.closeBrace. rewrite matchCount_Char.
    apply countChar_stripped; discriminate.
  - intros Hz.
    assert (Hlt : (closeBrackets code <? openBrackets code) = false).
    { apply Nat.ltb_ge. lia. }
    unfold checkSyntax. rewrite Hlt.
    repeat match goal with
           | |- context [if ?b then _ else _] => destruct b
           end; split; discriminate.
Qed.

Lemma brace_counts_bounded_witness :
  checkSyntax "main();" "c" <> syntaxError braceMessageC
  /\ checkSyntax "main();" "c" <> syntaxError braceMessageJs.
Proof.
  exact (proj2 (proj2 (brace_counts_bounded "main();" "c")) eq_refl).
Defined.

Lemma replaceFrom_no_match (c : ascii) (r : Regex.regex) (rep s : string) :
  beginsWith c r -> countChar c s = 0 -> Regex.replaceFrom r rep 0 s = s.
Proof.
  intros [He Hn]. induction s as [|a s IH]; intros Hc.
  - cbn [Regex.replaceFrom]. now rewrite He.
  - cbn [countChar] in Hc. destruct (Ascii.eqb_spec c a) as [E|E];
      [discriminate|].
    cbn [Regex.replaceFrom]. rewrite (Hn a s (fun H => E (eq_sym H))).
    now rewrite (IH Hc).
Qed.

Lemma beginsWith_Seq_Char (c : ascii) (r : Regex.regex) :
  beginsWith c (Regex.Seq (Regex.Char c) r).
Proof.
  split; [reflexivity|]. intros a s Ha.
  unfold Regex.matchAt, Regex.Char. cbn [Regex.rmatch].
  apply not_eq_sym in Ha. apply Ascii.eqb_neq in Ha. now rewrite Ha.
Qed.

Lemma beginsWith_Seq (c : ascii) (r1 r2 : Regex.regex) :
  beginsWith c (Regex.Seq (Regex.Seq (Regex.Char c) r1) r2).
Proof.
  split; [reflexivity|]. intros a s Ha.
  unfold Regex.matchAt, Regex.Char. cbn [Regex.rmatch].
  apply not_eq_sym in Ha. apply Ascii.eqb_neq in Ha. now rewrite Ha.
Qed.

Lemma includes_white (c : ascii) (p s : string) :
  Js.isWhiteSpace c = false -> allWhite s = true ->
  Js.includes (String c p) s = false.
Proof.
  intros Hc. induction s as [|x s IH]; [reflexivity|].
  cbn [allWhite]. intros H. apply andb_prop in H as [Hx Hs].
  cbn [Js.includes Js.startsWith]. rewrite (IH Hs).
  destruct (Ascii.eqb_spec c x) as [<-|]; [congruence|reflexivity].
Qed.

(** X4.  Code without quotes and without a slash has nothing to strip:
    the checker counts the braces of the code itself.  Such C or C++ code
    passes when it has a main entry, a semicolon and at least as many
    closing as opening braces. *)
Theorem plain_code_checked_as_is (code languageId : string) :
  countChar Patterns.dquote code = 0 ->
  countChar Patterns.squote code = 0 ->
  countChar "/" code = 0 ->
  codeWithoutStrings code = code
  /\ openBrackets code = countChar "{" code
  /\ closeBrackets code = countChar "}" code
  /\ (languageId = "c" \/ languageId = "cpp" ->
      Js.includes "main(" code = true ->
      Js.includes ";" code = true ->
      countChar "{" code <= countChar "}" code ->
      checkSyntax code languageId = syntaxOk).
Proof.
  intros Hd Hs Hsl.
  assert (E : codeWithoutStrings code = code).
  { unfold codeWithoutStrings, Regex.replaceAll.
    rewrite (replaceFrom_no_match Patterns.dquote Patterns.doubleQuoted _ code
               (beginsWith_Seq_Char _ _) Hd).
    rewrite (replaceFrom_no_match Patterns.squote Patterns.singleQuoted _ code
               (beginsWith_Seq_Char _ _) Hs).
    rewrite (replaceFrom_no_match "/" Patterns.lineComment _ code
               (beginsWith_Seq _ _ _) Hsl).
    apply (replaceFrom_no_match "/" Patterns.blockComment _ code
             (beginsWith_Seq _ _ _) Hsl). }
  assert (Eo : openBrackets code = countChar "{" code).
  { unfold openBrackets, Patterns.openBrace.
    now rewrite matchCount_Char, E. }
  assert (Ec : closeBrackets code = countChar "}" code).
  { unfold closeBrackets, Patterns.closeBrace.
    now rewrite matchCount_Char, E. }
  repeat split; try assumption.
  intros Hlang Hmain Hsemi Hbal.
  assert (Hcode : Js.trim code <> EmptyString).
  { intros B. apply trim_blank_iff in B.
    rewrite (includes_white ";" EmptyString code eq_refl B) in Hsemi.
    discriminate Hsemi. }
  unfold checkSyntax. rewrite (trim_nonblank_eqb code Hcode), Hmain, Hsemi.
  apply Nat.ltb_ge in Hbal. rewrite Eo, Ec, Hbal.
  destruct Hlang as [-> | ->]; cbn [String.eqb Ascii.eqb Bool.eqb orb negb andb];
    now destruct (Js.includes "printf(" code).
Qed.

Lemma plain_code_checked_as_is_witness :
  checkSyntax "int main(){ return 0; }" "c" = syntaxOk.
Proof.
  apply (proj2 (proj2 (proj2
    (plain_code_checked_as_is "int main(){ return 0; }" "c"
       eq_refl eq_refl eq_refl))));
    [left; reflexivity | reflexivity | reflexivity | vm_compute; lia].
Defined.

(** ** The string scanner without quotes *)

(** X5.  Code that contains no single quote, no double quote and no
    backtick never ends inside a string: for javascript and typescript it
    passes as soon as its braces do. *)
Theorem no_quote_no_unterminated (code languageId : string) :
  countChar Patterns.squote code = 0 ->
  countChar Patterns.dquote code = 0 ->
  countChar Patterns.backtick code = 0 ->
  inString (scan code) = false
  /\ (languageId = "javascript" \/ languageId = "typescript" ->
      Js.trim code <> EmptyString ->
      openBrackets code <= closeBrackets code ->
      checkSyntax code languageId = syntaxOk).
Proof.
  intros Hs Hd Hb.
  assert (Hout : inString (scan code) = false).
  { destruct (scanInv_all code) as [_ [E | (k & p & r & (Ec & _) & _)]].
    - now apply (proj1 (flags_inString _)).
    - exfalso.
      assert (Hk : 1 <= countChar (kindChar k) code).
      { rewrite Ec, countChar_app. cbn [countChar].
        rewrite Ascii.eqb_refl. lia. }
      destruct k; cbn [kindChar] in Hk; lia. }
  split; [exact Hout|].
  intros Hlang Hcode Hbraces. unfold checkSyntax.
  rewrite (trim_nonblank_eqb code Hcode).
  apply Nat.ltb_ge in Hbraces.
  destruct Hlang as [-> | ->]; cbn [String.eqb Ascii.eqb Bool.eqb orb];
    now rewrite Hbraces, Hout.
Qed.

Lemma no_quote_no_unterminated_witness :
  inString (scan "let a = 1 + 2;") = false.
Proof.
  exact (proj1 (no_quote_no_unterminated "let a = 1 + 2;" "javascript"
                  eq_refl eq_refl eq_refl)).
Defined.

(** ** Comment lines in Python code *)

Lemma split_not_nil (sep : ascii) (s : string) : Js.split sep s <> [].
Proof.
  destruct s as [|c s]; cbn [Js.split]; [discriminate|].
  destruct (Ascii.eqb c sep); [discriminate|].
  destruct (Js.split sep s); discriminate.
Qed.

Lemma split_app (sep : ascii) (a b : string) :
  Js.split sep (a ++ String sep b)
  = (Js.split sep a ++ Js.split sep b)%list.
Proof.
  induction a as [|c a IH]; cbn [String.append Js.split].
  - now rewrite Ascii.eqb_refl.
  - rewrite IH. destruct (Ascii.eqb c sep); [reflexivity|].
    pose proof (split_not_nil sep a) as N.
    destruct (Js.split sep a); [contradiction|reflexivity].
Qed.

Lemma split_single (sep : ascii) (line : string) :
  countChar sep line = 0 -> Js.split sep line = [line].
Proof.
  induction line as [|c line IH]; [reflexivity|].
  cbn [countChar Js.split]. rewrite (Ascii.eqb_sym c sep).
  destruct (Ascii.eqb sep c); [discriminate|].
  intros H. now rewrite (IH H).
Qed.

Lemma pythonLines_app (a b : string) :
  pythonLines (a ++ nl ++ b) = (pythonLines a ++ pythonLines b)%list.
Proof.
  unfold pythonLines, nl. cbn [String.append].
  now rewrite split_app, filter_app.
Qed.

Lemma checkedIndents_app (a b : string) :
  checkedIndents (a ++ nl ++ b)
  = (checkedIndents a ++ checkedIndents b)%list.
Proof.
  unfold checkedIndents. now rewrite pythonLines_app, filter_app, map_app.
Qed.

Lemma checkedIndents_comment (line : string) :
  commentLine line -> checkedIndents line = [].
Proof.
  intros [Hc Hn]. unfold checkedIndents, pythonLines.
  rewrite (split_single _ _ Hn). cbn [filter].
  destruct (0 <? String.length (Js.trim line)); cbn [filter map];
    [now rewrite Hc | reflexivity].
Qed.

Lemma comment_not_blank (line : string) :
  commentLine line -> allWhite line = false.
Proof.
  intros [Hc _]. unfold isCommentLine in Hc.
  destruct (allWhite line) eqn:E; [|reflexivity].
  apply trim_blank_iff in E. rewrite E in Hc. discriminate Hc.
Qed.

(** X6.  A comment line put between two lines of Python code changes
    nothing: the verdict is the one of the code without it. *)
Theorem comment_line_ignored (a line b : string) :
  commentLine line ->
  Js.trim (a ++ nl ++ b) <> EmptyString ->
  checkSyntax (a ++ nl ++ line ++ nl ++ b) "python"
  = checkSyntax (a ++ nl ++ b) "python".
Proof.
  intros Hc Hcode.
  assert (Hcode' : Js.trim (a ++ nl ++ line ++ nl ++ b) <> EmptyString).
  { intros B. apply trim_blank_iff in B.
    rewrite !allWhite_app, (comment_not_blank line Hc) in B.
    destruct (allWhite a); cbn in B; discriminate B. }
  rewrite (checkSyntax_python_eq _ Hcode), (checkSyntax_python_eq _ Hcode').
  replace (a ++ nl ++ line ++ nl ++ b) with (a ++ nl ++ (line ++ nl ++ b))
    by reflexivity.
  rewrite (checkedIndents_app a (line ++ nl ++ b)),
    (checkedIndents_app line b), (checkedIndents_comment line Hc),
    (checkedIndents_app a b).
  reflexivity.
Qed.

Lemma comment_line_ignored_witness :
  checkSyntax ("if a:" ++ nl ++ "   # why" ++ nl ++ "    b = 1") "python"
  = checkSyntax ("if a:" ++ nl ++ "    b = 1") "python".
Proof.
  apply (comment_line_ignored "if a:" "   # why" "    b = 1").
  - split; reflexivity.
  - discriminate.
Defined.

(** ** Normalizing a language identifier *)

Lemma lowerChar_idem (c : ascii) : Js.lowerChar (Js.lowerChar c) = Js.lowerChar c.
Proof. destruct c as [[] [] [] [] [] [] [] []]; reflexivity. Qed.

Lemma isWhiteSpace_lower (c : ascii) :
  Js.isWhiteSpace (Js.lowerChar c) = Js.isWhiteSpace c.
Proof. destruct c as [[] [] [] [] [] [] [] []]; reflexivity. Qed.

Lemma toLowerCase_idem (s : string) :
  Js.toLowerCase (Js.toLowerCase s) = Js.toLowerCase s.
Proof.
  induction s as [|c s IH]; simpl; [reflexivity|].
  now rewrite lowerChar_idem, IH.
Qed.

Lemma trimStart_lower (s : string) :
  Js.trimStart (Js.toLowerCase s) = Js.toLowerCase (Js.trimStart s).
Proof.
  induction s as [|c s IH]; simpl; [reflexivity|].
  rewrite isWhiteSpace_lower. now destruct (Js.isWhiteSpace c).
Qed.

Lemma trimEnd_lower (s : string) :
  Js.trimEnd (Js.toLowerCase s) = Js.toLowerCase (Js.trimEnd s).
Proof.
  induction s as [|c s IH]; simpl; [reflexivity|].
  rewrite IH, isWhiteSpace_lower.
  destruct (Js.trimEnd s); simpl; [now destruct (Js.isWhiteSpace c)|reflexivity].
Qed.

Lemma trimEnd_cons (c : ascii) (s : string) :
  Js.trimEnd (String c s)
  = match Js.trimEnd s with
    | EmptyString => if Js.isWhiteSpace c then EmptyString
                     else String c EmptyString
    | t => String c t
    end.
Proof. reflexivity. Qed.

Lemma trimEnd_idem (s : string) : Js.trimEnd (Js.trimEnd s) = Js.trimEnd s.
Proof.
  induction s as [|c s IH]; [reflexivity|]. rewrite (trimEnd_cons c s).
  destruct (Js.trimEnd s) as [|x t] eqn:E.
  - destruct (Js.isWhiteSpace c) eqn:W; [reflexivity|].
    rewrite trimEnd_cons. cbn [Js.trimEnd]. now rewrite W.
  - rewrite trimEnd_cons, IH. reflexivity.
Qed.

Lemma trimStart_trim (s : string) : Js.trimStart (Js.trim s) = Js.trim s.
Proof.
  unfold Js.trim. induction s as [|c s IH]; [reflexivity|].
  cbn [Js.trimStart]. destruct (Js.isWhiteSpace c) eqn:W; [exact IH|].
  rewrite trimEnd_cons.
  destruct (Js.trimEnd s); rewrite ?W; cbn [Js.trimStart]; now rewrite W.
Qed.

Lemma trim_idem (s : string) : Js.trim (Js.trim s) = Js.trim s.
Proof.
  unfold Js.trim at 1. rewrite trimStart_trim.
  unfold Js.trim. apply trimEnd_idem.
Qed.

(** X7.  Normalizing a language identifier twice is normalizing it once,
    so the registry gives a normalized identifier the answer it gives the
    raw one. *)
Theorem normalizeLanguageId_idempotent (language : string) :
  normalizeLanguageId (normalizeLanguageId language)
  = normalizeLanguageId language
  /\ isSupportedLanguage (normalizeLanguageId language)
     = isSupportedLanguage language.
Proof.
  assert (E : normalizeLanguageId (normalizeLanguageId language)
              = normalizeLanguageId language).
  { unfold normalizeLanguageId, Js.trim.
    rewrite <- trimEnd_lower, <- trimStart_lower, toLowerCase_idem.
    exact (trim_idem (Js.toLowerCase language)). }
  split; [exact E|]. unfold isSupportedLanguage. now rewrite E.
Qed.

(** ** Registry and dispatcher *)

(** X8.  Every identifier the dispatcher has a backend for is supported;
    and once a supported identifier is normalized, the dispatcher has a
    backend for it unless it is html or css. *)
Theorem registry_covers_dispatcher (language : string) :
  (route language <> Simulator -> isSupportedLanguage language = true)
  /\ (isSupportedLanguage language = true ->
      (route (normalizeLanguageId language) = Simulator
       <-> normalizeLanguageId language = "html"
           \/ normalizeLanguageId language = "css")).
Proof.
  split.
  - intros H. apply route_backend_iff in H. cbn [In] in H.
    repeat (destruct H as [<- | H]; [reflexivity|]). contradiction.
  - unfold isSupportedLanguage. intros H. apply setHas_In in H.
    cbn [SUPPORTED_LANGUAGES In] in H.
    repeat (destruct H as [<- | H];
            [split; [intros R; try discriminate R; tauto
                    | intros [E | E]; try discriminate E; reflexivity]|]).
    contradiction.
Qed.

Lemma registry_covers_dispatcher_witness :
  route (normalizeLanguageId "  C  ") = Simulator
  <-> normalizeLanguageId "  C  " = "html"
      \/ normalizeLanguageId "  C  " = "css".
Proof.
  exact (proj2 (registry_covers_dispatcher "  C  ") eq_refl).
Defined.

(** ** Patterns that start with a fixed text *)

Lemma rmatch_Lit_startsWith (p : string) :
  forall (R : Type) s cs (k : string -> Regex.captures -> option R) x,
    Regex.rmatch (Regex.Lit p) s cs k = Some x -> Js.startsWith p s = true.
Proof.
  induction p as [|c p IH]; intros R s cs k x H; [reflexivity|].
  cbn [Regex.Lit Regex.rmatch Regex.Char] in H.
  destruct s as [|a s]; [discriminate|]. cbn [Js.startsWith].
  destruct (Ascii.eqb c a); [|discriminate].
  now apply IH in H.
Qed.

Lemma search_includes (p : string) (r : Regex.regex) (s : string) x :
  Regex.search (Regex.Seq (Regex.Lit p) r) s = Some x ->
  Js.includes p s = true.
Proof.
  revert x. induction s as [|a s IH]; intros x H; cbn [Regex.search] in H.
  - destruct (Regex.matchAt _ EmptyString) as [[l cs]|] eqn:E; [|discriminate].
    unfold Regex.matchAt in E. cbn [Regex.rmatch] in E.
    apply rmatch_Lit_startsWith in E. cbn [Js.includes]. now rewrite E.
  - cbn [Js.includes].
    destruct (Regex.matchAt _ (String a s)) as [[l cs]|] eqn:E.
    + unfold Regex.matchAt in E. cbn [Regex.rmatch] in E.
      apply rmatch_Lit_startsWith in E. now rewrite E.
    + destruct (Regex.search _ s) as [[[i l] cs]|] eqn:E'; [|discriminate].
      rewrite (IH _ eq_refl). apply orb_true_r.
Qed.

Lemma execLoop_no_keyword (p : string) (r : Regex.regex) line
      (code : string) (fuel : nat) :
  Js.includes p code = false ->
  execLoop (S fuel) (Regex.Seq (Regex.Lit p) r) line code 0 ""
  = Some EmptyString.
Proof.
  intros H. cbn [execLoop]. unfold Regex.exec. cbn [Nat.ltb Nat.leb Js.drop].
  replace (Js.drop 0 code) with code by now destruct code.
  destruct (Regex.search _ code) as [[[i l] cs]|] eqn:E; [|reflexivity].
  apply search_includes in E. congruence.
Qed.

(** X9.  Without the text that starts its print pattern (printf for c,
    cout for cpp, print for python, console.log for javascript and
    typescript) the simulator extracts nothing and answers with the fixed
    no-output message. *)
Theorem simulate_without_print_call (env : Env) (code languageId keyword : string)
        (w : World) :
  printKeyword languageId = Some keyword ->
  Js.includes keyword code = false ->
  extractOutput code languageId = Some EmptyString
  /\ exists r w',
      simulateExecution env code languageId w = (Ret r, w')
      /\ output r = noOutputMessage /\ error r = None.
Proof.
  intros Hk Hinc.
  assert (E : extractOutput code languageId = Some EmptyString).
  { unfold printKeyword in Hk. unfold extractOutput.
    repeat match type of Hk with
           | context [if ?b then _ else _] => destruct b
           end; try discriminate Hk; injection Hk as <-;
      exact (execLoop_no_keyword _ _ _ code _ Hinc). }
  split; [exact E|].
  rewrite (simulateExecution_run env code languageId _ w E).
  eexists _, _. split; [reflexivity|]. cbn [output error String.eqb andb].
  unfold printKeyword in Hk.
  destruct (String.eqb_spec languageId "html") as [->|];
    [discriminate Hk|].
  destruct (String.eqb_spec languageId "css") as [->|];
    [discriminate Hk|].
  split; reflexivity.
Qed.

Lemma simulate_without_print_call_witness :
  extractOutput "x = 1" "python" = Some EmptyString
  /\ exists r w',
      simulateExecution sampleEnv "x = 1" "python" emptyWorld = (Ret r, w')
      /\ output r = noOutputMessage /\ error r = None.
Proof.
  exact (simulate_without_print_call sampleEnv "x = 1" "python" "print"
           emptyWorld eq_refl eq_refl).
Defined.

(** ** The Java class name *)

Lemma length_append (a b : string) :
  String.length (a ++ b) = String.length a + String.length b.
Proof. induction a as [|c a IH]; simpl; [reflexivity | now rewrite IH]. Qed.

Lemma take_append (a b : string) :
  Js.take (String.length (a ++ b) - String.length b) (a ++ b) = a.
Proof.
  rewrite length_append.
  replace (String.length a + String.length b - String.length b)
    with (String.length a) by lia.
  induction a as [|c a IH]; simpl; [now destruct b | now rewrite IH].
Qed.

Lemma allChars_app (p : ascii -> bool) (a b : string) :
  allChars p (a ++ b) = allChars p a && allChars p b.
Proof.
  induction a as [|c a IH]; simpl; [reflexivity|].
  now rewrite IH, andb_assoc.
Qed.

(** A star over a character class consumes a run of such characters and
    leaves the captures alone. *)
Lemma starLoop_Class {R : Type} (greedy : bool) (p : ascii -> bool)
      (k : string -> Regex.captures -> option R) :
  forall n s cs x,
    Regex.starLoop greedy (Regex.rmatch (Regex.Class p)) k n s cs = Some x ->
    exists run s',
      s = run ++ s' /\ allChars p run = true /\ k s' cs = Some x.
Proof.
  induction n as [|n IH]; intros s cs x H; cbn [Regex.starLoop] in H.
  - now exists EmptyString, s.
  - assert (Again : forall y,
      Regex.rmatch (Regex.Class p) s cs
        (fun s' cs' =>
           if String.length s' <? String.length s
           then Regex.starLoop greedy (Regex.rmatch (Regex.Class p)) k n s' cs'
           else None) = Some y ->
      exists run s', s = run ++ s' /\ allChars p run = true
                     /\ k s' cs = Some y).
    { intros y Hy. cbn [Regex.rmatch] in Hy.
      destruct s as [|c s]; [discriminate|].
      destruct (p c) eqn:Pc; [|discriminate].
      destruct (String.length s <? String.length (String c s));
        [|discriminate].
      apply IH in Hy as (run & s' & -> & Hrun & Hk).
      exists (String c run), s'. cbn [allChars String.append].
      now rewrite Pc, Hrun. }
    destruct greedy.
    + destruct (Regex.rmatch (Regex.Class p) s cs _) eqn:E.
      * injection H as <-. now apply Again.
      * now exists EmptyString, s.
    + destruct (k s cs) eqn:E.
      * injection H as <-. now exists EmptyString, s.
      * now apply Again.
Qed.

Lemma rmatch_group_word {R : Type} (i : nat) (s : string)
      (cs : Regex.captures) (k : string -> Regex.captures -> option R) x :
  Regex.rmatch (Regex.Group i (Regex.Plus Regex.Word)) s cs k = Some x ->
  exists name s',
    name <> EmptyString /\ allChars Js.isWordChar name = true
    /\ k s' ((i, name) :: cs) = Some x.
Proof.
  cbn [Regex.rmatch Regex.Plus Regex.Word]. intros H.
  destruct s as [|c s]; [discriminate|].
  destruct (Js.isWordChar c) eqn:Wc; [|discriminate].
  apply starLoop_Class in H as (run & s' & -> & Hrun & Hk).
  exists (String c run), s'. split; [discriminate|].
  split; [cbn [allChars]; now rewrite Wc, Hrun|].
  change (String c (run ++ s')) with (String c run ++ s') in Hk.
  now rewrite take_append in Hk.
Qed.

Lemma rmatch_Seq_inv {R : Type} (r1 r2 : Regex.regex) (s : string)
      (cs : Regex.captures) (k : string -> Regex.captures -> option R) x :
  Regex.rmatch (Regex.Seq r1 r2) s cs k = Some x ->
  exists s1 c1, Regex.rmatch r2 s1 c1 k = Some x.
Proof.
  cbn [Regex.rmatch]. intros H.
  apply rmatch_shrinks in H as (s1 & c1 & _ & H). now exists s1, c1.
Qed.

Lemma matchAt_publicClass (s : string) (len : nat) (m : Regex.captures) :
  Regex.matchAt Patterns.publicClass s = Some (len, m) ->
  exists name,
    Regex.capture 1 m = Some name
    /\ name <> EmptyString /\ allChars Js.isWordChar name = true.
Proof.
  unfold Regex.matchAt, Patterns.publicClass. intros H.
  apply rmatch_Seq_inv in H as (s1 & c1 & H).
  apply rmatch_Seq_inv in H as (s2 & c2 & H).
  apply rmatch_Seq_inv in H as (s3 & c3 & H).
  apply rmatch_Seq_inv in H as (s4 & c4 & H).
  apply rmatch_group_word in H as (name & s' & Hne & Hw & H).
  injection H as _ <-. exists name. cbn [Regex.capture Nat.eqb].
  now repeat split.
Qed.

(** X10.  The class name the Java backend extracts is never empty and is
    made of word characters only (letters, digits, underscore); the code
    it comes from contains the text public.  Without that text there is
    no class name, and the backend answers with its no-public-class error
    before it makes a workspace, writes a file or spawns a process. *)
Theorem mainClassMatch_word (code : string) :
  (forall name,
      mainClassMatch code = Some name ->
      name <> EmptyString /\ allChars Js.isWordChar name = true
      /\ Js.includes "public" code = true)
  /\ (Js.includes "public" code = false ->
      mainClassMatch code = None
      /\ forall (env : Env) (w : World),
          compileAndRunJava env code w
          = (Ret (mkResult "" (Some noPublicClassMessage)
                           (clock env (S (reads w)) - clock env (reads w))%Z),
             mkWorld (S (S (reads w))) (dirs w) (tracked w) (files w)
                     (spawned w))).
Proof.
  assert (Hname : forall name,
      mainClassMatch code = Some name ->
      name <> EmptyString /\ allChars Js.isWordChar name = true
      /\ Js.includes "public" code = true).
  { intros name H. unfold mainClassMatch in H.
    destruct (Regex.search Patterns.publicClass code) as [[[i l] cs]|] eqn:E;
      [|discriminate].
    assert (Hinc : Js.includes "public" code = true)
      by exact (search_includes "public" _ code _ E).
    assert (Hm : exists t l' , Regex.matchAt Patterns.publicClass t
                               = Some (l', cs)).
    { clear H Hinc. revert i l E.
      induction code as [|a s IH]; intros i l E; cbn [Regex.search] in E.
      - destruct (Regex.matchAt Patterns.publicClass EmptyString)
          as [[l0 c0]|] eqn:M; [|discriminate].
        injection E as _ _ <-. now exists EmptyString, l0.
      - destruct (Regex.matchAt Patterns.publicClass (String a s))
          as [[l0 c0]|] eqn:M.
        + injection E as _ _ <-. now exists (String a s), l0.
        + destruct (Regex.search Patterns.publicClass s)
            as [[[i' l'] c']|] eqn:E'; [|discriminate].
          injection E as _ _ <-. exact (IH i' l' eq_refl). }
    destruct Hm as (t & l' & Hm).
    apply matchAt_publicClass in Hm as (n & Hc & Hne & Hw).
    rewrite Hc in H. injection H as <-. now repeat split. }
  split; [exact Hname|].
  intros Hinc.
  assert (Hnone : mainClassMatch code = None).
  { destruct (mainClassMatch code) as [name|] eqn:E; [|reflexivity].
    destruct (Hname name eq_refl) as (_ & _ & H). congruence. }
  split; [exact Hnone|].
  intros env w. unfold compileAndRunJava. rewrite Hnone. reflexivity.
Qed.

Lemma mainClassMatch_word_witness :
  mainClassMatch "class Main { }" = None
  /\ forall (env : Env) (w : World),
      compileAndRunJava env "class Main { }" w
      = (Ret (mkResult "" (Some noPublicClassMessage)
                       (clock env (S (reads w)) - clock env (reads w))%Z),
         mkWorld (S (S (reads w))) (dirs w) (tracked w) (files w)
                 (spawned w)).
Proof.
  exact (proj2 (mainClassMatch_word "class Main { }") eq_refl).
Defined.

(** ** What a backend does to the world *)

(** X11.  A backend result without an error means that the last command
    the backend spawned ended normally, wrote nothing to stderr, and that
    the output is exactly what it wrote to stdout. *)
Theorem null_error_means_clean_run (env : Env) (b : BackendId)
        (code : string) (w w' : World) (r : CompilerResult) :
  runBackend env b code w = (Ret r, w') ->
  error r = None ->
  exists before command,
    spawned w' = (before ++ [command])%list
    /\ exec_cmd env command = Resolved (output r) EmptyString.
Proof.
  destruct w as [n ds ts fs ps]. destruct b; run_service;
    intros H E; try discriminate H;
    injection H as <- <-; cbn [error output spawned Js.orNull] in *;
    try discriminate E;
    match goal with
    | Hx : exec_cmd env ?c = Resolved ?so ?se |- context [[?c]] =>
        destruct se; [|discriminate E];
        eexists _, c; split; [reflexivity | exact Hx]
    end.
Qed.

Lemma null_error_means_clean_run_witness :
  exists before command,
    spawned (snd (runBackend sampleEnv Python "print(1)" emptyWorld))
    = (before ++ [command])%list
    /\ exec_cmd sampleEnv command = Resolved ("ok" ++ nl) EmptyString.
Proof.
  exact (null_error_means_clean_run sampleEnv Python "print(1)" emptyWorld
           _ _ eq_refl eq_refl).
Defined.

(** X12.  A backend writes at most one file, the code as it is, inside the
    workspace it has just made; it spawns a process only after that file
    is written, and then one or two: one when the backend has no compile
    step. *)
Theorem backend_footprint (env : Env) (b : BackendId) (code : string)
        (w : World) :
  let w' := snd (runBackend env b code w) in
  (files w' = files w /\ spawned w' = spawned w)
  \/ (exists d name commands,
         tmp_mkdir env (workspacePrefix b) (dirs w) = inl d
         /\ files w' = (pathJoin d name, code) :: files w
         /\ spawned w' = (spawned w ++ commands)%list
         /\ 1 <= List.length commands <= 2
         /\ (compilerCommand b code d = None -> List.length commands = 1)).
Proof.
  destruct w as [n ds ts fs ps].
  destruct b; cbv zeta; cbn [workspacePrefix compilerCommand]; run_service.
  all: try (left; split; reflexivity).
  all: right; eexists _, _, _; split; [reflexivity|];
    split; [reflexivity|]; rewrite <- ?app_assoc;
    (split; [reflexivity|]); cbn [List.length app];
    split; [lia|]; intros H; try discriminate H; reflexivity.
Qed.

(** X13.  When the workspace is made, the code written and the compiler,
    where there is one, has succeeded, the result follows the run command
    alone: on a normal end the output is its stdout and the error its
    stderr, or null when that is empty; on a failed run the output is the
    stdout that was captured, possibly none, and the error is its stderr
    or the backend's fixed text, so it is never null. *)
Theorem run_phase_result (env : Env) (b : BackendId)
        (code tmpDir run : string) (w : World) :
  tmp_mkdir env (workspacePrefix b) (dirs w) = inl tmpDir ->
  (forall path, write_file env path code = None) ->
  (forall compile,
      compilerCommand b code tmpDir = Some compile ->
      exists so se, exec_cmd env compile = Resolved so se) ->
  runCommand b code tmpDir = Some run ->
  exists r w',
    runBackend env b code w = (Ret r, w')
    /\ (exists before, spawned w' = (before ++ [run])%list)
    /\ match exec_cmd env run with
       | Resolved so se => output r = so /\ error r = Js.orNull se
       | Rejected _ so se =>
           output r = Js.orElse so ""
           /\ error r = Some (Js.orElse se (runErrorText b))
       end.
Proof.
  intros Hdir Hwrite Hcompile Hrun. destruct w as [n ds ts fs ps].
  cbn [dirs] in Hdir.
  destruct b; cbn [workspacePrefix compilerCommand runCommand runErrorText]
    in *; unfold_service;
    try (destruct (mainClassMatch code) as [cls|]; [|discriminate Hrun]);
    unfold_service; rewrite Hdir; unfold_service; rewrite Hwrite;
    unfold_service;
    try (destruct (Hcompile _ eq_refl) as (cso & cse & Hc); rewrite Hc;
         unfold_service);
    match type of Hrun with
    | Some ?c = Some _ =>
        assert (Er : c = run) by (now injection Hrun); clear Hrun; subst run
    end;
    match goal with
    | |- context [exec_cmd env ?c] => destruct (exec_cmd env c) eqn:Hx
    end; unfold_service;
    (eexists _, _; split; [reflexivity|]; cbn [spawned output error];
     split; [eexists; reflexivity | split; reflexivity]).
Qed.

Lemma run_phase_result_witness :
  exists r w',
    runBackend sampleEnv Java "public class A {}" emptyWorld = (Ret r, w')
    /\ (exists before,
           spawned w' = (before ++ ["java -cp /tmp/java-compiler A"])%list)
    /\ output r = "ok" ++ nl /\ error r = None.
Proof.
  refine (run_phase_result sampleEnv Java "public class A {}"
            "/tmp/java-compiler" "java -cp /tmp/java-compiler A" emptyWorld
            eq_refl (fun _ => eq_refl) _ eq_refl).
  intros compile H. injection H as <-. eexists _, _. reflexivity.
Defined.

(** ** The dispatcher and the controller as a whole *)

Lemma runBackend_not_hang (env : Env) (b : BackendId) (code : string)
      (w : World) :
  fst (runBackend env b code w) <> Hang.
Proof.
  destruct w as [n ds ts fs ps]. destruct b; run_service; discriminate.
Qed.

Lemma executeCode_returns (env : Env) (code language : string) (w : World) :
  exists r w', executeCode env code language w = (Ret r, w').
Proof.
  unfold executeCode, bind, tryCatch, dateNow. cbn beta iota.
  destruct (route language) as [b|].
  - pose proof (runBackend_not_hang env b code (afterStart w)) as N.
    unfold afterStart in N.
    destruct (runBackend env b code _) as [[r|e|] w1]; cbn [fst] in N.
    + now exists r, w1.
    + cbv beta iota zeta delta [ret]. eexists _, _. reflexivity.
    + contradiction.
  - destruct (extractOutput_total code language) as [out Hout].
    rewrite (simulateExecution_run env code language out _ Hout).
    eexists _, _. reflexivity.
Qed.

(** X14.  For a language text without a backend (html, css, and any text
    the dispatcher does not know, such as a capitalised Python) executeCode
    makes no directory, writes no file and spawns no process; its result
    has no error, and for html and css the output is the fixed frontend
    message. *)
Theorem executeCode_simulated_is_pure (env : Env) (code language : string)
        (w : World) :
  route language = Simulator ->
  exists r w',
    executeCode env code language w = (Ret r, w')
    /\ error r = None
    /\ dirs w' = dirs w /\ tracked w' = tracked w
    /\ files w' = files w /\ spawned w' = spawned w
    /\ (language = "html" \/ language = "css" -> output r = frontendMessage).
Proof.
  intros Hr. unfold executeCode, bind, tryCatch, dateNow. cbn beta iota.
  rewrite Hr.
  destruct (extractOutput_total code language) as [out Hout].
  rewrite (simulateExecution_run env code language out _ Hout).
  eexists _, _. split; [reflexivity|]. cbn [error output dirs tracked files spawned].
  repeat (split; [reflexivity|]).
  intros Hl. rewrite (extractOutput_frontend code language Hl) in Hout.
  injection Hout as <-. destruct Hl as [-> | ->]; reflexivity.
Qed.

Lemma executeCode_simulated_is_pure_witness :
  exists r w',
    executeCode sampleEnv "<p>hi</p>" "html" emptyWorld = (Ret r, w')
    /\ error r = None
    /\ dirs w' = [] /\ tracked w' = []
    /\ files w' = [] /\ spawned w' = []
    /\ ("html" = "html" \/ "html" = "css" -> output r = frontendMessage).
Proof.
  exact (executeCode_simulated_is_pure sampleEnv "<p>hi</p>" "html"
           emptyWorld eq_refl).
Defined.

(** X15.  The controller always answers, with 400 or with 200, never with
    500.  A 400 is the answer to every request that is not accepted (a
    field missing or empty, a language the registry rejects, code the
    checker reports); it carries a message and no output, and nothing was
    run for it: no directory, file or process.  A 200 is the answer to an
    accepted request and carries the result of executeCode, whose error may
    well be set. *)
Theorem compileCode_responds (env : Env) (req : CompileRequest) (w : World) :
  exists r w',
    compileCode env req w = (Ret r, w')
    /\ ((status r = 400 /\ success r = false /\ w' = w
         /\ body_output r = None
         /\ (exists msg, body_error r = Some msg)
         /\ forall code language, ~ accepted req code language)
        \/ (status r = 200 /\ success r = true
            /\ exists code language res,
                accepted req code language
                /\ executeCode env code language w = (Ret res, w')
                /\ body_output r = Some (output res)
                /\ body_error r = error res
                /\ body_executionTime r = Some (executionTime res))).
Proof.
  destruct req as [code language]. unfold compileCode, tryCatch, accepted.
  cbn [req_code req_language].
  assert (Bad : forall msg,
    (forall c l,
        ~ (code = Some c /\ c <> EmptyString
           /\ language = Some l /\ l <> EmptyString
           /\ isSupportedLanguage l = true
           /\ checkSyntax c l = syntaxOk)) ->
    exists r w',
      (Ret (badRequest (Some msg)), w) = (Ret r, w')
      /\ ((status r = 400 /\ success r = false /\ w' = w
           /\ body_output r = None /\ (exists m, body_error r = Some m)
           /\ forall c l,
               ~ (code = Some c /\ c <> EmptyString
                  /\ language = Some l /\ l <> EmptyString
                  /\ isSupportedLanguage l = true
                  /\ checkSyntax c l = syntaxOk))
          \/ (status r = 200 /\ success r = true
              /\ exists c l res,
                  (code = Some c /\ c <> EmptyString
                   /\ language = Some l /\ l <> EmptyString
                   /\ isSupportedLanguage l = true
                   /\ checkSyntax c l = syntaxOk)
                  /\ executeCode env c l w = (Ret res, w')
                  /\ body_output r = Some (output res)
                  /\ body_error r = error res
                  /\ body_executionTime r = Some (executionTime res)))).
  { intros msg N. eexists _, _. split; [reflexivity|]. left.
    cbn. repeat split; [now exists msg | exact N]. }
  destruct code as [[|c0 code]|];
    try (apply Bad; intros c l (E & Ne & _); congruence).
  destruct language as [[|l0 language]|];
    try (apply Bad; intros c l (_ & _ & E & Ne & _); congruence).
  destruct (isSupportedLanguage (String l0 language)) eqn:Hs; cbn [negb];
    [|apply Bad; intros c l (_ & _ & E & _ & Hsup & _); congruence].
  destruct (checkSyntax_shape (String c0 code) (String l0 language))
    as [Hok | (msg & Herr & _)].
  - rewrite Hok. cbn [hasError syntaxOk]. unfold bind, ret.
    destruct (executeCode_returns env (String c0 code) (String l0 language) w)
      as (res & w1 & He).
    rewrite He. eexists _, _. split; [reflexivity|]. right.
    cbn [status success body_output body_error body_executionTime].
    split; [reflexivity|]. split; [reflexivity|].
    exists (String c0 code), (String l0 language), res.
    repeat split; try assumption; discriminate.
  - rewrite Herr. cbn [hasError syntaxError errorMessage]. apply Bad.
    intros c l (Ec & _ & El & _ & _ & K).
    injection Ec as <-. injection El as <-. rewrite Herr in K.
    unfold syntaxError, syntaxOk in K. discriminate K.
Qed.

(** ** Failures before any process *)

(** X16.  When the workspace cannot be made, or the source file cannot
    be written, executeCode answers with empty output and the message of
    that error, and no process is spawned; in the second case the
    workspace that was made stays. *)
Theorem infrastructure_failure_reported (env : Env) (b : BackendId)
        (code language msg : string) (so se : option string) (w : World) :
  route language = Backend b ->
  (b = Java -> mainClassMatch code <> None) ->
  tmp_mkdir env (workspacePrefix b) (dirs w) = inr (ErrorObj msg so se)
  \/ (exists d, tmp_mkdir env (workspacePrefix b) (dirs w) = inl d
                /\ forall path,
                    write_file env path code = Some (ErrorObj msg so se)) ->
  exists r w',
    executeCode env code language w = (Ret r, w')
    /\ output r = EmptyString /\ error r = Some msg
    /\ spawned w' = spawned w /\ files w' = files w
    /\ forall d, tmp_mkdir env (workspacePrefix b) (dirs w) = inl d ->
                 dirs w' = d :: dirs w.
Proof.
  intros Hr Hj Hfail. unfold executeCode, bind, tryCatch, dateNow.
  cbn beta iota. rewrite Hr. destruct w as [n ds ts fs ps].
  cbn [dirs reads tracked files spawned] in *.
  assert (Hc : b = Java -> exists cls, mainClassMatch code = Some cls).
  { intros E. specialize (Hj E).
    destruct (mainClassMatch code) as [cls|]; [now exists cls|contradiction]. }
  destruct Hfail as [Hd | (d & Hd & Hw)];
    destruct b; cbn [workspacePrefix] in Hd; unfold_service;
    try (destruct (Hc eq_refl) as [cls Hcls]; rewrite Hcls; unfold_service);
    rewrite Hd; unfold_service; rewrite ?Hw; unfold_service;
    (eexists _, _; split; [reflexivity|];
     cbn [output error spawned files dirs errorText];
     repeat (split; [reflexivity|]); intros d' Hd';
     cbn [workspacePrefix] in Hd'; congruence).
Qed.

Lemma infrastructure_failure_reported_witness :
  exists r w',
    executeCode fullDiskEnv "print(1)" "python" emptyWorld = (Ret r, w')
    /\ output r = EmptyString
    /\ error r = Some "ENOSPC: no space left on device"
    /\ spawned w' = [] /\ files w' = []
    /\ forall d, tmp_mkdir fullDiskEnv "python-runner" [] = inl d ->
                 dirs w' = [d].
Proof.
  refine (infrastructure_failure_reported fullDiskEnv Python "print(1)"
            "python" "ENOSPC: no space left on device" None None emptyWorld
            eq_refl _ (or_introl eq_refl)).
  discriminate.
Defined.

(** ** Terminated string literals *)

Lemma scanStep_inside (st : ScanState) (k : StringKind) (c : ascii) :
  flagsOf st = kindFlags k -> escapeNext st = false ->
  c <> kindChar k -> c <> Patterns.backslash ->
  flagsOf (scanStep st c) = kindFlags k /\ escapeNext (scanStep st c) = false.
Proof.
  unfold flagsOf, scanStep. destruct st as [a b t e sl cl ty].
  cbn [inSingleQuote inDoubleQuote inTemplateLiteral escapeNext
       stringStartLine currentLine stringType].
  intros Hf -> Hk Hb. apply Ascii.eqb_neq in Hb. rewrite Hb.
  destruct k; injection Hf as -> -> ->; cbn [kindChar] in Hk;
    apply Ascii.eqb_neq in Hk; cbn [negb andb]; rewrite ?Hk;
    cbn [inSingleQuote inDoubleQuote inTemplateLiteral escapeNext];
    split; reflexivity.
Qed.

Lemma scanFrom_inside (k : StringKind) (body : string) :
  countChar (kindChar k) body = 0 ->
  countChar Patterns.backslash body = 0 ->
  forall st,
    flagsOf st = kindFlags k -> escapeNext st = false ->
    flagsOf (scanFrom st body) = kindFlags k
    /\ escapeNext (scanFrom st body) = false.
Proof.
  induction body as [|c body IH]; intros Hk Hb st Hf He; [now split|].
  cbn [countChar] in Hk, Hb. cbn [scanFrom].
  destruct (Ascii.eqb_spec (kindChar k) c) as [|Nk]; [discriminate|].
  destruct (Ascii.eqb_spec Patterns.backslash c) as [|Nb]; [discriminate|].
  destruct (scanStep_inside st k c Hf He (not_eq_sym Nk) (not_eq_sym Nb))
    as [Hf' He'].
  now apply IH.
Qed.

Lemma scanStep_open_close (st : ScanState) (k : StringKind) :
  escapeNext st = false ->
  (flagsOf st = (false, false, false) ->
   flagsOf (scanStep st (kindChar k)) = kindFlags k
   /\ escapeNext (scanStep st (kindChar k)) = false)
  /\ (flagsOf st = kindFlags k ->
      flagsOf (scanStep st (kindChar k)) = (false, false, false)
      /\ escapeNext (scanStep st (kindChar k)) = false).
Proof.
  unfold flagsOf, scanStep. destruct st as [a b t e sl cl ty].
  cbn [inSingleQuote inDoubleQuote inTemplateLiteral escapeNext
       stringStartLine currentLine stringType].
  intros ->. split; intros Hf; destruct k; injection Hf as -> -> ->;
    split; reflexivity.
Qed.

(** X17.  A string literal without a backslash and without its own quote
    inside, opened where the scanner is outside every string, brings the
    scanner back outside when its closing quote is read; line feeds and
    the two other kinds of quote inside it do not matter. *)
Theorem terminated_literal_closes (p body : string) (k : StringKind) :
  inString (scan p) = false -> escapeNext (scan p) = false ->
  countChar (kindChar k) body = 0 ->
  countChar Patterns.backslash body = 0 ->
  let literal :=
    String (kindChar k) (body ++ String (kindChar k) EmptyString) in
  inString (scan (p ++ literal)) = false
  /\ escapeNext (scan (p ++ literal)) = false
  /\ currentLine (scan (p ++ literal)) = S (newlines p + newlines body).
Proof.
  intros Hout Hesc Hk Hb literal. subst literal.
  split; [|split].
  - unfold scan. rewrite scanFrom_app. fold (scan p). cbn [scanFrom].
    rewrite scanFrom_app. cbn [scanFrom].
    destruct (proj1 (scanStep_open_close (scan p) k Hesc)
                (inString_flags _ Hout)) as [F1 E1].
    destruct (scanFrom_inside k body Hk Hb _ F1 E1) as [F2 E2].
    destruct (proj2 (scanStep_open_close _ k E2) F2) as [F3 _].
    now apply (proj1 (flags_inString _)).
  - unfold scan. rewrite scanFrom_app. fold (scan p). cbn [scanFrom].
    rewrite scanFrom_app. cbn [scanFrom].
    destruct (proj1 (scanStep_open_close (scan p) k Hesc)
                (inString_flags _ Hout)) as [F1 E1].
    destruct (scanFrom_inside k body Hk Hb _ F1 E1) as [F2 E2].
    now destruct (proj2 (scanStep_open_close _ k E2) F2).
  - destruct (scanInv_all (p ++ String (kindChar k)
                                  (body ++ String (kindChar k) EmptyString)))
      as [L _].
    rewrite L. unfold newlines. rewrite countChar_app. cbn [countChar].
    rewrite countChar_app. cbn [countChar].
    rewrite (Ascii.eqb_sym Patterns.newline (kindChar k)), kind_not_newline.
    lia.
Qed.

Lemma terminated_literal_closes_witness :
  inString (scan ("let s = " ++ String Patterns.dquote
                    ("it's" ++ nl ++ "{" ++ String Patterns.dquote ""))) = false.
Proof.
  exact (proj1 (terminated_literal_closes "let s = " ("it's" ++ nl ++ "{")
                  DoubleQuote eq_refl eq_refl eq_refl eq_refl)).
Defined.
